(** * mcp-gemini: request lifecycle and resilience layer

    A shallow embedding of the TypeScript sources of the mcp-gemini server:
    - [types.ts]        thinking-level capability table, MIME table, error
                        categories;
    - [retry.ts]        [withRetry], [withTimeout];
    - [providers/gemini-text.ts], [providers/gemini-image.ts],
      [providers/deep-research.ts]   the three orchestrators;
    - [index.ts]        the tool dispatcher.

    JavaScript strings are modelled as [string], holding the UTF-8
    encoding of the text; integral JavaScript numbers (millisecond
    durations, counts, HTTP statuses) as [Z].  Exceptions are modelled by
    the [Result] type; code that performs effects is written in a state and
    exception monad over an explicit [State].  Its trace records the calls
    the orchestrators make to the vendor, to [fetch], to [sleep] and to the
    file system on behalf of the caller (attachments read, output directory
    and image written); its clock counter counts the clock readings that
    decide the control flow (those of the research poll loop).  The
    orchestrators' calls to the logger, and the clock readings they make
    only to report a duration to it, are not part of the trace; the logger
    itself ([logger.ts]) is modelled on its own. *)

From Stdlib Require Import String Ascii ZArith List Bool Lia.
From Stdlib Require Import DecimalString.
From Stdlib Require QArith_base.
Import ListNotations.

Local Open Scope string_scope.
Local Open Scope Z_scope.

(* ===================================================================== *)
(** * JavaScript string primitives *)
(* ===================================================================== *)

Module JsString.

(** [s.startsWith(p)] *)
Definition startsWith (s p : string) : bool := String.prefix p s.

(** [s.includes(p)]: [p] occurs somewhere in [s]. *)
Fixpoint includes (s p : string) : bool :=
  if String.prefix p s then true
  else match s with
       | EmptyString => false
       | String _ s' => includes s' p
       end.

Definition lowerAscii (c : ascii) : ascii :=
  let n := nat_of_ascii c in
  if (Nat.leb 65 n && Nat.leb n 90)%bool then ascii_of_nat (n + 32) else c.

(** The value of a byte. *)
Definition byte (c : ascii) : nat := nat_of_ascii c.

(** A string of ASCII characters only. *)
Fixpoint isAscii (s : string) : bool :=
  match s with
  | EmptyString => true
  | String c s' => Nat.ltb (byte c) 128 && isAscii s'
  end.

(** The two characters outside ASCII whose lower case holds an ASCII
    letter: U+0130 (bytes C4 B0), which becomes [i] followed by U+0307
    (bytes CC 87), and the Kelvin sign U+212A (bytes E2 84 AA), which
    becomes [k]. *)
Definition isCapitalIDot (a b : ascii) : bool :=
  Nat.eqb (byte a) 196 && Nat.eqb (byte b) 176.

Definition isKelvinSign (a b c : ascii) : bool :=
  Nat.eqb (byte a) 226 && Nat.eqb (byte b) 132 && Nat.eqb (byte c) 170.

(** [s.toLowerCase()]: the letters A to Z and the two characters above
    are folded; every other character outside ASCII is kept.  On a string
    of ASCII characters the result is the source's; on any other string
    it has the source's ASCII letters at the source's places, separated
    as in the source, and differs from it where a character kept here has
    a lower case of its own. *)
Fixpoint toLowerCase (s : string) : string :=
  match s with
  | EmptyString => EmptyString
  | String a s1 =>
      match s1 with
      | String b s2 =>
          if isCapitalIDot a b then
            String "i"%char
              (String (ascii_of_nat 204) (String (ascii_of_nat 135) (toLowerCase s2)))
          else
            match s2 with
            | String c s3 =>
                if isKelvinSign a b c then String "k"%char (toLowerCase s3)
                else String (lowerAscii a) (toLowerCase s1)
            | EmptyString => String (lowerAscii a) (toLowerCase s1)
            end
      | EmptyString => String (lowerAscii a) (toLowerCase s1)
      end
  end.

(** The letters A to Z folded byte by byte. *)
Fixpoint foldAsciiLetters (s : string) : string :=
  match s with
  | EmptyString => EmptyString
  | String c s' => String (lowerAscii c) (foldAsciiLetters s')
  end.

(** White space and line terminators, as [trim] removes them, by the
    length of their encoding.  One byte: TAB, LF, VT, FF, CR, SPACE. *)
Definition isSpace (c : ascii) : bool :=
  let n := nat_of_ascii c in
  (Nat.leb 9 n && Nat.leb n 13)%bool || Nat.eqb n 32.

(** Two bytes: U+00A0. *)
Definition isSpace2 (a b : ascii) : bool :=
  Nat.eqb (byte a) 194 && Nat.eqb (byte b) 160.

(** Three bytes: U+1680, U+2000 to U+200A, U+2028, U+2029, U+202F, U+205F,
    U+3000 and U+FEFF. *)
Definition isSpace3 (a b c : ascii) : bool :=
  let x := byte a in
  let y := byte b in
  let z := byte c in
  (Nat.eqb x 225 && Nat.eqb y 154 && Nat.eqb z 128)
  || (Nat.eqb x 226 && Nat.eqb y 128
      && ((Nat.leb 128 z && Nat.leb z 138)
          || Nat.eqb z 168 || Nat.eqb z 169 || Nat.eqb z 175))
  || (Nat.eqb x 226 && Nat.eqb y 129 && Nat.eqb z 159)
  || (Nat.eqb x 227 && Nat.eqb y 128 && Nat.eqb z 128)
  || (Nat.eqb x 239 && Nat.eqb y 187 && Nat.eqb z 191).

(** The line terminators among them: U+2028 and U+2029. *)
Definition isLineTerminator3 (a b c : ascii) : bool :=
  Nat.eqb (byte a) 226 && Nat.eqb (byte b) 128
  && (Nat.eqb (byte c) 168 || Nat.eqb (byte c) 169).

(** [s.trimStart()] *)
Fixpoint trimStart (s : string) : string :=
  match s with
  | EmptyString => EmptyString
  | String a s1 =>
      if isSpace a then trimStart s1
      else
        match s1 with
        | EmptyString => s
        | String b s2 =>
            if isSpace2 a b then trimStart s2
            else
              match s2 with
              | EmptyString => s
              | String c s3 => if isSpace3 a b c then trimStart s3 else s
              end
        end
  end.

Fixpoint reverseOnto (s acc : string) : string :=
  match s with
  | EmptyString => acc
  | String c s' => reverseOnto s' (String c acc)
  end.

(** The bytes of [s] in reverse order. *)
Definition reverse (s : string) : string := reverseOnto s EmptyString.

(** [trimStart] on a string that is read backwards. *)
Fixpoint trimStartReversed (s : string) : string :=
  match s with
  | EmptyString => EmptyString
  | String c s1 =>
      if isSpace c then trimStartReversed s1
      else
        match s1 with
        | EmptyString => s
        | String b s2 =>
            if isSpace2 b c then trimStartReversed s2
            else
              match s2 with
              | EmptyString => s
              | String a s3 => if isSpace3 a b c then trimStartReversed s3 else s
              end
        end
  end.

(** [s.trimEnd()] *)
Definition trimEnd (s : string) : string :=
  reverse (trimStartReversed (reverse s)).

(** [s.trim()] *)
Definition trim (s : string) : string := trimEnd (trimStart s).

(** Truthiness of a string: only the empty string is falsy. *)
Definition truthy (s : string) : bool :=
  match s with EmptyString => false | _ => true end.

(** [arr.join(sep)] *)
Definition join (sep : string) (l : list string) : string := String.concat sep l.

(** [arr.includes(x)] for an array of strings. *)
Definition arrayIncludes (l : list string) (x : string) : bool :=
  existsb (String.eqb x) l.

(** Template-literal rendering of an integral number. *)
Definition ofZ (z : Z) : string := NilZero.string_of_int (Z.to_int z).

(** The characters that a Rocq string literal cannot spell. *)
Definition dquote : string := String (ascii_of_nat 34) EmptyString.
Definition nl : string := String (ascii_of_nat 10) EmptyString.

End JsString.

Import JsString.

(* ===================================================================== *)
(** * Errors and results *)
(* ===================================================================== *)

(** A JavaScript [Error] value: its message and the two optional numeric
    properties that [categorizeError] inspects, [status] and [statusCode]. *)
Record Error : Type := mkErrorWith {
  message : string;
  status : option Z;
  errorStatusCode : option Z
}.

(** An error that has a message and at most a [status]. *)
Definition mkError (message : string) (status : option Z) : Error :=
  mkErrorWith message status None.

(** [new Error(msg)] *)
Definition newError (msg : string) : Error := mkError msg None.

(** The outcome of evaluating code that may throw. *)
Inductive Result (A : Type) : Type :=
| Ok (a : A)
| Throw (e : Error).
Arguments Ok {A} a.
Arguments Throw {A} e.

(* ===================================================================== *)
(** * types.ts *)
(* ===================================================================== *)

Inductive ThinkingLevelOption : Type := minimal | low | medium | high.

Inductive SupportedTextModel : Type := gemini_3_pro | gemini_3_flash.

Inductive SupportedImageModel : Type := nano_banana | nano_banana_pro.

Definition ThinkingLevelOption_eqb (a b : ThinkingLevelOption) : bool :=
  match a, b with
  | minimal, minimal | low, low | medium, medium | high, high => true
  | _, _ => false
  end.

Definition levelName (l : ThinkingLevelOption) : string :=
  match l with
  | minimal => "minimal" | low => "low" | medium => "medium" | high => "high"
  end.

Definition textModelName (m : SupportedTextModel) : string :=
  match m with
  | gemini_3_pro => "gemini-3-pro"
  | gemini_3_flash => "gemini-3-flash"
  end.

Definition imageModelName (m : SupportedImageModel) : string :=
  match m with
  | nano_banana => "nano-banana"
  | nano_banana_pro => "nano-banana-pro"
  end.

Definition SUPPORTED_TEXT_MODELS : list SupportedTextModel :=
  [gemini_3_pro; gemini_3_flash].

Definition SUPPORTED_IMAGE_MODELS : list SupportedImageModel :=
  [nano_banana; nano_banana_pro].

Definition TEXT_MODEL_IDS (m : SupportedTextModel) : string :=
  match m with
  | gemini_3_pro => "gemini-3-pro-preview"
  | gemini_3_flash => "gemini-3-flash-preview"
  end.

Definition DEFAULT_TEXT_MODEL : SupportedTextModel := gemini_3_pro.

(** Thinking levels supported by each model. *)
Definition MODEL_THINKING_LEVELS (m : SupportedTextModel) : list ThinkingLevelOption :=
  match m with
  | gemini_3_pro => [low; high]
  | gemini_3_flash => [minimal; low; medium; high]
  end.

(** Returns an error message if the level is not supported by the model,
    [None] (JavaScript [undefined]) if it is. *)
Definition validateThinkingLevel (model : SupportedTextModel)
    (level : ThinkingLevelOption) : option string :=
  let supportedLevels := MODEL_THINKING_LEVELS model in
  if negb (existsb (ThinkingLevelOption_eqb level) supportedLevels) then
    Some (textModelName model ++ " only supports thinking levels: "
          ++ join ", " (map levelName supportedLevels)
          ++ ". Got: " ++ levelName level)
  else None.

(** Supported MIME types for multimodal input, keyed by extension. *)
Definition SUPPORTED_MIME_TYPES : list (string * string) :=
  [ (".jpg", "image/jpeg"); (".jpeg", "image/jpeg"); (".png", "image/png");
    (".webp", "image/webp"); (".heic", "image/heic"); (".heif", "image/heif");
    (".wav", "audio/wav"); (".mp3", "audio/mp3"); (".aiff", "audio/aiff");
    (".aif", "audio/aiff"); (".aac", "audio/aac"); (".ogg", "audio/ogg");
    (".flac", "audio/flac");
    (".mp4", "video/mp4"); (".mpeg", "video/mpeg"); (".mpg", "video/mpg");
    (".mov", "video/mov"); (".avi", "video/avi"); (".flv", "video/x-flv");
    (".webm", "video/webm"); (".wmv", "video/wmv"); (".3gp", "video/3gpp");
    (".3gpp", "video/3gpp");
    (".pdf", "application/pdf");
    (".txt", "text/plain"); (".md", "text/markdown"); (".html", "text/html");
    (".htm", "text/html"); (".xml", "text/xml"); (".css", "text/css");
    (".js", "text/javascript"); (".ts", "text/typescript");
    (".json", "application/json"); (".csv", "text/csv");
    (".rtf", "application/rtf") ].

(** Property lookup [table[key]] in a string-keyed object literal. *)
Fixpoint lookup (table : list (string * string)) (key : string) : option string :=
  match table with
  | [] => None
  | (k, v) :: rest => if String.eqb k key then Some v else lookup rest key
  end.

(** [SUPPORTED_TEXT_MODELS.includes(model)] and its image counterpart, on
    the model's name. *)
Definition isSupportedTextModel (model : string) : bool :=
  arrayIncludes (map textModelName SUPPORTED_TEXT_MODELS) model.

Definition isSupportedImageModel (model : string) : bool :=
  arrayIncludes (map imageModelName SUPPORTED_IMAGE_MODELS) model.

Inductive ErrorCategory : Type :=
| AUTH_ERROR | RATE_LIMIT | CONTENT_BLOCKED | SAFETY_BLOCK
| TIMEOUT | API_ERROR | VALIDATION_ERROR.

Definition categoryName (c : ErrorCategory) : string :=
  match c with
  | AUTH_ERROR => "AUTH_ERROR" | RATE_LIMIT => "RATE_LIMIT"
  | CONTENT_BLOCKED => "CONTENT_BLOCKED" | SAFETY_BLOCK => "SAFETY_BLOCK"
  | TIMEOUT => "TIMEOUT" | API_ERROR => "API_ERROR"
  | VALIDATION_ERROR => "VALIDATION_ERROR"
  end.

(** [class MCPError extends Error]: the message is ["<category>: <message>"]. *)
Record MCPError : Type := mkMCPError {
  category : ErrorCategory;
  mcpMessage : string;
  statusCode : option Z
}.

Definition newMCPError (c : ErrorCategory) (msg : string) (st : option Z) : MCPError :=
  mkMCPError c (categoryName c ++ ": " ++ msg) st.

(** [error.status || error.statusCode]: a status of 0 is falsy. *)
Definition statusOf (e : Error) : option Z :=
  match status e with
  | Some s => if s =? 0 then errorStatusCode e else Some s
  | None => errorStatusCode e
  end.

Definition statusIs (e : Error) (n : Z) : bool :=
  match statusOf e with Some s => s =? n | None => false end.

(** Categorize an error from the Gemini API: first match over an ordered
    rule list. *)
Definition categorizeError (error : Error) : MCPError :=
  let msg := message error in
  let st := statusOf error in
  if statusIs error 401 || includes msg "API key" || includes msg "unauthorized" then
    newMCPError AUTH_ERROR "Invalid or missing Gemini API key" st
  else if statusIs error 429 || includes msg "rate" || includes msg "quota" then
    newMCPError RATE_LIMIT
      "Gemini API rate limit or quota exceeded. Please wait and retry." st
  else if includes msg "safety" || includes msg "SAFETY" then
    newMCPError SAFETY_BLOCK "Content was blocked by Gemini safety filters" st
  else if includes msg "blocked" || includes msg "content policy" then
    newMCPError CONTENT_BLOCKED "Request blocked due to content policy" st
  else if includes msg "TIMEOUT" || includes msg "timed out" then
    newMCPError TIMEOUT msg None
  else newMCPError API_ERROR msg st.

(* ===================================================================== *)
(** * retry.ts *)
(* ===================================================================== *)

(** [Required<RetryOptions>] *)
Record RetryOptions : Type := mkRetryOptions {
  maxRetries : Z;
  initialDelayMs : Z;
  maxDelayMs : Z;
  backoffMultiplier : Z;
  retryableErrors : list string
}.

(** [RetryOptions] as a caller passes it: every field may be absent. *)
Record RetryOverrides : Type := mkRetryOverrides {
  maxRetries' : option Z;
  initialDelayMs' : option Z;
  maxDelayMs' : option Z;
  backoffMultiplier' : option Z;
  retryableErrors' : option (list string)
}.

Definition noOverrides : RetryOverrides :=
  mkRetryOverrides None None None None None.

Definition DEFAULT_OPTIONS : RetryOptions :=
  {| maxRetries := 3;
     initialDelayMs := 1000;
     maxDelayMs := 30000;
     backoffMultiplier := 2;
     retryableErrors :=
       ["RATE_LIMIT"; "ECONNRESET"; "ETIMEDOUT"; "ENOTFOUND"; "429"; "503"; "502"] |}.

Definition orDefault {A : Type} (o : option A) (d : A) : A :=
  match o with Some a => a | None => d end.

(** [{ ...DEFAULT_OPTIONS, ...options }] *)
Definition mergeOptions (d : RetryOptions) (o : RetryOverrides) : RetryOptions :=
  {| maxRetries := orDefault (maxRetries' o) (maxRetries d);
     initialDelayMs := orDefault (initialDelayMs' o) (initialDelayMs d);
     maxDelayMs := orDefault (maxDelayMs' o) (maxDelayMs d);
     backoffMultiplier := orDefault (backoffMultiplier' o) (backoffMultiplier d);
     retryableErrors := orDefault (retryableErrors' o) (retryableErrors d) |}.

Definition isRetryableError (error : Error) (retryablePatterns : list string) : bool :=
  let msg := message error in
  existsb
    (fun pattern =>
       includes msg pattern || includes (toLowerCase msg) (toLowerCase pattern))
    retryablePatterns.

Section Retry.

(** The harness is generic in the state [St] its operation acts on and in
    the result type [T]; [sleep ms] is the effect of [await sleep(ms)]. *)
Context {St T : Type}.
Variable sleep : Z -> St -> St.

(** The [for] loop of [withRetry].  [iterations] is the number of loop
    iterations still allowed by the guard [attempt <= maxRetries + 1];
    when it is exhausted control reaches the statement after the loop. *)
Fixpoint retryLoop (opts : RetryOptions) (fn : St -> Result T * St)
    (iterations : nat) (attempt delay : Z) (lastError : option Error)
    (st : St) : Result T * St :=
  match iterations with
  | O =>
      (Throw (orDefault lastError (newError "Retry failed with unknown error")), st)
  | S iterations' =>
      match fn st with
      | (Ok v, st1) => (Ok v, st1)
      | (Throw error, st1) =>
          let isRetryable := isRetryableError error (retryableErrors opts) in
          let hasRetriesLeft := attempt <=? maxRetries opts in
          if negb isRetryable || negb hasRetriesLeft then (Throw error, st1)
          else
            let st2 := sleep delay st1 in
            retryLoop opts fn iterations' (attempt + 1)
              (Z.min (delay * backoffMultiplier opts) (maxDelayMs opts))
              (Some error) st2
      end
  end.

(** Execute a function with automatic retry on transient failures.  The
    two calls to the logger are left out. *)
Definition withRetry (fn : St -> Result T * St) (options : RetryOverrides)
    (st : St) : Result T * St :=
  let opts := mergeOptions DEFAULT_OPTIONS options in
  retryLoop opts fn (Z.to_nat (maxRetries opts + 1)) 1 (initialDelayMs opts) None st.

End Retry.

(** A promise seen from the moment it is created: it either stays pending
    for ever or settles, [at_ms] milliseconds later, with a result. *)
Inductive Promise (T : Type) : Type :=
| Pending
| Settled (at_ms : Z) (r : Result T).
Arguments Pending {T}.
Arguments Settled {T} at_ms r.

Definition timeoutError (timeoutMs : Z) : Error :=
  newError ("TIMEOUT: Operation timed out after " ++ ofZ timeoutMs ++ "ms").

(** [setTimeout(callback, delay)] on Node: the timer fires [delay]
    milliseconds later when [delay] lies between 1 and 2147483647, and one
    millisecond later otherwise. *)
Definition timerDelay (delay : Z) : Z :=
  if (delay <? 1) || (2147483647 <? delay) then 1 else delay.

(** [Promise.race([fn(), timer])] where the timer is set to [timeoutMs] and
    rejects when it fires: the pair is the time at which the race settles
    and its result.  The operation is listed first and wins a tie. *)
Definition withTimeout {T : Type} (fn : Promise T) (timeoutMs : Z) : Z * Result T :=
  let fires := timerDelay timeoutMs in
  match fn with
  | Settled t r =>
      if t <=? fires then (t, r) else (fires, Throw (timeoutError timeoutMs))
  | Pending => (fires, Throw (timeoutError timeoutMs))
  end.

(* ===================================================================== *)
(** * The platform: vendor SDK, file system, clock, HTTP *)
(* ===================================================================== *)

(** ** Vendor request and response shapes *)

Inductive ContentPart : Type :=
| TextPart (text : string)                      (* [{ text }] *)
| InlinePart (mimeType data : string)           (* [{ inlineData: { mimeType, data } }] *)
| RawText (text : string).                      (* a bare string *)

Inductive Contents : Type :=
| ContentString (s : string)
| ContentArray (parts : list ContentPart).

Inductive Config : Type :=
| TextConfig (maxOutputTokens : Z) (temperature : QArith_base.Q)
    (thinkingLevel : string) (includeThoughts : bool)
| ImageConfig (responseModalities : list string) (aspectRatio : option string).

(** The argument of [generateContent]; [reqModel] is absent when the
    member is [undefined]. *)
Record GenerateContentRequest : Type := mkRequestWith {
  reqModel : option string;
  reqContents : Contents;
  reqConfig : Config
}.

(** A request that names its model. *)
Definition mkRequest (model : string) (contents : Contents) (config : Config)
    : GenerateContentRequest :=
  mkRequestWith (Some model) contents config.

Record InlineData : Type := mkInlineData {
  data : option string;
  mimeType : option string
}.

Record Part : Type := mkPart {
  partText : option string;
  thought : bool;
  inlineData : option InlineData
}.

(** A candidate; [parts] is [candidate.content?.parts]. *)
Record Candidate : Type := mkCandidate {
  parts : option (list Part)
}.

Record UsageMetadata : Type := mkUsageMetadata {
  promptTokenCount : option Z;
  candidatesTokenCount : option Z;
  totalTokenCount : option Z;
  thoughtsTokenCount : option Z
}.

Record Response : Type := mkResponse {
  responseText : option string;
  candidates : option (list Candidate);
  usageMetadata : option UsageMetadata
}.

(** ** Deep Research REST replies *)

(** A JSON value as [JSON.parse] yields it.  A number carries the text
    JavaScript renders it as and whether it is different from zero. *)
#[warnings="-register-all"]
Inductive Json : Type :=
| JsonNull
| JsonBool (b : bool)
| JsonNumber (rendering : string) (nonZero : bool)
| JsonString (s : string)
| JsonArray (items : list Json)
| JsonObject (members : list (string * Json)).

(** Truthiness of a parsed value. *)
Definition jsonTruthy (v : Json) : bool :=
  match v with
  | JsonNull => false
  | JsonBool b => b
  | JsonNumber _ nonZero => nonZero
  | JsonString s => truthy s
  | JsonArray _ | JsonObject _ => true
  end.

(** The text of a parsed value in a template literal: an array is the
    texts of its elements joined by commas, with nothing for [null]. *)
Fixpoint jsonToString (v : Json) : string :=
  match v with
  | JsonNull => "null"
  | JsonBool true => "true"
  | JsonBool false => "false"
  | JsonNumber rendering _ => rendering
  | JsonString s => s
  | JsonArray items =>
      join ","
        (map (fun item =>
                match item with
                | JsonNull => EmptyString
                | _ => jsonToString item
                end) items)
  | JsonObject _ => "[object Object]"
  end.

(** The member of a parsed object: the last one of that name. *)
Fixpoint lookupLast (members : list (string * Json)) (key : string) : option Json :=
  match members with
  | [] => None
  | (k, v) :: rest =>
      match lookupLast rest key with
      | Some later => Some later
      | None => if String.eqb k key then Some v else None
      end
  end.

(** [v.key], for the keys read in this code ([error], [reason]): a
    TypeError on [null], [undefined] on a value that is not an object. *)
Definition getMember (v : Json) (key : string) : Result (option Json) :=
  match v with
  | JsonNull =>
      Throw (newError ("Cannot read properties of null (reading '" ++ key ++ "')"))
  | JsonObject members => Ok (lookupLast members key)
  | _ => Ok None
  end.

(** [v?.key] where [v] may be [undefined], for the keys [message] and
    [details]. *)
Definition getOptional (v : option Json) (key : string) : option Json :=
  match v with
  | Some (JsonObject members) => lookupLast members key
  | _ => None
  end.

(** The reply to the start request.  [parsed] is what [JSON.parse] makes
    of [errorText], absent when it throws. *)
Inductive StartReply : Type :=
| StartFetchThrows (e : Error)
| StartNotOk (httpStatus : Z) (errorText : string) (parsed : option Json)
| StartOk (id : option string).

Inductive PollReply : Type :=
| PollFetchThrows (e : Error)
| PollNotOk (httpStatus : Z) (errorText : string)
| PollOk (pollStatus : string) (outputs : option (list (option string)))
    (pollError : option string).

(** ** The environment and the effect trace *)

(** Everything the server consumes from outside: Node's [path] and [fs],
    the vendor SDK's [generateContent], [Date.now] and [fetch].  Calls that
    may answer differently each time are indexed by how many calls of the
    kind were made before. *)
Record Env : Type := mkEnv {
  extname : string -> string;
  dirname : string -> string;
  existsSync : string -> bool;
  readFileSync : string -> Result string;       (* base64 encoding *)
  mkdirSync : string -> option Error;           (* [None]: it returned *)
  writeFileSync : string -> string -> option Error;
  generateContent : nat -> GenerateContentRequest -> Promise Response;
  dateNow : nat -> Z;
  fetchStart : string -> StartReply;
  fetchPoll : nat -> string -> PollReply
}.

Inductive Event : Type :=
| EvExists (path : string)
| EvReadFile (path : string)
| EvMkdir (dir : string)
| EvWriteFile (path data : string)
| EvGenerateContent (req : GenerateContentRequest)
| EvSleep (ms : Z)
| EvFetchStart (query : string)
| EvFetchPoll (interactionId : string).

Record State : Type := mkState {
  trace : list Event;       (* effects performed so far, oldest first *)
  vendorCalls : nat;        (* calls of [generateContent] so far *)
  clockReads : nat;         (* readings of [Date.now()] so far *)
  polls : nat               (* status polls so far *)
}.

Definition initialState : State := mkState [] 0 0 0.

Definition record (ev : Event) (st : State) : State :=
  mkState (trace st ++ [ev]) (vendorCalls st) (clockReads st) (polls st).

(** ** The state and exception monad *)

Definition M (A : Type) : Type := State -> Result A * State.

Definition ret {A : Type} (a : A) : M A := fun st => (Ok a, st).

Definition throw {A : Type} (e : Error) : M A := fun st => (Throw e, st).

Definition bind {A B : Type} (c : M A) (k : A -> M B) : M B :=
  fun st =>
    match c st with
    | (Ok a, st') => k a st'
    | (Throw e, st') => (Throw e, st')
    end.

(** [try { c } catch (error) { handler }] *)
Definition tryCatch {A : Type} (c : M A) (handler : Error -> M A) : M A :=
  fun st =>
    match c st with
    | (Ok a, st') => (Ok a, st')
    | (Throw e, st') => handler e st'
    end.

Declare Scope monad_scope.
Delimit Scope monad_scope with monad.
Notation "x <- c ;; k" := (bind c (fun x => k))
  (at level 61, c at next level, right associativity) : monad_scope.
Notation "c ;;; k" := (bind c (fun _ => k))
  (at level 61, right associativity) : monad_scope.
Local Open Scope monad_scope.

Definition liftResult {A : Type} (r : Result A) : M A := fun st => (r, st).

Section Effects.

Variable env : Env.

Definition existsSyncM (path : string) : M bool :=
  fun st => (Ok (existsSync env path), record (EvExists path) st).

Definition readFileSyncM (path : string) : M string :=
  fun st => (readFileSync env path, record (EvReadFile path) st).

Definition mkdirSyncM (dir : string) : M unit :=
  fun st =>
    (match mkdirSync env dir with None => Ok tt | Some e => Throw e end,
     record (EvMkdir dir) st).

Definition writeFileSyncM (path data : string) : M unit :=
  fun st =>
    (match writeFileSync env path data with None => Ok tt | Some e => Throw e end,
     record (EvWriteFile path data) st).

Definition sleepState (ms : Z) (st : State) : State := record (EvSleep ms) st.

(** [await sleep(ms)] *)
Definition sleepM (ms : Z) : M unit := fun st => (Ok tt, sleepState ms st).

(** [Date.now()] *)
Definition dateNowM : M Z :=
  fun st =>
    (Ok (dateNow env (clockReads st)),
     mkState (trace st) (vendorCalls st) (S (clockReads st)) (polls st)).

(** [await withTimeout(() => client.models.generateContent(req), timeoutMs)] *)
Definition generateContentWithTimeout (req : GenerateContentRequest)
    (timeoutMs : Z) : M Response :=
  fun st =>
    let promise := generateContent env (vendorCalls st) req in
    (snd (withTimeout promise timeoutMs),
     mkState (trace st ++ [EvGenerateContent req]) (S (vendorCalls st))
       (clockReads st) (polls st)).

Definition fetchStartM (query : string) : M StartReply :=
  fun st => (Ok (fetchStart env query), record (EvFetchStart query) st).

Definition fetchPollM (interactionId : string) : M PollReply :=
  fun st =>
    (Ok (fetchPoll env (polls st) interactionId),
     mkState (trace st ++ [EvFetchPoll interactionId]) (vendorCalls st)
       (clockReads st) (S (polls st))).

End Effects.

(** ** Result shapes shared by the providers *)

Record UsageInfo : Type := mkUsageInfo {
  promptTokens : option Z;
  completionTokens : option Z;
  totalTokens : option Z;
  thoughtsTokens : option Z
}.

Record GenerateResult : Type := mkGenerateResult {
  text : option string;
  imagePath : option string;
  usage : option UsageInfo;
  resultModel : string
}.

(** The options both providers hand to [withRetry]. *)
Definition providerRetryOptions : RetryOverrides :=
  {| maxRetries' := Some 2;
     initialDelayMs' := None;
     maxDelayMs' := None;
     backoffMultiplier' := None;
     retryableErrors' :=
       Some ["RATE_LIMIT"; "429"; "503"; "502"; "ECONNRESET"; "ETIMEDOUT"] |}.

(** [error.message || fallback] *)
Definition messageOr (error : Error) (fallback : string) : string :=
  if truthy (message error) then message error else fallback.

(* ===================================================================== *)
(** * providers/gemini-text.ts *)
(* ===================================================================== *)

Module GeminiTextProvider.

Record TextGenerateOptions : Type := mkOptions {
  prompt : string;
  systemPrompt : option string;
  model : option SupportedTextModel;
  thinkingLevel : option ThinkingLevelOption;
  maxTokens : option Z;
  temperature : option QArith_base.Q;
  files : option (list string)
}.

(** Map user-facing thinking level strings to API values. *)
Definition THINKING_LEVEL_MAP (l : ThinkingLevelOption) : string :=
  match l with
  | minimal => "MINIMAL" | low => "LOW" | medium => "MEDIUM" | high => "HIGH"
  end.

(** Default timeout for generation requests (5 minutes). *)
Definition DEFAULT_TIMEOUT_MS : Z := 300000.

(** [response] demultiplexed into the answer text and the thought summary. *)
Fixpoint demuxParts (ps : list Part) (text thoughtSummary : string) : string * string :=
  match ps with
  | [] => (text, thoughtSummary)
  | part :: rest =>
      match partText part with
      | Some t =>
          if truthy t then
            if thought part then demuxParts rest text (thoughtSummary ++ t ++ nl)
            else demuxParts rest (text ++ t) thoughtSummary
          else demuxParts rest text thoughtSummary
      | None => demuxParts rest text thoughtSummary
      end
  end.

Definition extractText (response : Response) : string * string :=
  match responseText response with
  | Some t =>
      if truthy t then (t, EmptyString)
      else
        match candidates response with
        | Some (c :: _) => demuxParts (orDefault (parts c) []) EmptyString EmptyString
        | _ => (EmptyString, EmptyString)
        end
  | None =>
      match candidates response with
      | Some (c :: _) => demuxParts (orDefault (parts c) []) EmptyString EmptyString
      | _ => (EmptyString, EmptyString)
      end
  end.

Definition usageOf (response : Response) : option UsageInfo :=
  match usageMetadata response with
  | Some u =>
      Some {| promptTokens := promptTokenCount u;
              completionTokens := candidatesTokenCount u;
              totalTokens := totalTokenCount u;
              thoughtsTokens := thoughtsTokenCount u |}
  | None => None
  end.

(** The [catch] block: the thrown message is ["<errorType>: <errorMessage>"]. *)
Definition classify (error : Error) : string * string :=
  let msg := message error in
  if includes msg "API key" || includes msg "API_KEY" then
    ("AUTH_ERROR", "Invalid or missing Gemini API key")
  else if includes msg "quota" || includes msg "rate" || includes msg "429" then
    ("RATE_LIMIT", "Gemini API rate limit or quota exceeded. Please wait and retry.")
  else if includes msg "safety" then
    ("SAFETY_BLOCK", "Content was blocked by Gemini safety filters")
  else if includes msg "blocked" then
    ("CONTENT_BLOCKED", "Request was blocked. Try rephrasing the prompt.")
  else if includes msg "TIMEOUT" then
    ("TIMEOUT",
     "Request timed out. The prompt may be too complex or the service is slow.")
  else ("GENERATION_ERROR", messageOr error "Unknown error during generation").

Definition rethrow (error : Error) : Error :=
  let '(errorType, errorMessage) := classify error in
  newError (errorType ++ ": " ++ errorMessage).

Section WithEnv.

Variable env : Env.

(** Get MIME type for a file path.  Throws if file type is not supported. *)
Definition getMimeType (filePath : string) : Result string :=
  let ext := toLowerCase (extname env filePath) in
  match lookup SUPPORTED_MIME_TYPES ext with
  | None =>
      let supportedExts := join ", " (map fst SUPPORTED_MIME_TYPES) in
      Throw (newError ("Unsupported file type " ++ dquote ++ ext ++ dquote
                       ++ ". Supported types: " ++ supportedExts))
  | Some mimeType => Ok mimeType
  end.

(** The loop over [files] that fills [contents] before the prompt. *)
Fixpoint addFiles (files : list string) : M (list ContentPart) :=
  match files with
  | [] => ret []
  | filePath :: rest =>
      found <- existsSyncM env filePath ;;
      if negb found then throw (newError ("File not found: " ++ filePath))
      else
        mimeType <- liftResult (getMimeType filePath) ;;
        data <- readFileSyncM env filePath ;;
        more <- addFiles rest ;;
        ret (InlinePart mimeType data :: more)
  end.

(** Generate text.  The calls to the logger ([debugLog], [logUsage]) and
    the readings of the clock that only supply the durations it reports
    ([startTime], [Date.now() - startTime]) are left out. *)
Definition generate (options : TextGenerateOptions) : M GenerateResult :=
  let prompt := prompt options in
  let model := orDefault (model options) DEFAULT_TEXT_MODEL in
  let thinkingLevel := orDefault (thinkingLevel options) high in
  let maxTokens := orDefault (maxTokens options) 65536 in
  let temperature := orDefault (temperature options) (QArith_base.Qmake 7 10) in
  let files := orDefault (files options) [] in
  let apiModelId := TEXT_MODEL_IDS model in
  match validateThinkingLevel model thinkingLevel with
  | Some validationError =>
      throw (newError ("VALIDATION_ERROR: " ++ validationError))
  | None =>
      let textPrompt :=
        match systemPrompt options with
        | Some sp =>
            if truthy sp then
              "<system>" ++ nl ++ sp ++ nl ++ "</system>" ++ nl ++ nl ++ prompt
            else prompt
        | None => prompt
        end in
      fileParts <- addFiles files ;;
      let contents := (fileParts ++ [TextPart textPrompt])%list in
      tryCatch
        (let config :=
           TextConfig maxTokens temperature (THINKING_LEVEL_MAP thinkingLevel) true in
         response <-
           withRetry sleepState
             (generateContentWithTimeout env
                (mkRequest apiModelId (ContentArray contents) config)
                DEFAULT_TIMEOUT_MS)
             providerRetryOptions ;;
         let '(text, thoughtSummary) := extractText response in
         let usage := usageOf response in
         let finalText :=
           if truthy thoughtSummary then
             text ++ nl ++ nl ++ "---" ++ nl ++ "**Thinking Summary:**" ++ nl
             ++ thoughtSummary
           else text in
         ret {| text := Some finalText;
                imagePath := None;
                usage := usage;
                resultModel := textModelName model |})
        (fun error => throw (rethrow error))
  end.

End WithEnv.

(** [generate] called with a model that is neither [undefined] nor a name
    the two tables know, as the dispatcher does for the empty string: the
    default does not apply, [MODEL_THINKING_LEVELS[model]] is [undefined]
    and [validateThinkingLevel] throws on reading [includes] of it. *)
Definition generateWithoutTables : M GenerateResult :=
  throw (newError "Cannot read properties of undefined (reading 'includes')").

End GeminiTextProvider.

(* ===================================================================== *)
(** * providers/gemini-image.ts *)
(* ===================================================================== *)

Module GeminiImageProvider.

Record ImageGenerateOptions : Type := mkOptions {
  prompt : string;
  outputPath : string;
  model : option SupportedImageModel;
  referenceImages : option (list string);
  aspectRatio : option string
}.

Definition IMAGE_MODEL_IDS (m : SupportedImageModel) : string :=
  match m with
  | nano_banana => "gemini-2.5-flash-preview-image-generation"
  | nano_banana_pro => "gemini-2.0-flash-exp-image-generation"
  end.

(** Maximum reference images per model. *)
Definition MAX_REFERENCE_IMAGES (m : SupportedImageModel) : Z :=
  match m with
  | nano_banana => 3
  | nano_banana_pro => 14
  end.

(** Default timeout for image generation (3 minutes). *)
Definition DEFAULT_TIMEOUT_MS : Z := 180000.

Definition VALID_ASPECT_RATIOS : list string :=
  ["1:1"; "2:3"; "3:2"; "3:4"; "4:3"; "4:5"; "5:4"; "9:16"; "16:9"; "21:9"].

(** [s.slice(n)] *)
Fixpoint drop (n : nat) (s : string) : string :=
  match n, s with
  | O, _ => s
  | S n', String _ s' => drop n' s'
  | S _, EmptyString => EmptyString
  end.

(** The longest prefix without [;] and what follows the first [;]. *)
Fixpoint splitAtSemicolon (s : string) : option (string * string) :=
  match s with
  | EmptyString => None
  | String c s' =>
      if Ascii.eqb c ";"%char then Some (EmptyString, s')
      else
        match splitAtSemicolon s' with
        | Some (before, after) => Some (String c before, after)
        | None => None
        end
  end.

(** [.] in a regular expression matches no line terminator: LF, CR,
    U+2028 and U+2029. *)
Fixpoint hasLineTerminator (s : string) : bool :=
  match s with
  | EmptyString => false
  | String a s1 =>
      Nat.eqb (nat_of_ascii a) 10 || Nat.eqb (nat_of_ascii a) 13
      || match s1 with
         | String b (String c _) => isLineTerminator3 a b c
         | _ => false
         end
      || hasLineTerminator s1
  end.

(** [referenceImage.match(/^data:([^;]+);base64,(.+)$/)]: the two captured
    groups. *)
Definition matchDataUrl (referenceImage : string) : option (string * string) :=
  if startsWith referenceImage "data:" then
    match splitAtSemicolon (drop 5 referenceImage) with
    | Some (mime, rest) =>
        if truthy mime && startsWith rest "base64," then
          let payload := drop 7 rest in
          if truthy payload && negb (hasLineTerminator payload)
          then Some (mime, payload) else None
        else None
    | None => None
    end
  else None.

(** Parse base64 input, detect mime type from prefix or default to PNG. *)
Definition referencePart (referenceImage : string) : ContentPart :=
  if startsWith referenceImage "data:" then
    match matchDataUrl referenceImage with
    | Some (mimeType, imageData) => InlinePart mimeType imageData
    | None => InlinePart "image/png" referenceImage
    end
  else InlinePart "image/png" referenceImage.

Definition buildContents (prompt : string) (referenceImages : list string) : Contents :=
  match referenceImages with
  | [] => ContentString prompt
  | _ => ContentArray (map referencePart referenceImages ++ [RawText prompt])
  end.

Definition truthyOpt (o : option string) : bool :=
  match o with Some s => truthy s | None => false end.

(** The inner loop: the first part carrying [inlineData]. *)
Fixpoint firstInlineData (ps : list Part) : option InlineData :=
  match ps with
  | [] => None
  | part :: rest =>
      match inlineData part with
      | Some d => Some d
      | None => firstInlineData rest
      end
  end.

(** The outer loop over the candidates, with the variables [imageData] and
    [imageMimeType] it assigns. *)
Fixpoint findImage (cs : list Candidate) (imageData : option string)
    (imageMimeType : string) : option string * string :=
  match cs with
  | [] => (imageData, imageMimeType)
  | candidate :: rest =>
      let '(imageData1, imageMimeType1) :=
        match firstInlineData (orDefault (parts candidate) []) with
        | Some d =>
            (data d,
             if truthyOpt (mimeType d) then orDefault (mimeType d) "image/png"
             else "image/png")
        | None => (imageData, imageMimeType)
        end in
      if truthyOpt imageData1 then (imageData1, imageMimeType1)
      else findImage rest imageData1 imageMimeType1
  end.

(** The image payload of a response, if it has one. *)
Definition extractImage (response : Response) : option string :=
  let found := fst (findImage (orDefault (candidates response) []) None "image/png") in
  if truthyOpt found then found else None.

Definition usageOf (response : Response) : option UsageInfo :=
  match usageMetadata response with
  | Some u =>
      Some {| promptTokens := promptTokenCount u;
              completionTokens := candidatesTokenCount u;
              totalTokens := totalTokenCount u;
              thoughtsTokens := None |}
  | None => None
  end.

(** The [catch] block: the thrown message is ["<errorType>: <errorMessage>"]. *)
Definition classify (error : Error) : string * string :=
  let msg := message error in
  if includes msg "API key" || includes msg "API_KEY" then
    ("AUTH_ERROR", "Invalid or missing Gemini API key")
  else if includes msg "quota" || includes msg "rate" || includes msg "429" then
    ("RATE_LIMIT", "Gemini API rate limit or quota exceeded. Please wait and retry.")
  else if includes msg "safety" then
    ("SAFETY_BLOCK", "Image was blocked by Gemini safety filters")
  else if includes msg "blocked" then
    ("CONTENT_BLOCKED", "Request was blocked. Try rephrasing the prompt.")
  else if includes msg "TIMEOUT" then
    ("TIMEOUT", "Request timed out. The image generation may be taking too long.")
  else ("GENERATION_ERROR", messageOr error "Unknown error during image generation").

Definition rethrow (error : Error) : Error :=
  let '(errorType, errorMessage) := classify error in
  newError (errorType ++ ": " ++ errorMessage).

Section WithEnv.

Variable env : Env.

(** The body of the [try] block once the vendor has answered: find the
    image, make sure the output directory exists, save the image.
    [modelName] is the model as the caller named it. *)
Definition saveImageAs (outputPath modelName : string) (response : Response)
    : M GenerateResult :=
  match extractImage response with
  | None => throw (newError "No image data found in response")
  | Some imageData =>
      let outputDir := dirname env outputPath in
      (if truthy outputDir then
         found <- existsSyncM env outputDir ;;
         if negb found then mkdirSyncM env outputDir else ret tt
       else ret tt) ;;;
      writeFileSyncM env outputPath imageData ;;;
      ret {| text := None;
             imagePath := Some outputPath;
             usage := usageOf response;
             resultModel := modelName |}
  end.

Definition saveImage (outputPath : string) (model : SupportedImageModel)
    (response : Response) : M GenerateResult :=
  saveImageAs outputPath (imageModelName model) response.

(** [generate] once [model] is bound: [modelName] is its value, [modelId]
    and [maxImages] are what [IMAGE_MODEL_IDS] and [MAX_REFERENCE_IMAGES]
    hold for it, absent ([undefined]) when it is not one of their keys.  A
    comparison with [undefined] is false.  The calls to the logger and the
    readings of the clock that only supply the durations it reports are
    left out. *)
Definition generateWith (modelName : string) (modelId : option string)
    (maxImages : option Z) (options : ImageGenerateOptions) : M GenerateResult :=
  let prompt := prompt options in
  let outputPath := outputPath options in
  let referenceImages := orDefault (referenceImages options) [] in
  let aspectRatio := aspectRatio options in
  let aspectGiven := truthyOpt aspectRatio in
  if aspectGiven
     && negb (arrayIncludes VALID_ASPECT_RATIOS (orDefault aspectRatio EmptyString))
  then
    throw (newError ("Invalid aspect ratio " ++ dquote
                     ++ orDefault aspectRatio EmptyString ++ dquote
                     ++ ". Valid options: " ++ join ", " VALID_ASPECT_RATIOS))
  else
    if match maxImages with
       | Some n => Z.of_nat (List.length referenceImages) >? n
       | None => false
       end
    then
      throw (newError ("Maximum "
                       ++ match maxImages with
                          | Some n => ofZ n
                          | None => "undefined"
                          end
                       ++ " reference images allowed for " ++ modelName))
    else
      tryCatch
        (let contents := buildContents prompt referenceImages in
         let config :=
           ImageConfig ["image"; "text"]
             (if aspectGiven then aspectRatio else None) in
         response <-
           withRetry sleepState
             (generateContentWithTimeout env (mkRequestWith modelId contents config)
                DEFAULT_TIMEOUT_MS)
             providerRetryOptions ;;
         saveImageAs outputPath modelName response)
        (fun error => throw (rethrow error)).

Definition generate (options : ImageGenerateOptions) : M GenerateResult :=
  let model := orDefault (model options) nano_banana in
  generateWith (imageModelName model) (Some (IMAGE_MODEL_IDS model))
    (Some (MAX_REFERENCE_IMAGES model)) options.

(** [generate] called with a model that is neither [undefined] nor a key of
    the two tables, as the dispatcher does for the empty string. *)
Definition generateWithoutTables (modelName : string)
    (options : ImageGenerateOptions) : M GenerateResult :=
  generateWith modelName None None options.

End WithEnv.

End GeminiImageProvider.

(* ===================================================================== *)
(** * providers/deep-research.ts *)
(* ===================================================================== *)

Module GeminiDeepResearchProvider.

Record DeepResearchOptions : Type := mkOptions {
  query : string;
  timeoutMs : option Z;
  pollIntervalMs : option Z
}.

Inductive ResearchStatus : Type := completed | failed.

(** What [pollForCompletion] returns. *)
Record PollResult : Type := mkPollResult {
  pollText : string;
  pollStatusOf : ResearchStatus;
  pollModel : string
}.

Record DeepResearchResult : Type := mkResult {
  text : string;
  model : string;
  interactionId : string;
  status : ResearchStatus;
  durationMs : Z
}.

(** Default timeout: 30 minutes; default poll interval: 10 seconds. *)
Definition DEFAULT_TIMEOUT_MS : Z := 30 * 60 * 1000.
Definition DEFAULT_POLL_INTERVAL_MS : Z := 10 * 1000.

(** [Math.round(elapsed / 1000 / 60)] for an integral number of
    milliseconds: halves round up. *)
Definition roundMinutes (elapsed : Z) : Z := (elapsed + 30000) / 60000.

Definition timeoutMessage (elapsed : Z) (interactionId : string) : string :=
  "TIMEOUT: Research timed out after " ++ ofZ (roundMinutes elapsed) ++ " minutes. "
  ++ "The research may still be running - interaction ID: " ++ interactionId.

(** [outputs?.map((output) => output.text).filter(Boolean).join("\n\n") || ""] *)
Definition joinOutputs (outputs : option (list (option string))) : string :=
  match outputs with
  | Some os =>
      join (nl ++ nl)
        (filter truthy (map (fun o => orDefault o EmptyString) os))
  | None => EmptyString
  end.

(** [details.some((d) => d.reason === "API_KEY_INVALID")] on an array. *)
Fixpoint someApiKeyInvalid (details : list Json) : Result bool :=
  match details with
  | [] => Ok false
  | d :: rest =>
      match getMember d "reason" with
      | Throw e => Throw e
      | Ok (Some (JsonString reason)) =>
          if String.eqb reason "API_KEY_INVALID" then Ok true
          else someApiKeyInvalid rest
      | Ok _ => someApiKeyInvalid rest
      end
  end.

(** The [try] block that reads the parsed error body: the value of
    [errorMessage] when the block is left and, unless it is left by an
    exception, the value of [isAuthError]. *)
Definition readErrorBody (parsed : Json) (errorMessage0 : string)
    : string * option bool :=
  let errorJson :=
    match parsed with
    | JsonArray (first :: _) => first
    | _ => parsed
    end in
  match getMember errorJson "error" with
  | Throw _ => (errorMessage0, None)
  | Ok error =>
      let errorMessage :=
        match getOptional error "message" with
        | Some m => if jsonTruthy m then jsonToString m else errorMessage0
        | None => errorMessage0
        end in
      match getOptional error "details" with
      | Some details =>
          if jsonTruthy details then
            match details with
            | JsonArray items =>
                match someApiKeyInvalid items with
                | Ok found => (errorMessage, Some found)
                | Throw _ => (errorMessage, None)
                end
            | _ => (errorMessage, None)     (* [some] is not a function *)
            end
          else (errorMessage, Some false)
      | None => (errorMessage, Some false)
      end
  end.

(** The values of [errorMessage] and [isAuthError] after the [try] block
    and its [catch], which falls back on the raw body when it is not
    empty. *)
Definition errorMessageAndAuth (errorText : string) (parsed : option Json)
    (errorMessage0 : string) : string * bool :=
  match parsed with
  | Some json =>
      match readErrorBody json errorMessage0 with
      | (errorMessage, Some isAuthError) => (errorMessage, isAuthError)
      | (errorMessage, None) =>
          (if truthy errorText then errorText else errorMessage, false)
      end
  | None => (if truthy errorText then errorText else errorMessage0, false)
  end.

Section WithEnv.

Variable env : Env.

(** Start a new research interaction. *)
Definition startResearch (query : string) : M string :=
  reply <- fetchStartM env query ;;
  match reply with
  | StartFetchThrows e => throw e
  | StartNotOk httpStatus errorText parsed =>
      let errorMessage0 := "Failed to start research: " ++ ofZ httpStatus in
      let '(errorMessage, isAuthError) :=
        errorMessageAndAuth errorText parsed errorMessage0 in
      if isAuthError || (httpStatus =? 401) || (httpStatus =? 403) then
        throw (newError ("AUTH_ERROR: " ++ errorMessage))
      else if httpStatus =? 429 then
        throw (newError ("RATE_LIMIT: " ++ errorMessage))
      else throw (newError ("API_ERROR: " ++ errorMessage))
  | StartOk id =>
      match id with
      | Some i =>
          if truthy i then ret i
          else throw (newError "API_ERROR: No interaction ID returned from API")
      | None => throw (newError "API_ERROR: No interaction ID returned from API")
      end
  end.

(** One iteration of the [while (true)] loop of [pollForCompletion]:
    [Some r] when the iteration returns [r], [None] when it falls through
    to the next iteration after sleeping. *)
Definition pollIteration (interactionId : string)
    (timeoutMs pollIntervalMs startTime : Z) : M (option PollResult) :=
  now <- dateNowM env ;;
  let elapsed := now - startTime in
  if elapsed >? timeoutMs then
    throw (newError (timeoutMessage elapsed interactionId))
  else
    reply <- fetchPollM env interactionId ;;
    match reply with
    | PollFetchThrows e => throw e
    | PollNotOk httpStatus errorText =>
        throw (newError ("API_ERROR: Failed to poll research status: "
                         ++ ofZ httpStatus ++ " - " ++ errorText))
    | PollOk pollStatus outputs pollError =>
        if String.eqb pollStatus "completed" then
          let text := joinOutputs outputs in
          if negb (truthy text) then
            throw (newError "API_ERROR: Research completed but no output text found")
          else ret (Some (mkPollResult text completed "deep-research"))
        else if String.eqb pollStatus "failed" then
          let errorMessage :=
            match pollError with
            | Some m => if truthy m then m else "Research failed with unknown error"
            | None => "Research failed with unknown error"
            end in
          throw (newError ("RESEARCH_FAILED: " ++ errorMessage))
        else
          sleepM pollIntervalMs ;;;
          ret None
    end.

(** Poll for research completion.  The loop has no bound of its own;
    [fuel] bounds the number of iterations and [None] means that the
    bound was reached with the loop still running. *)
Fixpoint pollForCompletion (fuel : nat) (interactionId : string)
    (timeoutMs pollIntervalMs startTime : Z) (st : State)
    : option (Result PollResult * State) :=
  match fuel with
  | O => None
  | S fuel' =>
      match pollIteration interactionId timeoutMs pollIntervalMs startTime st with
      | (Ok (Some r), st') => Some (Ok r, st')
      | (Ok None, st') =>
          pollForCompletion fuel' interactionId timeoutMs pollIntervalMs startTime st'
      | (Throw e, st') => Some (Throw e, st')
      end
  end.

(** Start a deep research task and poll until completion. *)
Definition research (fuel : nat) (options : DeepResearchOptions) (st : State)
    : option (Result DeepResearchResult * State) :=
  let query := query options in
  let timeoutMs := orDefault (timeoutMs options) DEFAULT_TIMEOUT_MS in
  let pollIntervalMs := orDefault (pollIntervalMs options) DEFAULT_POLL_INTERVAL_MS in
  match dateNowM env st with
  | (Throw e, st0) => Some (Throw e, st0)
  | (Ok startTime, st0) =>
      match startResearch query st0 with
      | (Throw e, st1) => Some (Throw e, st1)
      | (Ok interactionId, st1) =>
          match pollForCompletion fuel interactionId timeoutMs pollIntervalMs
                  startTime st1 with
          | None => None
          | Some (Throw e, st2) => Some (Throw e, st2)
          | Some (Ok result, st2) =>
              match dateNowM env st2 with
              | (Throw e, st3) => Some (Throw e, st3)
              | (Ok now, st3) =>
                  Some (Ok {| text := pollText result;
                              model := pollModel result;
                              interactionId := interactionId;
                              status := pollStatusOf result;
                              durationMs := now - startTime |}, st3)
              end
          end
      end
  end.

End WithEnv.

End GeminiDeepResearchProvider.

(* ===================================================================== *)
(** * index.ts: the tool dispatcher *)
(* ===================================================================== *)

Module Server.

(** The arguments of each tool.  A model is carried as the string the
    caller sent, absent when the member is [undefined]; a [null] takes the
    same branches as the empty string. *)
Record GenerateTextArgs : Type := mkTextArguments {
  t_prompt : string;
  t_model : option string;
  t_system_prompt : option string;
  t_thinking_level : option ThinkingLevelOption;
  t_max_tokens : option Z;
  t_temperature : option QArith_base.Q;
  t_files : option (list string)
}.

Record GenerateImageArgs : Type := mkImageArguments {
  i_prompt : string;
  i_output_path : string;
  i_model : option string;
  i_reference_images : option (list string);
  i_aspect_ratio : option string
}.

(** Arguments that name a supported model, or none. *)
Definition mkTextArgs (prompt : string) (model : option SupportedTextModel)
    (system_prompt : option string) (thinking_level : option ThinkingLevelOption)
    (max_tokens : option Z) (temperature : option QArith_base.Q)
    (files : option (list string)) : GenerateTextArgs :=
  mkTextArguments prompt (option_map textModelName model) system_prompt
    thinking_level max_tokens temperature files.

Definition mkImageArgs (prompt output_path : string)
    (model : option SupportedImageModel) (reference_images : option (list string))
    (aspect_ratio : option string) : GenerateImageArgs :=
  mkImageArguments prompt output_path (option_map imageModelName model)
    reference_images aspect_ratio.

(** The supported model of a name. *)
Definition textModelOfName (name : string) : option SupportedTextModel :=
  find (fun m => String.eqb (textModelName m) name) SUPPORTED_TEXT_MODELS.

Definition imageModelOfName (name : string) : option SupportedImageModel :=
  find (fun m => String.eqb (imageModelName m) name) SUPPORTED_IMAGE_MODELS.

Record DeepResearchArgs : Type := mkResearchArgs {
  r_query : string;
  r_timeout_minutes : option Z
}.

(** A tool call.  [list_models], which reaches no provider logic and cannot
    fail, is not modelled; [OtherTool] is any name the handler does not
    know. *)
Inductive CallToolRequest : Type :=
| GenerateText (args : GenerateTextArgs)
| GenerateImage (args : GenerateImageArgs)
| DeepResearch (args : DeepResearchArgs)
| OtherTool (name : string).

Inductive Meta : Type :=
| TextMeta (model : string) (usage : option UsageInfo)
| ImageMeta (model : string) (imagePath : option string) (usage : option UsageInfo)
| ResearchMeta (model interactionId : string) (durationMs : Z).

(** The result handed back over the tool boundary: the text of its single
    content item, the [isError] flag and the [_meta] member. *)
Record ToolResult : Type := mkToolResult {
  resultText : string;
  isError : bool;
  meta : option Meta
}.

Definition errorResult (text : string) : ToolResult := mkToolResult text true None.

(** [!s || s.trim().length === 0] *)
Definition blank (s : string) : bool :=
  negb (truthy s) || (String.length (trim s) =? 0)%nat.

Section WithEnv.

Variable env : Env.

(** The model passed the check: it is absent, a supported name, or the
    empty string; the provider's parameter default applies to the absent
    one only. *)
Definition handleGenerateText (args : GenerateTextArgs) (st : State)
    : ToolResult * State :=
  if blank (t_prompt args) then (errorResult "Error: Prompt cannot be empty", st)
  else if match t_model args with
          | Some model => truthy model && negb (isSupportedTextModel model)
          | None => false
          end
  then
    (errorResult ("Error: Unknown text model " ++ dquote
                  ++ orDefault (t_model args) EmptyString
                  ++ dquote ++ ". Supported models: "
                  ++ join ", " (map textModelName SUPPORTED_TEXT_MODELS)), st)
  else
    let options (model : option SupportedTextModel) :=
      {| GeminiTextProvider.prompt := t_prompt args;
         GeminiTextProvider.systemPrompt := t_system_prompt args;
         GeminiTextProvider.model := model;
         GeminiTextProvider.thinkingLevel := t_thinking_level args;
         GeminiTextProvider.maxTokens := t_max_tokens args;
         GeminiTextProvider.temperature := t_temperature args;
         GeminiTextProvider.files := t_files args |} in
    match
      match t_model args with
      | None => GeminiTextProvider.generate env (options None) st
      | Some name =>
          match textModelOfName name with
          | Some model => GeminiTextProvider.generate env (options (Some model)) st
          | None => GeminiTextProvider.generateWithoutTables st
          end
      end
    with
    | (Ok result, st') =>
        (mkToolResult (orDefault (text result) EmptyString) false
           (Some (TextMeta (resultModel result) (usage result))), st')
    | (Throw error, st') =>
        let errorMessage := messageOr error "Unknown error during generation" in
        (errorResult ("Error: " ++ errorMessage), st')
    end.

Definition handleGenerateImage (args : GenerateImageArgs) (st : State)
    : ToolResult * State :=
  if blank (i_prompt args) then (errorResult "Error: Prompt cannot be empty", st)
  else if blank (i_output_path args) then
    (errorResult "Error: output_path is required", st)
  else if match i_model args with
          | Some model => truthy model && negb (isSupportedImageModel model)
          | None => false
          end
  then
    (errorResult ("Error: Unknown image model " ++ dquote
                  ++ orDefault (i_model args) EmptyString
                  ++ dquote ++ ". Supported models: "
                  ++ join ", " (map imageModelName SUPPORTED_IMAGE_MODELS)), st)
  else
    let options (model : option SupportedImageModel) :=
      {| GeminiImageProvider.prompt := i_prompt args;
         GeminiImageProvider.outputPath := i_output_path args;
         GeminiImageProvider.model := model;
         GeminiImageProvider.referenceImages := i_reference_images args;
         GeminiImageProvider.aspectRatio := i_aspect_ratio args |} in
    match
      match i_model args with
      | None => GeminiImageProvider.generate env (options None) st
      | Some name =>
          match imageModelOfName name with
          | Some model => GeminiImageProvider.generate env (options (Some model)) st
          | None => GeminiImageProvider.generateWithoutTables env name (options None) st
          end
      end
    with
    | (Ok result, st') =>
        (mkToolResult
           ("Image saved to: " ++ orDefault (imagePath result) "undefined") false
           (Some (ImageMeta (resultModel result) (imagePath result) (usage result))),
         st')
    | (Throw error, st') =>
        let errorMessage := messageOr error "Unknown error during image generation" in
        (errorResult ("Error: " ++ errorMessage), st')
    end.

(** [fuel] bounds the research poll loop; [None] means the call is still
    polling when the bound is reached. *)
Definition handleDeepResearch (fuel : nat) (args : DeepResearchArgs) (st : State)
    : option (ToolResult * State) :=
  if blank (r_query args) then Some (errorResult "Error: Query cannot be empty", st)
  else
    let timeoutMinutes :=
      match r_timeout_minutes args with
      | Some n => if n =? 0 then 30 else n
      | None => 30
      end in
    let timeoutMs := timeoutMinutes * 60 * 1000 in
    match GeminiDeepResearchProvider.research env fuel
            {| GeminiDeepResearchProvider.query := r_query args;
               GeminiDeepResearchProvider.timeoutMs := Some timeoutMs;
               GeminiDeepResearchProvider.pollIntervalMs := None |} st with
    | None => None
    | Some (Ok result, st') =>
        Some (mkToolResult (GeminiDeepResearchProvider.text result) false
                (Some (ResearchMeta (GeminiDeepResearchProvider.model result)
                         (GeminiDeepResearchProvider.interactionId result)
                         (GeminiDeepResearchProvider.durationMs result))), st')
    | Some (Throw error, st') =>
        let errorMessage := messageOr error "Unknown error during deep research" in
        Some (errorResult ("Error: " ++ errorMessage), st')
    end.

(** The [CallToolRequestSchema] handler. *)
Definition callTool (fuel : nat) (request : CallToolRequest) (st : State)
    : option (ToolResult * State) :=
  match request with
  | GenerateText args => Some (handleGenerateText args st)
  | GenerateImage args => Some (handleGenerateImage args st)
  | DeepResearch args => handleDeepResearch fuel args st
  | OtherTool name =>
      Some (errorResult ("Error: Unknown tool " ++ dquote ++ name ++ dquote), st)
  end.

End WithEnv.

End Server.

(** The closed error taxonomy. *)
Definition ERROR_CATEGORY_TOKENS : list string :=
  ["AUTH_ERROR"; "RATE_LIMIT"; "SAFETY_BLOCK"; "CONTENT_BLOCKED"; "TIMEOUT";
   "VALIDATION_ERROR"; "API_ERROR"; "RESEARCH_FAILED"; "GENERATION_ERROR"].

(** The message begins with one of the category tokens followed by a colon. *)
Definition beginsWithCategory (msg : string) : bool :=
  existsb (fun token => startsWith msg (token ++ ":")) ERROR_CATEGORY_TOKENS.

(* ===================================================================== *)
(** * Observing runs *)
(* ===================================================================== *)

(** ** Probes for the retry harness

    To count the invocations of an arbitrary operation and to see the
    delays slept, the operation and the sleep are wrapped so that they log
    into a [Probe] carried next to the operation's own state.  The wrapped
    run and the plain run agree on the result and on the state. *)

Record Probe (T : Type) : Type := mkProbe {
  invocations : list (Result T);    (* outcome of every invocation, in order *)
  sleeps : list Z                   (* every delay slept, in order *)
}.
Arguments mkProbe {T} invocations sleeps.
Arguments invocations {T} p.
Arguments sleeps {T} p.

Definition noProbe {T : Type} : Probe T := mkProbe [] [].

Definition probedFn {St T : Type} (fn : St -> Result T * St)
    (s : St * Probe T) : Result T * (St * Probe T) :=
  let '(r, st') := fn (fst s) in
  (r, (st', mkProbe (invocations (snd s) ++ [r]) (sleeps (snd s)))).

Definition probedSleep {St T : Type} (sleep : Z -> St -> St) (ms : Z)
    (s : St * Probe T) : St * Probe T :=
  (sleep ms (fst s), mkProbe (invocations (snd s)) (sleeps (snd s) ++ [ms])).

(** An operation that fails in a retryable way on every invocation. *)
Definition alwaysRetryable {St T : Type} (fn : St -> Result T * St)
    (patterns : list string) : Prop :=
  forall st, exists e st',
    fn st = (Throw e, st') /\ isRetryableError e patterns = true.

(** The delays of [n] consecutive retries starting from [delay]: each is
    followed by [min(delay * backoffMultiplier, maxDelayMs)]. *)
Fixpoint backoffDelays (opts : RetryOptions) (n : nat) (delay : Z) : list Z :=
  match n with
  | O => []
  | S n' =>
      delay :: backoffDelays opts n'
                 (Z.min (delay * backoffMultiplier opts) (maxDelayMs opts))
  end.

(** Consecutive elements never decrease. *)
Fixpoint nondecreasing (l : list Z) : Prop :=
  match l with
  | [] => True
  | x :: rest =>
      match rest with
      | [] => True
      | y :: _ => x <= y /\ nondecreasing rest
      end
  end.

(** ** File-system mutations in a trace *)

Definition isFsWrite (ev : Event) : bool :=
  match ev with
  | EvMkdir _ | EvWriteFile _ _ => true
  | _ => false
  end.

(** The directory creations and file writes of a trace, in order. *)
Definition fsWrites (st : State) : list Event := filter isFsWrite (trace st).

Definition isVendorCall (ev : Event) : bool :=
  match ev with
  | EvGenerateContent _ => true
  | _ => false
  end.

Definition isReadFile (ev : Event) : bool :=
  match ev with
  | EvReadFile _ => true
  | _ => false
  end.

(** ** The stages of image generation

    [GeminiImageProvider.generate] checks its options, calls the vendor
    under the retry and timeout harness, and only then touches the file
    system.  The definitions below name the outcome of the first two stages
    so that statements can refer to them. *)

Section ImageStages.

Import GeminiImageProvider.

Variable env : Env.
Variable options : ImageGenerateOptions.

(** The message of the error thrown by the checks that precede the [try]
    block, if one is thrown. *)
Definition imagePreflight : option string :=
  let model := orDefault (model options) nano_banana in
  let referenceImages := orDefault (referenceImages options) [] in
  let aspectRatio := aspectRatio options in
  if truthyOpt aspectRatio
     && negb (arrayIncludes VALID_ASPECT_RATIOS (orDefault aspectRatio EmptyString))
  then
    Some ("Invalid aspect ratio " ++ dquote ++ orDefault aspectRatio EmptyString
          ++ dquote ++ ". Valid options: " ++ join ", " VALID_ASPECT_RATIOS)
  else if Z.of_nat (List.length referenceImages) >? MAX_REFERENCE_IMAGES model then
    Some ("Maximum " ++ ofZ (MAX_REFERENCE_IMAGES model)
          ++ " reference images allowed for " ++ imageModelName model)
  else None.

(** The request sent to the vendor. *)
Definition imageRequest : GenerateContentRequest :=
  mkRequest (IMAGE_MODEL_IDS (orDefault (model options) nano_banana))
    (buildContents (prompt options) (orDefault (referenceImages options) []))
    (ImageConfig ["image"; "text"]
       (if truthyOpt (aspectRatio options) then aspectRatio options else None)).

(** The vendor call under retry and timeout. *)
Definition imageVendorStage : M Response :=
  withRetry sleepState
    (generateContentWithTimeout env imageRequest DEFAULT_TIMEOUT_MS)
    providerRetryOptions.

End ImageStages.

(** Every event of [evs] creates the directory [dir] or writes [data] to
    [path]. *)
Definition onlySaves (dir path data : string) (evs : list Event) : Prop :=
  Forall (fun ev => ev = EvMkdir dir \/ ev = EvWriteFile path data) evs.

(** ** Conditions on a tool call

    The provider options the dispatcher builds from a tool's arguments when
    the model is absent or a supported name, that condition, and the
    condition that no [fetch] of the research provider is rejected. *)

Definition textModelKnown (args : Server.GenerateTextArgs) : Prop :=
  Server.t_model args = None
  \/ exists model, Server.t_model args = Some (textModelName model).

Definition imageModelKnown (args : Server.GenerateImageArgs) : Prop :=
  Server.i_model args = None
  \/ exists model, Server.i_model args = Some (imageModelName model).

Definition textOptionsOf (args : Server.GenerateTextArgs)
    : GeminiTextProvider.TextGenerateOptions :=
  {| GeminiTextProvider.prompt := Server.t_prompt args;
     GeminiTextProvider.systemPrompt := Server.t_system_prompt args;
     GeminiTextProvider.model :=
       match Server.t_model args with
       | Some name => Server.textModelOfName name
       | None => None
       end;
     GeminiTextProvider.thinkingLevel := Server.t_thinking_level args;
     GeminiTextProvider.maxTokens := Server.t_max_tokens args;
     GeminiTextProvider.temperature := Server.t_temperature args;
     GeminiTextProvider.files := Server.t_files args |}.

Definition imageOptionsOf (args : Server.GenerateImageArgs)
    : GeminiImageProvider.ImageGenerateOptions :=
  {| GeminiImageProvider.prompt := Server.i_prompt args;
     GeminiImageProvider.outputPath := Server.i_output_path args;
     GeminiImageProvider.model :=
       match Server.i_model args with
       | Some name => Server.imageModelOfName name
       | None => None
       end;
     GeminiImageProvider.referenceImages := Server.i_reference_images args;
     GeminiImageProvider.aspectRatio := Server.i_aspect_ratio args |}.

Definition noFetchRejection (env : Env) : Prop :=
  (forall query e, fetchStart env query <> StartFetchThrows e)
  /\ (forall k interactionId e, fetchPoll env k interactionId <> PollFetchThrows e).

(** ** States and conditions of the research poll loop *)

Section PollStates.

Variable env : Env.
Variable interactionId : string.
Variables timeoutMs pollIntervalMs startTime : Z.

(** The state after reading the clock and fetching the status once. *)
Definition afterPoll (st : State) : State :=
  mkState (trace st ++ [EvFetchPoll interactionId]) (vendorCalls st)
    (S (clockReads st)) (S (polls st)).

(** The state after an iteration that went on to sleep. *)
Definition afterSleep (st : State) : State :=
  record (EvSleep pollIntervalMs) (afterPoll st).

(** The state after [k] iterations that each went on to sleep. *)
Fixpoint afterSleeps (k : nat) (st : State) : State :=
  match k with
  | O => st
  | S k' => afterSleeps k' (afterSleep st)
  end.

(** The time elapsed at the clock reading that an iteration starting in
    [st] makes. *)
Definition elapsedAt (st : State) : Z := dateNow env (clockReads st) - startTime.

(** A status other than the two terminal ones. *)
Definition nonTerminal (pollStatus : string) : Prop :=
  pollStatus <> "completed" /\ pollStatus <> "failed".

(** The first [k] iterations from [st] each find the budget unspent and a
    non-terminal status. *)
Definition keepsPolling (st : State) (k : nat) : Prop :=
  forall i, (i < k)%nat ->
    dateNow env (clockReads st + i) - startTime <= timeoutMs
    /\ exists pollStatus outputs pollError,
         fetchPoll env (polls st + i) interactionId
         = PollOk pollStatus outputs pollError
         /\ nonTerminal pollStatus.

End PollStates.

(** The state in which [research] enters the poll loop: the clock was
    read once and the start request was sent. *)
Definition afterStart (query : string) (st : State) : State :=
  record (EvFetchStart query)
    (mkState (trace st) (vendorCalls st) (S (clockReads st)) (polls st)).

(** ** A sample platform for concrete runs *)

Module Sample.

(** The text from the last dot on, or the empty string. *)
Fixpoint fromLastDot (s : string) : option string :=
  match s with
  | EmptyString => None
  | String c s' =>
      match fromLastDot s' with
      | Some e => Some e
      | None => if Ascii.eqb c "."%char then Some s else None
      end
  end.

Definition extnameOf (path : string) : string :=
  orDefault (fromLastDot path) EmptyString.

Definition okResponse : Response :=
  {| responseText := Some "hello";
     candidates := None;
     usageMetadata := None |}.

Definition imageResponse : Response :=
  {| responseText := None;
     candidates :=
       Some [ {| parts := Some [ mkPart (Some "here it is") false None;
                                mkPart None false
                                  (Some (mkInlineData (Some "iVBORw0KGgo=")
                                           (Some "image/png"))) ] |} ];
     usageMetadata := None |}.

Definition textOnlyResponse : Response :=
  {| responseText := None;
     candidates := Some [ {| parts := Some [ mkPart (Some "sorry") false None ] |} ];
     usageMetadata := None |}.

(** A platform on which [/tmp/cat.png] and [/tmp/clip.gif] exist, every
    vendor call returns the promise [vendor], the clock reads [clock k] at
    its k-th reading and polls are answered by [poll]. *)
Definition envWith (vendor : Promise Response) (clock : nat -> Z)
    (poll : nat -> PollReply) : Env :=
  {| extname := extnameOf;
     dirname := fun _ => "/tmp";
     existsSync := fun p =>
       String.eqb p "/tmp/cat.png" || String.eqb p "/tmp/clip.gif"
       || String.eqb p "/tmp";
     readFileSync := fun _ => Ok "aGVsbG8=";
     mkdirSync := fun _ => None;
     writeFileSync := fun _ _ => None;
     generateContent := fun _ _ => vendor;
     dateNow := clock;
     fetchStart := fun _ => StartOk (Some "interactions/abc123");
     fetchPoll := fun k _ => poll k |}.

(** The vendor answers every call after 1.2 s with [reply]. *)
Definition env (reply : Result Response) : (nat -> Z) -> (nat -> PollReply) -> Env :=
  envWith (Settled 1200 reply).

(** The vendor never answers. *)
Definition stalled : (nat -> Z) -> (nat -> PollReply) -> Env := envWith Pending.

Definition rateLimited : Result Response :=
  Throw (mkError "got status: 429 Too Many Requests" (Some 429)).

Definition badRequest : Result Response :=
  Throw (mkError "got status: 400 Bad Request" (Some 400)).

(** Operations on a call counter: one that is always rate limited and one
    that is always refused as a bad request. *)
Definition alwaysRateLimited (calls : nat) : Result unit * nat :=
  (Throw (mkError "got status: 429 Too Many Requests" (Some 429)), S calls).

Definition alwaysBadRequest (calls : nat) : Result unit * nat :=
  (Throw (mkError "got status: 400 Bad Request" (Some 400)), S calls).

Definition noSleep (ms : Z) (calls : nat) : nat := calls.

(** Options whose initial delay exceeds the cap. *)
Definition eagerOptions : RetryOverrides :=
  {| maxRetries' := Some 2;
     initialDelayMs' := Some 50000;
     maxDelayMs' := None;
     backoffMultiplier' := None;
     retryableErrors' := None |}.

Definition inProgress : PollReply := PollOk "in_progress" None None.

(** Polls answered [in_progress], [in_progress], [completed] with two
    output fragments. *)
Definition twoThenDone (k : nat) : PollReply :=
  match k with
  | O | S O => inProgress
  | _ => PollOk "completed" (Some [Some "Part one."; Some "Part two."]) None
  end.

(** A clock that advances ten seconds between readings. *)
Definition tenSeconds (k : nat) : Z := 1000000 + 10000 * Z.of_nat k.

(** A clock that advances one minute per reading. *)
Definition oneMinute (k : nat) : Z := 1000000 + 60000 * Z.of_nat k.

(** Every status fetch finds the research completed. *)
Definition done : PollReply :=
  PollOk "completed" (Some [Some "Tides follow the moon."]) None.

End Sample.

(** ** Scripted operations

    An operation on a call counter whose [i]-th invocation (counting from
    zero) has the outcome [outcomes i]. *)

Definition scripted {T : Type} (outcomes : nat -> Result T) (calls : nat)
    : Result T * nat :=
  (outcomes calls, S calls).

(** An outcome that makes the harness try again: a failure matching one of
    the retryable patterns. *)
Definition retryableFailure {T : Type} (patterns : list string) (r : Result T)
    : Prop :=
  exists e, r = Throw e /\ isRetryableError e patterns = true.

(** ** The stages of text generation

    [GeminiTextProvider.generate] checks the thinking level, resolves the
    attachments, calls the vendor under the retry and timeout harness and
    builds its result from the response.  The definitions below name the
    request it sends and the result it builds. *)

Section TextStages.

Import GeminiTextProvider.

Variable env : Env.
Variable options : TextGenerateOptions.

(** The text part of the request: the prompt, wrapped after the system
    instructions when there are any. *)
Definition textPromptOf : string :=
  match systemPrompt options with
  | Some sp =>
      if truthy sp then
        "<system>" ++ nl ++ sp ++ nl ++ "</system>" ++ nl ++ nl ++ prompt options
      else prompt options
  | None => prompt options
  end.

(** The request sent to the vendor, given the resolved attachments. *)
Definition textRequest (fileParts : list ContentPart) : GenerateContentRequest :=
  mkRequest (TEXT_MODEL_IDS (orDefault (model options) DEFAULT_TEXT_MODEL))
    (ContentArray (fileParts ++ [TextPart textPromptOf]))
    (TextConfig (orDefault (maxTokens options) 65536)
       (orDefault (temperature options) (QArith_base.Qmake 7 10))
       (THINKING_LEVEL_MAP (orDefault (thinkingLevel options) high)) true).

(** The vendor call under retry and timeout. *)
Definition textVendorStage (fileParts : list ContentPart) : M Response :=
  withRetry sleepState
    (generateContentWithTimeout env (textRequest fileParts) DEFAULT_TIMEOUT_MS)
    providerRetryOptions.

(** The result built from a response. *)
Definition textResultOf (response : Response) : GenerateResult :=
  let '(text, thoughtSummary) := extractText response in
  {| text :=
       Some (if truthy thoughtSummary then
               text ++ nl ++ nl ++ "---" ++ nl ++ "**Thinking Summary:**" ++ nl
               ++ thoughtSummary
             else text);
     imagePath := None;
     usage := usageOf response;
     resultModel := textModelName (orDefault (model options) DEFAULT_TEXT_MODEL) |}.

End TextStages.

(** The state with the events [evs] appended to its trace. *)
Definition recordAll (evs : list Event) (st : State) : State :=
  mkState (trace st ++ evs) (vendorCalls st) (clockReads st) (polls st).

(** A trace segment made of vendor calls with the request [req] and of
    sleeps. *)
Definition callsAndSleeps (req : GenerateContentRequest) (evs : list Event) : Prop :=
  Forall (fun ev => ev = EvGenerateContent req \/ exists ms, ev = EvSleep ms) evs.

(** A promise that has not settled when [timeoutMs] have passed. *)
Definition stalls {T : Type} (p : Promise T) (timeoutMs : Z) : Prop :=
  match p with
  | Pending => True
  | Settled t _ => timeoutMs < t
  end.

(** ** Attachments one by one *)

Section Attachments.

Variable env : Env.

(** What one attachment path resolves to. *)
Definition resolveAttachment (filePath : string) : Result ContentPart :=
  if existsSync env filePath then
    match GeminiTextProvider.getMimeType env filePath with
    | Ok mimeType =>
        match readFileSync env filePath with
        | Ok data => Ok (InlinePart mimeType data)
        | Throw e => Throw e
        end
    | Throw e => Throw e
    end
  else Throw (newError ("File not found: " ++ filePath)).

(** The file-system calls made for one attachment path. *)
Definition attachmentEvents (filePath : string) : list Event :=
  if existsSync env filePath then
    match GeminiTextProvider.getMimeType env filePath with
    | Ok _ => [EvExists filePath; EvReadFile filePath]
    | Throw _ => [EvExists filePath]
    end
  else [EvExists filePath].

(** The attachments of a list of paths, up to the first that fails. *)
Fixpoint resolveAll (files : list string) : Result (list ContentPart) :=
  match files with
  | [] => Ok []
  | filePath :: rest =>
      match resolveAttachment filePath with
      | Ok part =>
          match resolveAll rest with
          | Ok more => Ok (part :: more)
          | Throw e => Throw e
          end
      | Throw e => Throw e
      end
  end.

(** The file-system calls made for a list of paths: those of each path up
    to and including the first that fails. *)
Fixpoint touchedEvents (files : list string) : list Event :=
  match files with
  | [] => []
  | filePath :: rest =>
      match resolveAttachment filePath with
      | Ok _ => attachmentEvents filePath ++ touchedEvents rest
      | Throw _ => attachmentEvents filePath
      end
  end.

End Attachments.

(** ** The answer and the thoughts in a list of response parts *)

Definition partHasText (p : Part) : bool :=
  match partText p with Some t => truthy t | None => false end.

Definition partTextOr (p : Part) : string := orDefault (partText p) EmptyString.

Definition concatAll (l : list string) : string := fold_right append EmptyString l.

(** The texts of the parts not marked as thoughts, concatenated. *)
Definition answerOf (ps : list Part) : string :=
  concatAll (map partTextOr (filter (fun p => partHasText p && negb (thought p)) ps)).

(** The texts of the parts marked as thoughts, each followed by a line
    break. *)
Definition thoughtsOf (ps : list Part) : string :=
  concatAll (map (fun p => partTextOr p ++ nl)
               (filter (fun p => partHasText p && thought p) ps)).

(** A trace segment without vendor calls. *)
Definition noVendorCall (evs : list Event) : Prop :=
  Forall (fun ev => isVendorCall ev = false) evs.

(** ** Reference images and response images *)

(** The character [c] occurs in [s]. *)
Fixpoint hasChar (c : ascii) (s : string) : bool :=
  match s with
  | EmptyString => false
  | String x s' => Ascii.eqb x c || hasChar c s'
  end.

(** A data URL with MIME type [mime] and base64 payload [payload]. *)
Definition dataUrl (mime payload : string) : string :=
  "data:" ++ mime ++ ";base64," ++ payload.

(** The first element that is present. *)
Fixpoint firstSome {A : Type} (l : list (option A)) : option A :=
  match l with
  | [] => None
  | Some a :: _ => Some a
  | None :: rest => firstSome rest
  end.

(** The payload a candidate offers: the data of its first part carrying
    inline data, when that data is not empty. *)
Definition candidatePayload (c : Candidate) : option string :=
  match GeminiImageProvider.firstInlineData (orDefault (parts c) []) with
  | Some d => if GeminiImageProvider.truthyOpt (data d) then data d else None
  | None => None
  end.

(** The file-system calls of a successful save of [payload] at
    [outputPath]: the directory is looked up when it has a name, created
    when it is missing, and the file is written last. *)
Definition saveEvents (env : Env) (outputPath payload : string) : list Event :=
  let outputDir := dirname env outputPath in
  ((if truthy outputDir then
      EvExists outputDir
      :: (if existsSync env outputDir then [] else [EvMkdir outputDir])
    else [])
   ++ [EvWriteFile outputPath payload])%list.

(** ** The end of the research poll loop *)

(** What an iteration yields as the outcome of the loop. *)
Definition loopOutcome (res : Result GeminiDeepResearchProvider.PollResult)
    : Result (option GeminiDeepResearchProvider.PollResult) :=
  match res with
  | Ok r => Ok (Some r)
  | Throw e => Throw e
  end.

(** The iteration that starts in [st] ends the loop with [res] in [st']:
    either the budget is spent at its clock reading, or the status it
    fetches is terminal or cannot be read. *)
Definition pollEnds (env : Env) (interactionId : string) (timeoutMs startTime : Z)
    (st : State) (res : Result GeminiDeepResearchProvider.PollResult) (st' : State)
    : Prop :=
  let elapsed := elapsedAt env startTime st in
  (elapsed > timeoutMs
   /\ res = Throw (newError
                     (GeminiDeepResearchProvider.timeoutMessage elapsed interactionId))
   /\ st' = mkState (trace st) (vendorCalls st) (S (clockReads st)) (polls st))
  \/ (elapsed <= timeoutMs
      /\ st' = afterPoll interactionId st
      /\ match fetchPoll env (polls st) interactionId with
         | PollFetchThrows e => res = Throw e
         | PollNotOk httpStatus errorText =>
             res = Throw (newError ("API_ERROR: Failed to poll research status: "
                                    ++ ofZ httpStatus ++ " - " ++ errorText))
         | PollOk pollStatus outputs pollError =>
             (pollStatus = "completed"
              /\ truthy (GeminiDeepResearchProvider.joinOutputs outputs) = true
              /\ res = Ok (GeminiDeepResearchProvider.mkPollResult
                             (GeminiDeepResearchProvider.joinOutputs outputs)
                             GeminiDeepResearchProvider.completed "deep-research"))
             \/ (pollStatus = "completed"
                 /\ GeminiDeepResearchProvider.joinOutputs outputs = EmptyString
                 /\ res = Throw (newError
                                   "API_ERROR: Research completed but no output text found"))
             \/ (pollStatus = "failed"
                 /\ res = Throw (newError
                                   ("RESEARCH_FAILED: "
                                    ++ match pollError with
                                       | Some m =>
                                           if truthy m then m
                                           else "Research failed with unknown error"
                                       | None => "Research failed with unknown error"
                                       end)))
         end).

(** [env] with the start request answered by [reply]. *)
Definition withFetchStart (reply : StartReply) (env : Env) : Env :=
  {| extname := extname env;
     dirname := dirname env;
     existsSync := existsSync env;
     readFileSync := readFileSync env;
     mkdirSync := mkdirSync env;
     writeFileSync := writeFileSync env;
     generateContent := generateContent env;
     dateNow := dateNow env;
     fetchStart := fun _ => reply;
     fetchPoll := fetchPoll env |}.

(** The events of [k] rounds of fetching the status and sleeping. *)
Fixpoint pollRounds (interactionId : string) (pollIntervalMs : Z) (k : nat)
    : list Event :=
  match k with
  | O => []
  | S k' =>
      EvFetchPoll interactionId :: EvSleep pollIntervalMs
      :: pollRounds interactionId pollIntervalMs k'
  end.

(** An error body of the shape the vendor documents: an object whose
    [error] member has a text [message] and a [details] array of objects,
    each with a text [reason]. *)
Definition errorBody (message : string) (reasons : list string) : Json :=
  JsonObject
    [("error",
      JsonObject
        [("message", JsonString message);
         ("details",
          JsonArray (map (fun reason => JsonObject [("reason", JsonString reason)])
                       reasons))])].

(** ** Vendor calls that fail *)

(** The vendor call number [k] with request [req] is rejected with [e]
    before the timer of [timeoutMs] fires. *)
Definition failsInTime (env : Env) (req : GenerateContentRequest) (timeoutMs : Z)
    (k : nat) (e : Error) : Prop :=
  exists t, generateContent env k req = Settled t (Throw e) /\ t <= timeoutMs.

(** An error that the providers retry. *)
Definition retriedByProviders (e : Error) : bool :=
  isRetryableError e (retryableErrors (mergeOptions DEFAULT_OPTIONS providerRetryOptions)).

(** The trace of three vendor calls with the pauses between them. *)
Definition threeCalls (req : GenerateContentRequest) : list Event :=
  [EvGenerateContent req; EvSleep 1000; EvGenerateContent req; EvSleep 2000;
   EvGenerateContent req].

(** ** Categorized errors as errors *)

(** An [MCPError] seen as the [Error] it extends: it has a message and a
    [statusCode], and no [status]. *)
Definition asError (e : MCPError) : Error :=
  mkErrorWith (mcpMessage e) None (statusCode e).

(** The substrings [categorizeError] looks for, in the order of its rules. *)
Definition CATEGORIZE_PATTERNS : list string :=
  ["API key"; "unauthorized"; "rate"; "quota"; "safety"; "SAFETY"; "blocked";
   "content policy"; "TIMEOUT"; "timed out"].

(* ===================================================================== *)
(** * logger.ts *)
(* ===================================================================== *)

Module Logger.

Inductive Level : Type := LevelInfo | LevelWarn | LevelError | LevelDebug.

Definition levelName (l : Level) : string :=
  match l with
  | LevelInfo => "info" | LevelWarn => "warn"
  | LevelError => "error" | LevelDebug => "debug"
  end.

Definition upperAscii (c : ascii) : ascii :=
  let n := nat_of_ascii c in
  if (Nat.leb 97 n && Nat.leb n 122)%bool then ascii_of_nat (n - 32) else c.

(** [s.toUpperCase()] on the ASCII range. *)
Fixpoint toUpperCase (s : string) : string :=
  match s with
  | EmptyString => EmptyString
  | String c s' => String (upperAscii c) (toUpperCase s')
  end.

(** The [details] of an entry: absent (or another falsy value), or a
    value, given by what [JSON.stringify] makes of it: a text,
    [undefined] (for a function, say), or an exception (for a cyclic
    object or one that holds a BigInt). *)
Inductive Details : Type :=
| NoDetails
| DetailsValue (stringified : Result (option string)).

(** Details that [JSON.stringify] renders as the given text. *)
Definition rendered (text : option string) : Details :=
  match text with
  | Some t => DetailsValue (Ok (Some t))
  | None => NoDetails
  end.

Record LogEntry : Type := mkLogEntry {
  timestamp : string;
  level : Level;
  event : string;
  details : Details
}.

Record UsageEntry : Type := mkUsageEntry {
  usageTimestamp : string;
  usageModel : string;
  usageType : string;                 (* ["text" | "image"] *)
  promptTokens : option Z;
  completionTokens : option Z;
  totalTokens : option Z;
  thoughtsTokens : option Z;
  durationMs : Z;
  success : bool;
  usageError : option string
}.

(** What the logger consumes from outside: two environment variables,
    Node's [fs] and [path], the clock and [JSON.stringify].  Calls that
    may answer differently each time are indexed by how many calls of the
    kind were made before. *)
Record Platform : Type := mkPlatform {
  MCP_DEBUG : option string;
  MCP_LOG_DIR : option string;
  existsSync : string -> bool;
  mkdirSync : string -> option Error;                  (* [None]: it returned *)
  appendFileSync : nat -> string -> string -> option Error;
  pathJoin : string -> string -> string;               (* [join] of [path] *)
  toISOString : nat -> string;                         (* [new Date().toISOString()] *)
  stringify : string -> string;                        (* of a string *)
  stringifyUsage : UsageEntry -> string
}.

Inductive Output : Type :=
| Stderr (line : string)                               (* [console.error] *)
| ExistsSync (path : string)
| MkdirSync (path : string)
| AppendFileSync (path data : string).

Record World : Type := mkWorld {
  out : list Output;
  dates : nat;          (* [new Date()] evaluated so far *)
  appends : nat         (* [appendFileSync] calls so far *)
}.

Definition emit (o : Output) (w : World) : World :=
  mkWorld (out w ++ [o]) (dates w) (appends w).

(** The private fields of the [Logger] object. *)
Record Fields : Type := mkFields {
  logFile : option string;
  usageFile : option string;
  debug : bool
}.

(** [parts.join(" ")] renders an [undefined] element as the empty
    string. *)
Definition formatEntry (entry : LogEntry) : Result string :=
  let parts :=
    ["[" ++ timestamp entry ++ "]";
     "[" ++ toUpperCase (levelName (level entry)) ++ "]";
     event entry] in
  match details entry with
  | NoDetails => Ok (join " " parts)
  | DetailsValue (Ok (Some text)) => Ok (join " " (parts ++ [text]))
  | DetailsValue (Ok None) => Ok (join " " (parts ++ [EmptyString]))
  | DetailsValue (Throw e) => Throw e
  end.

Section WithPlatform.

Variable pf : Platform.

(** [console.error(line)] *)
Definition consoleError (line : string) (w : World) : World := emit (Stderr line) w.

(** [appendFileSync(file, data)] *)
Definition appendFileSyncW (file data : string) (w : World) : Result unit * World :=
  (match appendFileSync pf (appends w) file data with
   | None => Ok tt
   | Some e => Throw e
   end,
   mkWorld (out w ++ [AppendFileSync file data]) (dates w) (S (appends w))).

(** [try { appendFileSync(file, data); } catch { }] *)
Definition appendSilently (file data : string) (w : World) : Result unit * World :=
  match appendFileSyncW file data w with
  | (Ok _, w') => (Ok tt, w')
  | (Throw _, w') => (Ok tt, w')
  end.

Definition log (this : Fields) (level : Level) (event : string)
    (details : Details) (w : World) : Result unit * World :=
  let entry :=
    {| timestamp := toISOString pf (dates w);
       level := level; event := event; details := details |} in
  let w1 := mkWorld (out w) (S (dates w)) (appends w) in
  match formatEntry entry with
  | Throw e => (Throw e, w1)
  | Ok message =>
      let w2 :=
        if String.eqb (levelName level) "error" then
          consoleError ("[mcp-gemini] " ++ message) w1
        else if String.eqb (levelName level) "warn" then
          consoleError ("[mcp-gemini] " ++ message) w1
        else if debug this || String.eqb (levelName level) "info" then
          consoleError ("[mcp-gemini] " ++ message) w1
        else w1 in
      match logFile this with
      | Some file =>
          if truthy file then appendSilently file (message ++ nl) w2 else (Ok tt, w2)
      | None => (Ok tt, w2)
      end
  end.

Definition info (this : Fields) := log this LevelInfo.
Definition warn (this : Fields) := log this LevelWarn.
Definition error (this : Fields) := log this LevelError.

Definition debugLog (this : Fields) (event : string) (details : Details)
    (w : World) : Result unit * World :=
  if debug this then log this LevelDebug event details w else (Ok tt, w).

(** Log usage statistics for a generation request. *)
Definition logUsage (this : Fields) (entry : UsageEntry) (w : World)
    : Result unit * World :=
  let summary :=
    if success entry then
      usageType entry ++ " generation complete: " ++ usageModel entry ++ ", "
      ++ match totalTokens entry with
         | Some n => if n =? 0 then "?" else ofZ n
         | None => "?"
         end
      ++ " tokens, " ++ ofZ (durationMs entry) ++ "ms"
    else
      usageType entry ++ " generation failed: " ++ usageModel entry ++ ", "
      ++ orDefault (usageError entry) "undefined" in
  match info this summary NoDetails w with
  | (Throw e, w1) => (Throw e, w1)
  | (Ok _, w1) =>
      match usageFile this with
      | Some file =>
          if truthy file then appendSilently file (stringifyUsage pf entry ++ nl) w1
          else (Ok tt, w1)
      | None => (Ok tt, w1)
      end
  end.

(** The constructor.  [logFile] and [usageFile] are assigned inside the
    [try] block, after the directory has been made sure of. *)
Definition construct (w : World) : Result Fields * World :=
  let debug :=
    negb (match MCP_DEBUG pf with Some v => String.eqb v "false" | None => false end) in
  let logDir := orDefault (MCP_LOG_DIR pf) "logs" in
  if String.eqb logDir "none" then (Ok (mkFields None None debug), w)
  else
    let w1 := emit (ExistsSync logDir) w in
    let made :=
      if negb (existsSync pf logDir) then
        (match mkdirSync pf logDir with None => Ok tt | Some e => Throw e end,
         emit (MkdirSync logDir) w1)
      else (Ok tt, w1) in
    match made with
    | (Throw e, w2) =>
        (Ok (mkFields None None debug),
         consoleError ("[mcp-gemini] Failed to initialize log files: " ++ message e) w2)
    | (Ok _, w2) =>
        let this :=
          mkFields (Some (pathJoin pf logDir "mcp-gemini.log"))
            (Some (pathJoin pf logDir "usage.jsonl")) debug in
        match
          info this "Logger initialized"
            (rendered
               (Some ("{" ++ dquote ++ "logDir" ++ dquote ++ ":" ++ stringify pf logDir
                      ++ "," ++ dquote ++ "logFile" ++ dquote ++ ":"
                      ++ stringify pf (pathJoin pf logDir "mcp-gemini.log")
                      ++ "," ++ dquote ++ "usageFile" ++ dquote ++ ":"
                      ++ stringify pf (pathJoin pf logDir "usage.jsonl") ++ "}"))) w2
        with
        | (Ok _, w3) => (Ok this, w3)
        | (Throw e, w3) =>
            (Ok this,
             consoleError ("[mcp-gemini] Failed to initialize log files: " ++ message e)
               w3)
        end
    end.

End WithPlatform.

End Logger.

(** ** Sessions of the logger

    A session constructs the logger and then calls its methods one after
    the other; it stops at the first call that throws.  The calls of a
    session carry details that [JSON.stringify] renders as a text, or
    none. *)

Inductive LoggerCall : Type :=
| CallInfo (event : string) (details : option string)
| CallWarn (event : string) (details : option string)
| CallError (event : string) (details : option string)
| CallDebugLog (event : string) (details : option string)
| CallLogUsage (entry : Logger.UsageEntry).

Definition performCall (pf : Logger.Platform) (this : Logger.Fields) (c : LoggerCall)
    : Logger.World -> Result unit * Logger.World :=
  match c with
  | CallInfo event details => Logger.info pf this event (Logger.rendered details)
  | CallWarn event details => Logger.warn pf this event (Logger.rendered details)
  | CallError event details => Logger.error pf this event (Logger.rendered details)
  | CallDebugLog event details =>
      Logger.debugLog pf this event (Logger.rendered details)
  | CallLogUsage entry => Logger.logUsage pf this entry
  end.

Fixpoint performCalls (pf : Logger.Platform) (this : Logger.Fields)
    (cs : list LoggerCall) (w : Logger.World) : Result unit * Logger.World :=
  match cs with
  | [] => (Ok tt, w)
  | c :: rest =>
      match performCall pf this c w with
      | (Ok _, w') => performCalls pf this rest w'
      | (Throw e, w') => (Throw e, w')
      end
  end.

Definition loggerSession (pf : Logger.Platform) (cs : list LoggerCall)
    (w : Logger.World) : Result unit * Logger.World :=
  match Logger.construct pf w with
  | (Ok this, w') => performCalls pf this cs w'
  | (Throw e, w') => (Throw e, w')
  end.

(** The directory the logger is configured with. *)
Definition logDirOf (pf : Logger.Platform) : string :=
  orDefault (Logger.MCP_LOG_DIR pf) "logs".

(** An output the configuration allows: a tagged line on the standard
    error stream; a lookup or creation of the configured directory; a line
    appended to one of the two files in it, once the directory is there. *)
Definition allowedOutput (pf : Logger.Platform) (o : Logger.Output) : Prop :=
  match o with
  | Logger.Stderr line => startsWith line "[mcp-gemini] " = true
  | Logger.ExistsSync path => path = logDirOf pf /\ logDirOf pf <> "none"
  | Logger.MkdirSync path =>
      path = logDirOf pf /\ logDirOf pf <> "none"
      /\ Logger.existsSync pf (logDirOf pf) = false
  | Logger.AppendFileSync path data =>
      logDirOf pf <> "none"
      /\ (Logger.existsSync pf (logDirOf pf) = true
          \/ Logger.mkdirSync pf (logDirOf pf) = None)
      /\ (path = Logger.pathJoin pf (logDirOf pf) "mcp-gemini.log"
          \/ path = Logger.pathJoin pf (logDirOf pf) "usage.jsonl")
      /\ exists line, data = line ++ nl
  end.

Definition isStderr (o : Logger.Output) : bool :=
  match o with Logger.Stderr _ => true | _ => false end.

(** The call prints a line when debugging is [dbg]. *)
Definition printsLine (dbg : bool) (c : LoggerCall) : bool :=
  match c with
  | CallDebugLog _ _ => dbg
  | _ => true
  end.

(** An output a logger with the fields [this] may produce in a method
    call: a tagged line on the standard error stream or a line appended to
    one of its two files. *)
Definition methodOutput (this : Logger.Fields) (o : Logger.Output) : Prop :=
  match o with
  | Logger.Stderr line => startsWith line "[mcp-gemini] " = true
  | Logger.AppendFileSync path data =>
      (Logger.logFile this = Some path \/ Logger.usageFile this = Some path)
      /\ exists line, data = line ++ nl
  | _ => False
  end.

(** Whether debugging is on. *)
Definition debugOf (pf : Logger.Platform) : bool :=
  negb (match Logger.MCP_DEBUG pf with
        | Some v => String.eqb v "false"
        | None => false
        end).

(** The fields of a logger name the two files in the configured directory,
    and only when that directory is there. *)
Definition fieldsConfined (pf : Logger.Platform) (this : Logger.Fields) : Prop :=
  forall path,
    Logger.logFile this = Some path \/ Logger.usageFile this = Some path ->
    logDirOf pf <> "none"
    /\ (Logger.existsSync pf (logDirOf pf) = true
        \/ Logger.mkdirSync pf (logDirOf pf) = None)
    /\ (path = Logger.pathJoin pf (logDirOf pf) "mcp-gemini.log"
        \/ path = Logger.pathJoin pf (logDirOf pf) "usage.jsonl").

(** A platform for concrete sessions: the directory [logs] is missing and
    can be created, every append fails, and the clock shows the number of
    the reading. *)
Definition samplePlatform (debugVar logDirVar : option string) : Logger.Platform :=
  {| Logger.MCP_DEBUG := debugVar;
     Logger.MCP_LOG_DIR := logDirVar;
     Logger.existsSync := fun _ => false;
     Logger.mkdirSync := fun _ => None;
     Logger.appendFileSync := fun _ _ _ => Some (newError "ENOSPC: no space left on device");
     Logger.pathJoin := fun dir file => dir ++ "/" ++ file;
     Logger.toISOString := fun k => "T" ++ ofZ (Z.of_nat k);
     Logger.stringify := fun s => dquote ++ s ++ dquote;
     Logger.stringifyUsage := fun entry => "{...}" |}.

(* ===================================================================== *)
(** * Facts about the string primitives *)
(* ===================================================================== *)

Section StringFacts.

Lemma prefix_app (p s : string) : String.prefix p (p ++ s) = true.
Proof.
  induction p as [|c p IH]; simpl.
  - now destruct s.
  - destruct (ascii_dec c c) as [_|n]; [exact IH | now elim n].
Qed.

Lemma includes_prefix (s p : string) :
  String.prefix p s = true -> includes s p = true.
Proof. intros H. destruct s; cbn [includes]; now rewrite H. Qed.

Lemma includes_skip (pre s p : string) :
  includes s p = true -> includes (pre ++ s) p = true.
Proof.
  intros H. induction pre as [|c pre IH]; [exact H|].
  change (String c pre ++ s) with (String c (pre ++ s)). cbn [includes].
  rewrite IH. now destruct (String.prefix p (String c (pre ++ s))).
Qed.

(** A string contains each of the pieces it was concatenated from. *)
Lemma includes_middle (pre mid post : string) :
  includes (pre ++ mid ++ post) mid = true.
Proof. apply includes_skip, includes_prefix, prefix_app. Qed.

Lemma prefix_refl (s : string) : String.prefix s s = true.
Proof.
  induction s as [|c s IH]; simpl; [reflexivity|].
  destruct (ascii_dec c c) as [_|n]; [exact IH | now elim n].
Qed.

Lemma includes_suffix (pre suf : string) : includes (pre ++ suf) suf = true.
Proof. apply includes_skip, includes_prefix, prefix_refl. Qed.

Lemma startsWith_app (p s : string) : startsWith (p ++ s) p = true.
Proof. apply prefix_app. Qed.

Lemma append_assoc (a b c : string) : (a ++ b) ++ c = a ++ (b ++ c).
Proof. induction a as [|x a IH]; simpl; [reflexivity | now rewrite IH]. Qed.

End StringFacts.

(* ===================================================================== *)
(** * Thinking-level validation *)
(* ===================================================================== *)

Lemma ThinkingLevelOption_eqb_eq (a b : ThinkingLevelOption) :
  ThinkingLevelOption_eqb a b = true <-> a = b.
Proof. destruct a, b; simpl; split; congruence. Qed.

Lemma validateThinkingLevel_None (m : SupportedTextModel) (l : ThinkingLevelOption) :
  validateThinkingLevel m l = None <-> In l (MODEL_THINKING_LEVELS m).
Proof.
  unfold validateThinkingLevel.
  destruct (existsb (ThinkingLevelOption_eqb l) (MODEL_THINKING_LEVELS m)) eqn:E; simpl.
  - split; [intros _ | reflexivity].
    apply existsb_exists in E. destruct E as [x [Hin Hx]].
    apply ThinkingLevelOption_eqb_eq in Hx. now subst.
  - split; [discriminate | intros Hin].
    assert (existsb (ThinkingLevelOption_eqb l) (MODEL_THINKING_LEVELS m) = true) as E'.
    { apply existsb_exists. exists l. split; [exact Hin|].
      now apply ThinkingLevelOption_eqb_eq. }
    congruence.
Qed.

(** C1.  For both text models and all four thinking levels,
    [validateThinkingLevel] returns no error exactly when the level is in
    the model's capability set (pro: low, high; flash: all four).  The pair
    (gemini-3-pro, medium) is rejected and (gemini-3-flash, medium) is
    accepted.  Whenever the check fails, [GeminiTextProvider.generate]
    throws an error whose message is ["VALIDATION_ERROR: "] followed by the
    validation message, and leaves the state as it found it: no file is
    touched and the vendor is not called. *)
Theorem validateThinkingLevel_capability_and_preflight :
  (forall m l, validateThinkingLevel m l = None <-> In l (MODEL_THINKING_LEVELS m))
  /\ MODEL_THINKING_LEVELS gemini_3_pro = [low; high]
  /\ MODEL_THINKING_LEVELS gemini_3_flash = [minimal; low; medium; high]
  /\ validateThinkingLevel gemini_3_pro medium
     = Some "gemini-3-pro only supports thinking levels: low, high. Got: medium"
  /\ validateThinkingLevel gemini_3_flash medium = None
  /\ (forall env options st msg,
        validateThinkingLevel
          (orDefault (GeminiTextProvider.model options) DEFAULT_TEXT_MODEL)
          (orDefault (GeminiTextProvider.thinkingLevel options) high) = Some msg ->
        GeminiTextProvider.generate env options st
        = (Throw (newError ("VALIDATION_ERROR: " ++ msg)), st)
        /\ startsWith ("VALIDATION_ERROR: " ++ msg) "VALIDATION_ERROR" = true).
Proof.
  split; [exact validateThinkingLevel_None|].
  repeat split; try reflexivity.
  unfold GeminiTextProvider.generate. rewrite H. reflexivity.
Qed.

(** A request for gemini-3-pro at level medium is turned away before any
    effect. *)
Example generate_pro_medium_rejected :
  GeminiTextProvider.generate
    (Sample.env (Ok Sample.okResponse) Sample.tenSeconds (fun _ => Sample.inProgress))
    (GeminiTextProvider.mkOptions "hello" None (Some gemini_3_pro) (Some medium)
       None None (Some ["/tmp/cat.png"]))
    initialState
  = (Throw (newError
      "VALIDATION_ERROR: gemini-3-pro only supports thinking levels: low, high. Got: medium"),
     initialState).
Proof. reflexivity. Qed.

(* ===================================================================== *)
(** * The retry harness *)
(* ===================================================================== *)

Section BackoffFacts.

Variable opts : RetryOptions.

Lemma backoffDelays_length (n : nat) (delay : Z) :
  List.length (backoffDelays opts n delay) = n.
Proof.
  revert delay. induction n as [|n IH]; intros delay; simpl; [reflexivity|].
  now rewrite IH.
Qed.

(** Once a delay is within the cap, every later one is. *)
Lemma backoffDelays_capped (n : nat) (delay : Z) :
  delay <= maxDelayMs opts ->
  Forall (fun d => d <= maxDelayMs opts) (backoffDelays opts n delay).
Proof.
  revert delay. induction n as [|n IH]; intros delay Hd; simpl; constructor.
  - exact Hd.
  - apply IH. apply Z.le_min_r.
Qed.

Lemma backoffDelays_nondecreasing (n : nat) (delay : Z) :
  0 <= delay <= maxDelayMs opts ->
  1 <= backoffMultiplier opts ->
  nondecreasing (backoffDelays opts n delay).
Proof.
  intros Hd Hm. revert delay Hd.
  induction n as [|n IH]; intros delay Hd; [exact I|].
  assert (delay <= Z.min (delay * backoffMultiplier opts) (maxDelayMs opts)) as Hstep.
  { apply Z.min_glb; [nia | lia]. }
  specialize (IH (Z.min (delay * backoffMultiplier opts) (maxDelayMs opts))).
  cbn [backoffDelays]. destruct n as [|n]; [exact I|].
  cbn [nondecreasing]. cbn [backoffDelays] in *. split; [exact Hstep|].
  apply IH. split; [lia | apply Z.le_min_r].
Qed.

End BackoffFacts.

Section RetryFacts.

Context {St T : Type}.
Variable sleep : Z -> St -> St.
Variable fn : St -> Result T * St.
Variable opts : RetryOptions.

(** Probing changes neither the result nor the operation's state. *)
Lemma retryLoop_probe_erasure (n : nat) (attempt delay : Z)
    (lastError : option Error) (st : St) (p : Probe T) :
  exists p',
    retryLoop (probedSleep sleep) opts (probedFn fn) n attempt delay lastError (st, p)
    = (fst (retryLoop sleep opts fn n attempt delay lastError st),
       (snd (retryLoop sleep opts fn n attempt delay lastError st), p')).
Proof.
  revert attempt delay lastError st p.
  induction n as [|n IH]; intros attempt delay lastError st p.
  - exists p. reflexivity.
  - cbn [retryLoop]. unfold probedFn. cbn [fst snd].
    destruct (fn st) as [[v|error] st1].
    + eexists. reflexivity.
    + destruct (negb (isRetryableError error (retryableErrors opts))
                || negb (attempt <=? maxRetries opts)).
      * eexists. reflexivity.
      * apply IH.
Qed.

(** With [n >= 1] iterations left, the last of which is attempt
    [maxRetries + 1], the loop invokes the operation [n] times, sleeps
    between consecutive invocations and throws the last error. *)
Lemma retryLoop_exhausts (n : nat) :
  alwaysRetryable fn (retryableErrors opts) ->
  forall (attempt delay : Z) (lastError : option Error) (sp : St * Probe T),
    attempt + Z.of_nat n = maxRetries opts + 1 ->
    exists e st' earlier,
      retryLoop (probedSleep sleep) opts (probedFn fn) (S n) attempt delay
        lastError sp
      = (Throw e,
         (st', mkProbe (invocations (snd sp) ++ earlier ++ [Throw e])
                 (sleeps (snd sp) ++ backoffDelays opts n delay)))
      /\ List.length earlier = n.
Proof.
  intros Hfn. induction n as [|n IH]; intros attempt delay lastError sp Hn.
  - destruct (Hfn (fst sp)) as (e & st1 & Hrun & Hre).
    exists e, st1, []. split; [|reflexivity].
    cbn [retryLoop]. unfold probedFn. rewrite Hrun, Hre.
    replace (attempt <=? maxRetries opts) with false
      by (symmetry; apply Z.leb_gt; lia).
    cbn. now rewrite app_nil_r.
  - destruct (Hfn (fst sp)) as (e0 & st1 & Hrun & Hre).
    remember (S n) as m eqn:Hm.
    cbn [retryLoop]. unfold probedFn at 1. rewrite Hrun, Hre.
    replace (attempt <=? maxRetries opts) with true
      by (symmetry; apply Z.leb_le; lia).
    cbn [negb orb]. subst m.
    destruct (IH (attempt + 1)
                (Z.min (delay * backoffMultiplier opts) (maxDelayMs opts))
                (Some e0)
                (probedSleep sleep delay
                   (st1, mkProbe (invocations (snd sp) ++ [Throw e0]) (sleeps (snd sp)))))
      as (e & st' & earlier & Hloop & Hlen); [lia|].
    exists e, st', (Throw e0 :: earlier). split; [|simpl; now rewrite Hlen].
    rewrite Hloop. cbn [probedSleep fst snd invocations sleeps backoffDelays].
    now rewrite <- !app_assoc.
Qed.

End RetryFacts.

(** With an initial delay of 50 s above the 30 s cap, the harness sleeps
    50 s and then 30 s: the first delay exceeds [maxDelayMs] and the
    sequence decreases. *)
Lemma withRetry_first_delay_uncapped :
  withRetry (probedSleep Sample.noSleep) (probedFn Sample.alwaysRateLimited)
    Sample.eagerOptions (0%nat, noProbe)
  = (Throw (mkError "got status: 429 Too Many Requests" (Some 429)),
     (3%nat,
      mkProbe
        [Throw (mkError "got status: 429 Too Many Requests" (Some 429));
         Throw (mkError "got status: 429 Too Many Requests" (Some 429));
         Throw (mkError "got status: 429 Too Many Requests" (Some 429))]
        [50000; 30000]))
  /\ maxDelayMs (mergeOptions DEFAULT_OPTIONS Sample.eagerOptions) = 30000
  /\ (50000 <=? 30000) = false.
Proof. repeat split. Qed.

(** C2 (amended).  For every [maxRetries >= 0] and every operation that
    fails with a retryable error on every invocation, [withRetry] invokes
    the operation exactly [maxRetries + 1] times and throws the error of
    the last invocation.  It sleeps [maxRetries] times; the first delay is
    [initialDelayMs] and each next one is
    [min(delay * backoffMultiplier, maxDelayMs)].  When
    [0 <= initialDelayMs <= maxDelayMs] and [backoffMultiplier >= 1] the
    delays never decrease and each is at most [maxDelayMs]. *)
Theorem withRetry_exhausts_retryable
    (St T : Type) (sleep : Z -> St -> St) (fn : St -> Result T * St)
    (options : RetryOverrides) (st : St) :
  let opts := mergeOptions DEFAULT_OPTIONS options in
  0 <= maxRetries opts ->
  alwaysRetryable fn (retryableErrors opts) ->
  exists e st' earlier delays,
    withRetry (probedSleep sleep) (probedFn fn) options (st, noProbe)
    = (Throw e, (st', mkProbe (earlier ++ [Throw e]) delays))
    /\ withRetry sleep fn options st = (Throw e, st')
    /\ Z.of_nat (List.length (earlier ++ [Throw e])) = maxRetries opts + 1
    /\ delays = backoffDelays opts (Z.to_nat (maxRetries opts)) (initialDelayMs opts)
    /\ Z.of_nat (List.length delays) = maxRetries opts
    /\ (0 <= initialDelayMs opts <= maxDelayMs opts ->
        1 <= backoffMultiplier opts ->
        nondecreasing delays /\ Forall (fun d => d <= maxDelayMs opts) delays).
Proof.
  intros opts Hmax Hfn.
  assert (Z.to_nat (maxRetries opts + 1) = S (Z.to_nat (maxRetries opts))) as Hiter
    by lia.
  destruct (retryLoop_exhausts sleep fn opts (Z.to_nat (maxRetries opts)) Hfn
              1 (initialDelayMs opts) None (st, noProbe))
    as (e & st' & earlier & Hloop & Hlen); [lia|].
  cbn [fst snd invocations sleeps noProbe app] in Hloop.
  exists e, st', earlier,
    (backoffDelays opts (Z.to_nat (maxRetries opts)) (initialDelayMs opts)).
  assert (withRetry (probedSleep sleep) (probedFn fn) options (st, noProbe)
          = (Throw e, (st', mkProbe (earlier ++ [Throw e])
               (backoffDelays opts (Z.to_nat (maxRetries opts)) (initialDelayMs opts)))))
    as Hrun.
  { unfold withRetry. fold opts. rewrite Hiter. exact Hloop. }
  split; [exact Hrun|].
  split.
  { unfold withRetry in Hrun |- *. fold opts in Hrun |- *.
    destruct (retryLoop_probe_erasure sleep fn opts (Z.to_nat (maxRetries opts + 1))
                1 (initialDelayMs opts) None st noProbe) as [p' Her].
    destruct (retryLoop sleep opts fn (Z.to_nat (maxRetries opts + 1)) 1
                (initialDelayMs opts) None st) as [r s'].
    rewrite Hrun in Her. cbn [fst snd] in Her. congruence. }
  split; [rewrite length_app, Hlen; cbn [List.length]; lia|].
  split; [reflexivity|].
  split; [rewrite backoffDelays_length; lia|].
  intros Hd Hm. split.
  - now apply backoffDelays_nondecreasing.
  - apply backoffDelays_capped. lia.
Qed.

(** The harness on an operation that is rate limited for ever, with the
    default options: four invocations, delays of 1, 2 and 4 seconds. *)
Lemma withRetry_exhausts_retryable_witness :
  exists e st' earlier delays,
    withRetry (probedSleep Sample.noSleep) (probedFn Sample.alwaysRateLimited)
      noOverrides (0%nat, noProbe)
    = (Throw e, (st', mkProbe (earlier ++ [Throw e]) delays))
    /\ Z.of_nat (List.length (earlier ++ [Throw e])) = 4
    /\ delays = [1000; 2000; 4000].
Proof.
  destruct (withRetry_exhausts_retryable nat unit Sample.noSleep
              Sample.alwaysRateLimited noOverrides 0%nat)
    as (e & st' & earlier & delays & Hrun & _ & Hlen & Hdelays & _).
  - simpl. lia.
  - intros calls. eexists. eexists. split; reflexivity.
  - exists e, st', earlier, delays. split; [exact Hrun|]. split; [exact Hlen|].
    exact Hdelays.
Defined.

(** C6 (amended).  With a retry count that is not negative, when the
    first invocation of the operation throws an error that matches none of
    the retryable patterns, [withRetry] invokes the operation exactly
    once, does not sleep, and throws that very error: the value thrown is
    the one the operation threw, in its message and in its status
    fields. *)
Theorem withRetry_non_retryable_once
    (St T : Type) (sleep : Z -> St -> St) (fn : St -> Result T * St)
    (options : RetryOverrides) (st st1 : St) (e : Error) :
  let opts := mergeOptions DEFAULT_OPTIONS options in
  0 <= maxRetries opts ->
  fn st = (Throw e, st1) ->
  isRetryableError e (retryableErrors opts) = false ->
  withRetry (probedSleep sleep) (probedFn fn) options (st, noProbe)
  = (Throw e, (st1, mkProbe [Throw e] []))
  /\ withRetry sleep fn options st = (Throw e, st1).
Proof.
  intros opts Hmax Hrun Hre.
  assert (Z.to_nat (maxRetries opts + 1) = S (Z.to_nat (maxRetries opts))) as Hiter
    by lia.
  unfold withRetry. fold opts. rewrite Hiter. cbn [retryLoop].
  unfold probedFn. cbn [fst snd]. rewrite Hrun, Hre. split; reflexivity.
Qed.

(** The harness on an operation refused as a bad request: one invocation. *)
Lemma withRetry_non_retryable_once_witness :
  withRetry (probedSleep Sample.noSleep) (probedFn Sample.alwaysBadRequest)
    noOverrides (0%nat, noProbe)
  = (Throw (mkError "got status: 400 Bad Request" (Some 400)),
     (1%nat, mkProbe [Throw (mkError "got status: 400 Bad Request" (Some 400))] []))
  /\ withRetry Sample.noSleep Sample.alwaysBadRequest noOverrides 0%nat
     = (Throw (mkError "got status: 400 Bad Request" (Some 400)), 1%nat).
Proof.
  apply (withRetry_non_retryable_once nat unit Sample.noSleep Sample.alwaysBadRequest
           noOverrides 0%nat 1%nat
           (mkError "got status: 400 Bad Request" (Some 400))).
  - simpl. lia.
  - reflexivity.
  - reflexivity.
Defined.

(** C6, as stated for every retry count, fails for a negative one.  With
    [maxRetries = -1] the guard of the loop is false at once: an operation
    that would fail with a non-retryable error is not invoked, and what
    [withRetry] throws is the error of the statement after the loop, not
    the operation's. *)
Lemma withRetry_negative_count_skips_non_retryable :
  let options := mkRetryOverrides (Some (-1)) None None None None in
  Sample.alwaysBadRequest 0%nat
  = (Throw (mkError "got status: 400 Bad Request" (Some 400)), 1%nat)
  /\ isRetryableError (mkError "got status: 400 Bad Request" (Some 400))
       (retryableErrors (mergeOptions DEFAULT_OPTIONS options)) = false
  /\ withRetry (probedSleep Sample.noSleep) (probedFn Sample.alwaysBadRequest) options
       (0%nat, noProbe)
     = (Throw (newError "Retry failed with unknown error"), (0%nat, noProbe))
  /\ withRetry Sample.noSleep Sample.alwaysBadRequest options 0%nat
     = (Throw (newError "Retry failed with unknown error"), 0%nat).
Proof. repeat split. Qed.

(* ===================================================================== *)
(** * The timeout wrapper *)
(* ===================================================================== *)

Lemma timeoutError_message (timeoutMs : Z) :
  message (timeoutError timeoutMs)
  = "TIMEOUT: Operation timed out after " ++ ofZ timeoutMs ++ "ms".
Proof. reflexivity. Qed.

(** C7 (amended).  Wrapping an operation whose promise never settles makes
    the race settle when the timer fires, with a rejection whose message is
    the TIMEOUT tag followed by the duration as given.  The timer fires
    [timeoutMs] after the call for every duration between 1 and 2147483647
    milliseconds, and one millisecond after the call for every other
    duration. *)
Theorem withTimeout_never_resolving (T : Type) (timeoutMs : Z) :
  snd (withTimeout (@Pending T) timeoutMs) = Throw (timeoutError timeoutMs)
  /\ (1 <= timeoutMs <= 2147483647 ->
      fst (withTimeout (@Pending T) timeoutMs) = timeoutMs)
  /\ (timeoutMs < 1 \/ 2147483647 < timeoutMs ->
      fst (withTimeout (@Pending T) timeoutMs) = 1)
  /\ startsWith (message (timeoutError timeoutMs)) "TIMEOUT:" = true
  /\ includes (message (timeoutError timeoutMs)) (ofZ timeoutMs) = true
  /\ message (timeoutError timeoutMs)
     = "TIMEOUT: Operation timed out after " ++ ofZ timeoutMs ++ "ms".
Proof.
  split; [reflexivity|]. split; [|split].
  - intros [Hlow Hhigh]. cbn [withTimeout fst]. unfold timerDelay.
    replace (timeoutMs <? 1) with false by (symmetry; apply Z.ltb_ge; lia).
    replace (2147483647 <? timeoutMs) with false by (symmetry; apply Z.ltb_ge; lia).
    reflexivity.
  - intros Hout. cbn [withTimeout fst]. unfold timerDelay.
    destruct (timeoutMs <? 1) eqn:Hlow; [reflexivity|].
    destruct (2147483647 <? timeoutMs) eqn:Hhigh; [reflexivity|].
    apply Z.ltb_ge in Hlow, Hhigh. lia.
  - split; [reflexivity|]. split; [|reflexivity].
    rewrite timeoutError_message. apply includes_middle.
Qed.

(** C7, as stated for every duration, fails for a duration a timer does
    not accept.  3000000000 ms (more than a month) is above the largest
    delay: the race is rejected after one millisecond, not after
    approximately the duration, with a message that names the duration as
    given. *)
Lemma withTimeout_duration_out_of_range :
  withTimeout (@Pending unit) 3000000000
  = (1, Throw (newError "TIMEOUT: Operation timed out after 3000000000ms"))
  /\ (1 <? 3000000000) = true.
Proof. split; reflexivity. Qed.

Example withTimeout_five_minutes :
  withTimeout (@Pending Response) GeminiTextProvider.DEFAULT_TIMEOUT_MS
  = (300000, Throw (newError "TIMEOUT: Operation timed out after 300000ms")).
Proof. reflexivity. Qed.

(** A text generation whose vendor call never answers: the harness does not
    retry the timeout and the provider reports it under the TIMEOUT
    category. *)
Example generate_text_stalled :
  GeminiTextProvider.generate
    (Sample.stalled Sample.tenSeconds (fun _ => Sample.inProgress))
    (GeminiTextProvider.mkOptions "hello" None None None None None None)
    initialState
  = (Throw (newError
       "TIMEOUT: Request timed out. The prompt may be too complex or the service is slow."),
     mkState
       [EvGenerateContent
          (mkRequest "gemini-3-pro-preview" (ContentArray [TextPart "hello"])
             (TextConfig 65536 (QArith_base.Qmake 7 10) "HIGH" true))]
       1 0 0).
Proof. reflexivity. Qed.

(** An operation that settles in time is not disturbed, one that settles
    late is cut off. *)
Lemma withTimeout_settled (T : Type) (t timeoutMs : Z) (r : Result T) :
  withTimeout (Settled t r) timeoutMs
  = if t <=? timerDelay timeoutMs then (t, r)
    else (timerDelay timeoutMs, Throw (timeoutError timeoutMs)).
Proof. reflexivity. Qed.

Lemma timerDelay_in_range (timeoutMs : Z) :
  1 <= timeoutMs <= 2147483647 -> timerDelay timeoutMs = timeoutMs.
Proof.
  intros [Hlow Hhigh]. unfold timerDelay.
  replace (timeoutMs <? 1) with false by (symmetry; apply Z.ltb_ge; lia).
  replace (2147483647 <? timeoutMs) with false by (symmetry; apply Z.ltb_ge; lia).
  reflexivity.
Qed.

(* ===================================================================== *)
(** * The research poll loop *)
(* ===================================================================== *)

Section PollFacts.

Import GeminiDeepResearchProvider.

Variable env : Env.
Variable interactionId : string.
Variables timeoutMs pollIntervalMs startTime : Z.

Local Abbreviation afterPoll := (afterPoll interactionId).
Local Abbreviation afterSleep := (afterSleep interactionId pollIntervalMs).
Local Abbreviation afterSleeps := (afterSleeps interactionId pollIntervalMs).
Local Abbreviation elapsedAt := (elapsedAt env startTime).
Local Abbreviation keepsPolling := (keepsPolling env interactionId timeoutMs startTime).

Lemma pollIteration_timeout (st : State) :
  elapsedAt st > timeoutMs ->
  pollIteration env interactionId timeoutMs pollIntervalMs startTime st
  = (Throw (newError (timeoutMessage (elapsedAt st) interactionId)),
     mkState (trace st) (vendorCalls st) (S (clockReads st)) (polls st)).
Proof.
  intros H. unfold pollIteration, bind, dateNowM, elapsedAt in *.
  replace (dateNow env (clockReads st) - startTime >? timeoutMs) with true
    by (symmetry; rewrite Z.gtb_ltb; apply Z.ltb_lt; lia).
  reflexivity.
Qed.

Lemma pollIteration_completed (st : State) outputs pollError :
  elapsedAt st <= timeoutMs ->
  fetchPoll env (polls st) interactionId = PollOk "completed" outputs pollError ->
  pollIteration env interactionId timeoutMs pollIntervalMs startTime st
  = (if truthy (joinOutputs outputs)
     then Ok (Some (mkPollResult (joinOutputs outputs) completed "deep-research"))
     else Throw (newError "API_ERROR: Research completed but no output text found"),
     afterPoll st).
Proof.
  intros H Hfetch. unfold pollIteration, bind, dateNowM, fetchPollM, elapsedAt in *.
  replace (dateNow env (clockReads st) - startTime >? timeoutMs) with false
    by (symmetry; rewrite Z.gtb_ltb; apply Z.ltb_ge; lia).
  cbn [polls trace vendorCalls clockReads]. rewrite Hfetch. cbn [String.eqb].
  change (("completed" =? "completed")%string) with true. cbn iota.
  destruct (truthy (joinOutputs outputs)); reflexivity.
Qed.

Lemma pollIteration_continue (st : State) pollStatus outputs pollError :
  elapsedAt st <= timeoutMs ->
  fetchPoll env (polls st) interactionId = PollOk pollStatus outputs pollError ->
  nonTerminal pollStatus ->
  pollIteration env interactionId timeoutMs pollIntervalMs startTime st
  = (Ok None, afterSleep st).
Proof.
  intros H Hfetch [Hc Hf].
  unfold pollIteration, bind, dateNowM, fetchPollM, elapsedAt in *.
  replace (dateNow env (clockReads st) - startTime >? timeoutMs) with false
    by (symmetry; rewrite Z.gtb_ltb; apply Z.ltb_ge; lia).
  cbn [polls trace vendorCalls clockReads]. rewrite Hfetch.
  apply String.eqb_neq in Hc, Hf. rewrite Hc, Hf. reflexivity.
Qed.

Lemma afterSleeps_counters (k : nat) (st : State) :
  clockReads (afterSleeps k st) = (clockReads st + k)%nat
  /\ polls (afterSleeps k st) = (polls st + k)%nat
  /\ fsWrites (afterSleeps k st) = fsWrites st.
Proof.
  revert st. induction k as [|k IH]; intros st; cbn [afterSleeps].
  - rewrite !Nat.add_0_r. auto.
  - destruct (IH (afterSleep st)) as (Hc & Hp & Hw). rewrite Hc, Hp, Hw.
    unfold afterSleep, afterPoll, record, fsWrites. cbn [clockReads polls trace].
    rewrite !filter_app. cbn. rewrite !app_nil_r. repeat split; lia.
Qed.

(** While the loop keeps polling, [k] iterations are [k] rounds of clock
    reading, status fetch and sleep. *)
Lemma pollForCompletion_skip (k : nat) :
  forall (st : State) (fuel : nat),
    keepsPolling st k ->
    pollForCompletion env (k + fuel) interactionId timeoutMs pollIntervalMs startTime st
    = pollForCompletion env fuel interactionId timeoutMs pollIntervalMs startTime
        (afterSleeps k st).
Proof.
  induction k as [|k IH]; intros st fuel Hk; [reflexivity|].
  destruct (Hk 0%nat) as (Hbudget & s & o & e & Hfetch & Hnt); [lia|].
  rewrite !Nat.add_0_r in *.
  cbn [Nat.add pollForCompletion].
  rewrite (pollIteration_continue st s o e); auto.
  cbn [afterSleeps]. apply IH.
  intros i Hi. destruct (Hk (S i)) as (Hb & Hrest); [lia|].
  unfold afterSleep, afterPoll, record. cbn [clockReads polls].
  replace (S (clockReads st) + i)%nat with (clockReads st + S i)%nat by lia.
  replace (S (polls st) + i)%nat with (polls st + S i)%nat by lia.
  split; assumption.
Qed.

End PollFacts.

Section JoinOutputs.

Import GeminiDeepResearchProvider.

Lemma join_nonempty (sep x : string) (l : list string) :
  truthy x = true -> truthy (join sep (x :: l)) = true.
Proof.
  intros Hx. destruct x as [|c x]; [discriminate|].
  unfold join. cbn [String.concat]. destruct l; reflexivity.
Qed.

(** The text of a completed research, fragment by fragment: absent and
    empty fragments are skipped, and a non-empty fragment is followed by a
    blank line exactly when more text follows. *)
Lemma joinOutputs_cons (o : option string) (os : list (option string)) :
  joinOutputs (Some (o :: os))
  = if truthy (orDefault o EmptyString) then
      if truthy (joinOutputs (Some os))
      then orDefault o EmptyString ++ nl ++ nl ++ joinOutputs (Some os)
      else orDefault o EmptyString
    else joinOutputs (Some os).
Proof.
  unfold joinOutputs. cbn [map filter].
  destruct (truthy (orDefault o EmptyString)) eqn:Ho; [|reflexivity].
  destruct (filter truthy (map (fun o0 => orDefault o0 EmptyString) os))
    as [|x l] eqn:Hl.
  - reflexivity.
  - assert (truthy x = true) as Hx.
    { assert (In x (x :: l)) as Hin by (left; reflexivity).
      rewrite <- Hl in Hin. now apply filter_In in Hin. }
    rewrite (join_nonempty _ x l Hx).
    unfold join. cbn [String.concat]. now rewrite append_assoc.
Qed.

Lemma joinOutputs_two (a b : string) :
  truthy a = true -> truthy b = true ->
  joinOutputs (Some [Some a; Some b]) = a ++ nl ++ nl ++ b.
Proof.
  intros Ha Hb. unfold joinOutputs. cbn [map filter orDefault].
  rewrite Ha, Hb. unfold join. cbn [String.concat]. now rewrite append_assoc.
Qed.

End JoinOutputs.

(** C8.  When a poll within the budget observes status "completed", the
    loop returns the texts of the non-empty output fragments joined by a
    blank line, or throws the API_ERROR "Research completed but no output
    text found" when that text is empty.  In particular, when the polls
    answer in_progress, in_progress, completed with two non-empty
    fragments [a] and [b], the loop polls three times, sleeps twice and
    returns [a], a blank line, [b]. *)
Theorem pollForCompletion_completed_joins_outputs :
  (forall env interactionId timeoutMs pollIntervalMs startTime st outputs pollError fuel,
      elapsedAt env startTime st <= timeoutMs ->
      fetchPoll env (polls st) interactionId = PollOk "completed" outputs pollError ->
      GeminiDeepResearchProvider.pollForCompletion env (S fuel) interactionId
        timeoutMs pollIntervalMs startTime st
      = Some (if truthy (GeminiDeepResearchProvider.joinOutputs outputs)
              then Ok (GeminiDeepResearchProvider.mkPollResult
                         (GeminiDeepResearchProvider.joinOutputs outputs)
                         GeminiDeepResearchProvider.completed "deep-research")
              else Throw (newError
                     "API_ERROR: Research completed but no output text found"),
              afterPoll interactionId st))
  /\ GeminiDeepResearchProvider.joinOutputs None = EmptyString
  /\ GeminiDeepResearchProvider.joinOutputs (Some []) = EmptyString
  /\ (forall o os,
        GeminiDeepResearchProvider.joinOutputs (Some (o :: os))
        = if truthy (orDefault o EmptyString) then
            if truthy (GeminiDeepResearchProvider.joinOutputs (Some os))
            then orDefault o EmptyString ++ nl ++ nl
                 ++ GeminiDeepResearchProvider.joinOutputs (Some os)
            else orDefault o EmptyString
          else GeminiDeepResearchProvider.joinOutputs (Some os))
  /\ (forall env interactionId timeoutMs pollIntervalMs startTime st
        o0 e0 o1 e1 a b pollError fuel,
        fetchPoll env (polls st) interactionId = PollOk "in_progress" o0 e0 ->
        fetchPoll env (polls st + 1) interactionId = PollOk "in_progress" o1 e1 ->
        fetchPoll env (polls st + 2) interactionId
        = PollOk "completed" (Some [Some a; Some b]) pollError ->
        truthy a = true -> truthy b = true ->
        (forall i, (i < 3)%nat ->
           dateNow env (clockReads st + i) - startTime <= timeoutMs) ->
        (3 <= fuel)%nat ->
        GeminiDeepResearchProvider.pollForCompletion env fuel interactionId
          timeoutMs pollIntervalMs startTime st
        = Some (Ok (GeminiDeepResearchProvider.mkPollResult (a ++ nl ++ nl ++ b)
                      GeminiDeepResearchProvider.completed "deep-research"),
                mkState
                  (trace st ++ [EvFetchPoll interactionId; EvSleep pollIntervalMs;
                                EvFetchPoll interactionId; EvSleep pollIntervalMs;
                                EvFetchPoll interactionId])
                  (vendorCalls st) (clockReads st + 3) (polls st + 3))).
Proof.
  split.
  { intros env id tmo itv start st outputs perr fuel Hb Hfetch.
    cbn [GeminiDeepResearchProvider.pollForCompletion].
    rewrite (pollIteration_completed env id tmo itv start st outputs perr Hb Hfetch).
    destruct (truthy (GeminiDeepResearchProvider.joinOutputs outputs)); reflexivity. }
  split; [reflexivity|]. split; [reflexivity|].
  split; [exact joinOutputs_cons|].
  intros env id tmo itv start st o0 e0 o1 e1 a b perr fuel H0 H1 H2 Ha Hb Hclock Hfuel.
  assert (nonTerminal "in_progress") as Hnt by (split; discriminate).
  assert (keepsPolling env id tmo start st 2) as Hkeep.
  { intros i Hi. split; [apply Hclock; lia|].
    destruct i as [|[|i]]; [| |lia].
    - rewrite Nat.add_0_r. now exists "in_progress", o0, e0.
    - now exists "in_progress", o1, e1. }
  destruct fuel as [|[|[|fuel]]]; try lia.
  change (S (S (S fuel))) with (2 + S fuel)%nat.
  rewrite (pollForCompletion_skip env id tmo itv start 2 st (S fuel) Hkeep).
  destruct (afterSleeps_counters id itv 2 st) as (Hc & Hp & _).
  cbn [GeminiDeepResearchProvider.pollForCompletion].
  rewrite (pollIteration_completed env id tmo itv start _
             (Some [Some a; Some b]) perr).
  - rewrite (joinOutputs_two a b Ha Hb).
    assert (truthy (a ++ nl ++ nl ++ b) = true) as Ht
      by (destruct a; [discriminate | reflexivity]).
    rewrite Ht. do 2 f_equal.
    unfold afterPoll. rewrite Hc, Hp.
    cbn [afterSleeps afterSleep afterPoll record trace vendorCalls].
    rewrite <- !app_assoc. cbn [app].
    f_equal; lia.
  - unfold elapsedAt. rewrite Hc. apply Hclock. lia.
  - rewrite Hp. exact H2.
Qed.

(** The sample research: polled after 0, 10 and 20 seconds, completed at
    the third poll. *)
Example pollForCompletion_two_then_done :
  GeminiDeepResearchProvider.pollForCompletion
    (Sample.env Sample.rateLimited Sample.tenSeconds Sample.twoThenDone)
    5 "interactions/abc123" 1800000 10000 1000000 initialState
  = Some (Ok (GeminiDeepResearchProvider.mkPollResult
                ("Part one." ++ nl ++ nl ++ "Part two.")
                GeminiDeepResearchProvider.completed "deep-research"),
          mkState [EvFetchPoll "interactions/abc123"; EvSleep 10000;
                   EvFetchPoll "interactions/abc123"; EvSleep 10000;
                   EvFetchPoll "interactions/abc123"] 0 3 3).
Proof. reflexivity. Qed.

Lemma timeoutMessage_shape (elapsed : Z) (interactionId : string) :
  let msg := GeminiDeepResearchProvider.timeoutMessage elapsed interactionId in
  startsWith msg "TIMEOUT:" = true
  /\ includes msg (ofZ (GeminiDeepResearchProvider.roundMinutes elapsed)) = true
  /\ includes msg interactionId = true.
Proof.
  unfold GeminiDeepResearchProvider.timeoutMessage. cbn zeta.
  split; [reflexivity|]. split.
  - apply (includes_middle "TIMEOUT: Research timed out after ").
  - rewrite <- !append_assoc. apply includes_suffix.
Qed.

(** If the poll loop keeps finding a non-terminal status for [k] iterations
    and the next clock reading shows the elapsed time above the timeout
    budget, the loop throws a TIMEOUT error without polling again. *)
Lemma pollForCompletion_times_out
    (env : Env) (interactionId : string) (timeoutMs pollIntervalMs startTime : Z)
    (st : State) (k fuel : nat) :
  let elapsed := dateNow env (clockReads st + k) - startTime in
  let msg := GeminiDeepResearchProvider.timeoutMessage elapsed interactionId in
  keepsPolling env interactionId timeoutMs startTime st k ->
  elapsed > timeoutMs ->
  (k < fuel)%nat ->
  exists st',
    GeminiDeepResearchProvider.pollForCompletion env fuel interactionId timeoutMs
      pollIntervalMs startTime st
    = Some (Throw (newError msg), st')
    /\ polls st' = (polls st + k)%nat
    /\ msg = "TIMEOUT: Research timed out after "
             ++ ofZ (GeminiDeepResearchProvider.roundMinutes elapsed)
             ++ " minutes. The research may still be running - interaction ID: "
             ++ interactionId
    /\ startsWith msg "TIMEOUT:" = true
    /\ includes msg (ofZ (GeminiDeepResearchProvider.roundMinutes elapsed)) = true
    /\ includes msg interactionId = true.
Proof.
  intros elapsed msg Hkeep Hover Hfuel.
  destruct (afterSleeps_counters interactionId pollIntervalMs k st) as (Hc & Hp & _).
  replace fuel with (k + S (fuel - S k))%nat by lia.
  rewrite (pollForCompletion_skip env interactionId timeoutMs pollIntervalMs
             startTime k st _ Hkeep).
  cbn [GeminiDeepResearchProvider.pollForCompletion].
  rewrite pollIteration_timeout by (unfold elapsedAt; rewrite Hc; exact Hover).
  unfold elapsedAt. rewrite Hc. fold elapsed. fold msg.
  eexists. split; [reflexivity|]. cbn [polls]. split; [exact Hp|].
  split.
  - reflexivity.
  - apply timeoutMessage_shape.
Qed.

Lemma startResearch_ok (env : Env) (query id : string) (st : State) :
  fetchStart env query = StartOk (Some id) ->
  truthy id = true ->
  GeminiDeepResearchProvider.startResearch env query st
  = (Ok id, record (EvFetchStart query) st).
Proof.
  intros Hstart Hid.
  unfold GeminiDeepResearchProvider.startResearch, bind, fetchStartM.
  now rewrite Hstart, Hid.
Qed.

(** The minutes shown are the elapsed time rounded to the nearest minute,
    a half minute rounding up. *)
Lemma roundMinutes_nearest (elapsed : Z) :
  60000 * GeminiDeepResearchProvider.roundMinutes elapsed - 30000 <= elapsed
  /\ elapsed < 60000 * GeminiDeepResearchProvider.roundMinutes elapsed + 30000.
Proof.
  unfold GeminiDeepResearchProvider.roundMinutes.
  pose proof (Z.div_mod (elapsed + 30000) 60000 ltac:(lia)) as Hdiv.
  pose proof (Z.mod_pos_bound (elapsed + 30000) 60000 ltac:(lia)) as Hmod.
  lia.
Qed.

(** C9 (amended).  For every research call whose start request returned an
    interaction identifier: if the poll loop keeps finding a non-terminal
    status for [k] polls within the budget and the next clock reading, the
    one at the top of the following iteration, shows an elapsed time
    (since the call's first clock reading) above the timeout budget, the
    call fails with a TIMEOUT error and no further poll is made.  Its
    message names the elapsed time in minutes, rounded to the nearest
    minute (a half minute up), and ends with the interaction
    identifier. *)
Theorem research_budget_exhausted
    (env : Env) (fuel : nat) (options : GeminiDeepResearchProvider.DeepResearchOptions)
    (st : State) (id : string) (k : nat) :
  let query := GeminiDeepResearchProvider.query options in
  let timeoutMs :=
    orDefault (GeminiDeepResearchProvider.timeoutMs options)
      GeminiDeepResearchProvider.DEFAULT_TIMEOUT_MS in
  let pollIntervalMs :=
    orDefault (GeminiDeepResearchProvider.pollIntervalMs options)
      GeminiDeepResearchProvider.DEFAULT_POLL_INTERVAL_MS in
  let startTime := dateNow env (clockReads st) in
  let st1 := afterStart query st in
  let elapsed := dateNow env (clockReads st1 + k) - startTime in
  fetchStart env query = StartOk (Some id) ->
  truthy id = true ->
  keepsPolling env id timeoutMs startTime st1 k ->
  elapsed > timeoutMs ->
  (k < fuel)%nat ->
  exists st' minutes msg,
    GeminiDeepResearchProvider.research env fuel options st
    = Some (Throw (newError msg), st')
    /\ GeminiDeepResearchProvider.pollForCompletion env fuel id timeoutMs
         pollIntervalMs startTime st1
       = Some (Throw (newError msg), st')
    /\ polls st' = (polls st + k)%nat
    /\ msg = "TIMEOUT: Research timed out after " ++ ofZ minutes
             ++ " minutes. The research may still be running - interaction ID: "
             ++ id
    /\ 60000 * minutes - 30000 <= elapsed < 60000 * minutes + 30000
    /\ startsWith msg "TIMEOUT:" = true
    /\ includes msg (ofZ minutes) = true
    /\ includes msg id = true.
Proof.
  intros query timeoutMs pollIntervalMs startTime st1 elapsed
    Hstart Hid Hkeep Hover Hfuel.
  destruct (pollForCompletion_times_out env id timeoutMs pollIntervalMs startTime
              st1 k fuel Hkeep Hover Hfuel)
    as (st' & Hpoll & Hpolls & Hmsg & Hshape).
  exists st', (GeminiDeepResearchProvider.roundMinutes elapsed),
    (GeminiDeepResearchProvider.timeoutMessage elapsed id).
  split; [|split; [exact Hpoll | split; [exact Hpolls |]]].
  - unfold GeminiDeepResearchProvider.research, dateNowM.
    fold query. fold timeoutMs. fold pollIntervalMs. fold startTime.
    rewrite (startResearch_ok env query id _ Hstart Hid).
    fold (afterStart query st). fold st1. now rewrite Hpoll.
  - split; [exact Hmsg|]. split; [apply roundMinutes_nearest | exact Hshape].
Qed.

(** A research with a budget of a minute and a half whose clock advances
    one minute per reading: started at the first reading, polled at the
    second (one minute) and ended by the third (two minutes). *)
Lemma research_budget_exhausted_witness :
  exists st',
    GeminiDeepResearchProvider.research
      (Sample.env Sample.rateLimited Sample.oneMinute (fun _ => Sample.inProgress))
      3 (GeminiDeepResearchProvider.mkOptions "state of fusion power" (Some 90000) None)
      initialState
    = Some (Throw (newError
        ("TIMEOUT: Research timed out after 2 minutes. "
         ++ "The research may still be running - interaction ID: interactions/abc123")),
        st')
    /\ polls st' = 1%nat.
Proof.
  destruct (research_budget_exhausted
              (Sample.env Sample.rateLimited Sample.oneMinute
                 (fun _ => Sample.inProgress))
              3 (GeminiDeepResearchProvider.mkOptions "state of fusion power"
                   (Some 90000) None)
              initialState "interactions/abc123" 1)
    as (st' & minutes & msg & Hrun & _ & Hpolls & Hmsg & Hnearest & _).
  - reflexivity.
  - reflexivity.
  - intros i Hi. split.
    + destruct i as [|i]; cbn; lia.
    + exists "in_progress", None, None. split; [reflexivity|].
      split; discriminate.
  - cbn. lia.
  - lia.
  - exists st'. split; [|exact Hpolls].
    change (60000 * minutes - 30000 <= 120000 < 60000 * minutes + 30000) in Hnearest.
    assert (minutes = 2) as -> by lia.
    rewrite Hrun, Hmsg. reflexivity.
Defined.

(** The same research across the tool boundary, and one that completes. *)
Example deep_research_tool_results :
  (let env :=
     Sample.env Sample.rateLimited (fun k => 1000000 + 700000 * Z.of_nat k)
       (fun _ => Sample.inProgress) in
   option_map fst
     (Server.callTool env 5
        (Server.DeepResearch (Server.mkResearchArgs "state of fusion power" (Some 5)))
        initialState)
   = Some (Server.mkToolResult
             ("Error: TIMEOUT: Research timed out after 12 minutes. "
              ++ "The research may still be running - interaction ID: "
              ++ "interactions/abc123")
             true None))
  /\ (let env := Sample.env Sample.rateLimited Sample.tenSeconds Sample.twoThenDone in
      option_map fst
        (Server.callTool env 5
           (Server.DeepResearch (Server.mkResearchArgs "state of fusion power" None))
           initialState)
      = Some (Server.mkToolResult ("Part one." ++ nl ++ nl ++ "Part two.") false
                (Some (Server.ResearchMeta "deep-research" "interactions/abc123"
                         40000)))).
Proof. split; reflexivity. Qed.


(** C9, as stated for every moment at which the budget runs out, fails
    when it runs out during a status fetch.  The budget is compared with
    the clock only at the top of an iteration: with a budget of 15
    seconds and a clock that advances ten seconds per reading, the first
    iteration starts at 10 seconds, its fetch finds the research
    completed, and the call returns the result with a duration of 20
    seconds, above the budget. *)
Lemma research_completes_beyond_budget :
  let env := Sample.env (Ok Sample.okResponse) Sample.tenSeconds (fun _ => Sample.done) in
  let options := GeminiDeepResearchProvider.mkOptions "tides" (Some 15000) None in
  GeminiDeepResearchProvider.research env 1 options initialState
  = Some (Ok (GeminiDeepResearchProvider.mkResult "Tides follow the moon."
                "deep-research" "interactions/abc123"
                GeminiDeepResearchProvider.completed 20000),
          mkState [EvFetchStart "tides"; EvFetchPoll "interactions/abc123"] 0 3 1)
  /\ (15000 <? 20000) = true.
Proof. split; reflexivity. Qed.

(* ===================================================================== *)
(** * Effects of the harness on the trace *)
(* ===================================================================== *)

Section RetryInvariant.

Context {St T : Type}.
Variable sleep : Z -> St -> St.
Variable fn : St -> Result T * St.
Variable P : St -> Prop.

Hypothesis fn_keeps : forall st, P st -> P (snd (fn st)).
Hypothesis sleep_keeps : forall ms st, P st -> P (sleep ms st).

(** What the operation and the sleep both preserve, the harness preserves. *)
Lemma retryLoop_invariant (opts : RetryOptions) (n : nat) :
  forall attempt delay lastError st,
    P st -> P (snd (retryLoop sleep opts fn n attempt delay lastError st)).
Proof.
  induction n as [|n IH]; intros attempt delay lastError st Hst; [exact Hst|].
  cbn [retryLoop]. pose proof (fn_keeps st Hst) as Hfn.
  destruct (fn st) as [[v|error] st1]; cbn [snd] in *; [exact Hfn|].
  destruct (negb (isRetryableError error (retryableErrors opts))
            || negb (attempt <=? maxRetries opts)); [exact Hfn|].
  apply IH, sleep_keeps, Hfn.
Qed.

Lemma withRetry_invariant (options : RetryOverrides) (st : St) :
  P st -> P (snd (withRetry sleep fn options st)).
Proof. apply retryLoop_invariant. Qed.

End RetryInvariant.

Lemma fsWrites_record (ev : Event) (st : State) :
  fsWrites (record ev st) = (fsWrites st ++ filter isFsWrite [ev])%list.
Proof. unfold fsWrites, record. cbn [trace]. apply filter_app. Qed.

(** The vendor call under retry and timeout creates no directory and
    writes no file. *)
Lemma vendor_stage_fsWrites (env : Env) (req : GenerateContentRequest)
    (timeoutMs : Z) (options : RetryOverrides) (st : State) :
  fsWrites (snd (withRetry sleepState (generateContentWithTimeout env req timeoutMs)
                   options st))
  = fsWrites st.
Proof.
  apply (withRetry_invariant sleepState (generateContentWithTimeout env req timeoutMs)
           (fun s => fsWrites s = fsWrites st)).
  - intros s Hs. unfold generateContentWithTimeout, fsWrites in *. cbn [snd trace].
    rewrite filter_app. cbn. now rewrite app_nil_r.
  - intros ms s Hs. unfold sleepState. rewrite fsWrites_record. cbn.
    now rewrite app_nil_r.
  - reflexivity.
Qed.

(* ===================================================================== *)
(** * Image generation *)
(* ===================================================================== *)

Section ImageFacts.

Import GeminiImageProvider.

Variable env : Env.

(** [generate] is its three stages in sequence. *)
Lemma generate_image_stages (options : ImageGenerateOptions) (st : State) :
  generate env options st
  = match imagePreflight options with
    | Some msg => (Throw (newError msg), st)
    | None =>
        tryCatch
          (response <- imageVendorStage env options ;;
           saveImage env (outputPath options)
             (orDefault (model options) nano_banana) response)
          (fun error => throw (rethrow error)) st
    end.
Proof.
  unfold generate, generateWith, imagePreflight.
  destruct (truthyOpt (aspectRatio options)
            && negb (arrayIncludes VALID_ASPECT_RATIOS
                       (orDefault (aspectRatio options) EmptyString)));
    [reflexivity|].
  destruct (Z.of_nat (List.length (orDefault (referenceImages options) []))
            >? MAX_REFERENCE_IMAGES (orDefault (model options) nano_banana));
    reflexivity.
Qed.

(** Saving an extracted image creates at most the output directory and
    then writes the image to the output path. *)
Lemma saveImage_effects (outputPath data : string) (model : SupportedImageModel)
    (response : Response) (st : State) :
  extractImage response = Some data ->
  exists evs,
    fsWrites (snd (saveImage env outputPath model response st))
    = (fsWrites st ++ evs)%list
    /\ onlySaves (dirname env outputPath) outputPath data evs.
Proof.
  intros Hdata. unfold saveImage, saveImageAs. rewrite Hdata.
  unfold bind, existsSyncM, mkdirSyncM, writeFileSyncM, ret, onlySaves.
  assert (forall d, Forall (fun ev => ev = EvMkdir d \/ ev = EvWriteFile outputPath data)
                      [EvWriteFile outputPath data]) as Hwrite
    by (intros d; apply Forall_cons; [now right | apply Forall_nil]).
  destruct (truthy (dirname env outputPath)).
  - destruct (existsSync env (dirname env outputPath)); cbn [negb].
    + exists [EvWriteFile outputPath data]. split; [|apply Hwrite].
      destruct (writeFileSync env outputPath data); cbn [snd];
        rewrite !fsWrites_record; cbn; now rewrite app_nil_r.
    + destruct (mkdirSync env (dirname env outputPath)).
      * exists [EvMkdir (dirname env outputPath)]. split.
        -- cbn [snd]. rewrite !fsWrites_record. cbn. now rewrite app_nil_r.
        -- apply Forall_cons; [now left | apply Forall_nil].
      * exists [EvMkdir (dirname env outputPath); EvWriteFile outputPath data]. split.
        -- destruct (writeFileSync env outputPath data); cbn [snd];
             rewrite !fsWrites_record; cbn; now rewrite app_nil_r, <- app_assoc.
        -- apply Forall_cons; [now left | apply Hwrite].
  - exists [EvWriteFile outputPath data]. split; [|apply Hwrite].
    destruct (writeFileSync env outputPath data); cbn [snd];
      rewrite !fsWrites_record; reflexivity.
Qed.

Lemma rethrow_no_image :
  rethrow (newError "No image data found in response")
  = newError "GENERATION_ERROR: No image data found in response".
Proof. reflexivity. Qed.

End ImageFacts.

(** C10.  [GeminiImageProvider.generate] creates the output directory and
    writes the image only after an inline image payload has been extracted
    from the vendor's response.  A failed check of the options throws with
    the state untouched; a failed vendor call (network error, rate limit,
    timeout) and a response without inline image data throw with no
    directory created and nothing written.  Conversely, whenever a run
    creates a directory or writes a file, the options passed the checks,
    the vendor call returned a response, an image payload was extracted
    from it, and everything created or written is the output directory and
    the output path holding that payload. *)
Theorem generate_image_saves_only_after_extraction
    (env : Env) (options : GeminiImageProvider.ImageGenerateOptions) (st : State) :
  let run := GeminiImageProvider.generate env options st in
  let vendor := imageVendorStage env options st in
  let outputPath := GeminiImageProvider.outputPath options in
  (forall msg, imagePreflight options = Some msg ->
     run = (Throw (newError msg), st))
  /\ (forall e, imagePreflight options = None -> fst vendor = Throw e ->
        run = (Throw (GeminiImageProvider.rethrow e), snd vendor)
        /\ fsWrites (snd run) = fsWrites st)
  /\ (forall response, imagePreflight options = None -> fst vendor = Ok response ->
        GeminiImageProvider.extractImage response = None ->
        run = (Throw (newError "GENERATION_ERROR: No image data found in response"),
               snd vendor)
        /\ fsWrites (snd run) = fsWrites st)
  /\ (fsWrites (snd run) = fsWrites st
      \/ imagePreflight options = None
         /\ exists response data evs,
              fst vendor = Ok response
              /\ GeminiImageProvider.extractImage response = Some data
              /\ fsWrites (snd run) = (fsWrites st ++ evs)%list
              /\ onlySaves (dirname env outputPath) outputPath data evs).
Proof.
  intros run vendor outputPath. subst run.
  rewrite generate_image_stages.
  pose proof (vendor_stage_fsWrites env (imageRequest options)
                GeminiImageProvider.DEFAULT_TIMEOUT_MS providerRetryOptions st) as Hv.
  fold (imageVendorStage env options) in Hv. fold vendor in Hv.
  destruct (imagePreflight options) as [msg|] eqn:Hpre.
  - split; [intros m Hm; congruence|].
    split; [intros; congruence|]. split; [intros; congruence|]. now left.
  - unfold tryCatch, bind. fold vendor.
    destruct vendor as [[response|e] st1] eqn:Hvendor; cbn [fst snd] in *.
    + destruct (GeminiImageProvider.extractImage response) as [data|] eqn:Hx.
      * split; [intros; congruence|]. split; [intros; congruence|]. split; [intros; congruence|].
        right. split; [reflexivity|].
        destruct (saveImage_effects env outputPath data
                    (orDefault (GeminiImageProvider.model options) nano_banana)
                    response st1 Hx) as (evs & Hevs & Honly).
        exists response, data, evs. repeat split; try assumption.
        fold outputPath.
        destruct (GeminiImageProvider.saveImage env outputPath
                    (orDefault (GeminiImageProvider.model options) nano_banana)
                    response st1) as [[r|e] st2]; unfold throw; cbn [snd] in *;
          congruence.
      * assert (GeminiImageProvider.saveImage env
                  (GeminiImageProvider.outputPath options)
                  (orDefault (GeminiImageProvider.model options) nano_banana)
                  response st1
                = (Throw (newError "No image data found in response"), st1)) as Hs.
        { unfold GeminiImageProvider.saveImage, GeminiImageProvider.saveImageAs. now rewrite Hx. }
        rewrite Hs. unfold throw. rewrite rethrow_no_image. cbn [snd].
        split; [intros; congruence|]. split; [intros; congruence|].
        split; [intros r _ Hr _; injection Hr as <-; now split|]. now left.
    + split; [intros; congruence|].
      split; [intros e' _ He'; injection He' as <-; now split|].
      split; [intros; congruence|]. now left.
Qed.

Example generate_image_rate_limited_leaves_disk_alone :
  let run :=
    GeminiImageProvider.generate
      (Sample.env Sample.rateLimited Sample.tenSeconds (fun _ => Sample.inProgress))
      (GeminiImageProvider.mkOptions "a red kite" "/tmp/out/kite.png" None None None)
      initialState in
  fst run
  = Throw (newError
      "RATE_LIMIT: Gemini API rate limit or quota exceeded. Please wait and retry.")
  /\ fsWrites (snd run) = []
  /\ vendorCalls (snd run) = 3%nat
  /\ filter (fun ev => negb (isVendorCall ev)) (trace (snd run))
     = [EvSleep 1000; EvSleep 2000].
Proof. repeat split. Qed.

Example generate_image_without_image_leaves_disk_alone :
  let run :=
    GeminiImageProvider.generate
      (Sample.env (Ok Sample.textOnlyResponse) Sample.tenSeconds
         (fun _ => Sample.inProgress))
      (GeminiImageProvider.mkOptions "a red kite" "/tmp/out/kite.png" None None None)
      initialState in
  fst run = Throw (newError "GENERATION_ERROR: No image data found in response")
  /\ fsWrites (snd run) = [].
Proof. repeat split. Qed.

Example generate_image_stalled_leaves_disk_alone :
  let run :=
    GeminiImageProvider.generate
      (Sample.stalled Sample.tenSeconds (fun _ => Sample.inProgress))
      (GeminiImageProvider.mkOptions "a red kite" "/tmp/out/kite.png" None None None)
      initialState in
  fst run
  = Throw (newError
      "TIMEOUT: Request timed out. The image generation may be taking too long.")
  /\ fsWrites (snd run) = []
  /\ vendorCalls (snd run) = 1%nat.
Proof. repeat split. Qed.

Example generate_image_saves_payload :
  let run :=
    GeminiImageProvider.generate
      (Sample.env (Ok Sample.imageResponse) Sample.tenSeconds
         (fun _ => Sample.inProgress))
      (GeminiImageProvider.mkOptions "a red kite" "/tmp/out/kite.png" None None None)
      initialState in
  fst run = Ok (mkGenerateResult None (Some "/tmp/out/kite.png") None "nano-banana")
  /\ fsWrites (snd run) = [EvWriteFile "/tmp/out/kite.png" "iVBORw0KGgo="].
Proof. repeat split. Qed.

(* ===================================================================== *)
(** * Error messages and the category tokens *)
(* ===================================================================== *)

Lemma beginsWithCategory_truthy (msg : string) :
  beginsWithCategory msg = true -> truthy msg = true.
Proof. destruct msg; [discriminate | reflexivity]. Qed.

Lemma messageOr_categorized (e : Error) (fallback : string) :
  beginsWithCategory (message e) = true -> messageOr e fallback = message e.
Proof.
  intros H. unfold messageOr. now rewrite (beginsWithCategory_truthy _ H).
Qed.

(** The [catch] block of the text provider always throws a message that
    begins with a category token. *)
Lemma text_rethrow_categorized (e : Error) :
  beginsWithCategory (message (GeminiTextProvider.rethrow e)) = true.
Proof.
  unfold GeminiTextProvider.rethrow, GeminiTextProvider.classify.
  repeat match goal with
         | |- context [if ?c then _ else _] => destruct c
         end; reflexivity.
Qed.

Lemma image_rethrow_categorized (e : Error) :
  beginsWithCategory (message (GeminiImageProvider.rethrow e)) = true.
Proof.
  unfold GeminiImageProvider.rethrow, GeminiImageProvider.classify.
  repeat match goal with
         | |- context [if ?c then _ else _] => destruct c
         end; reflexivity.
Qed.

Section TextErrors.

Import GeminiTextProvider.

Variable env : Env.

(** When the attachments resolve, every error thrown by the text provider
    carries a category token: it comes from the thinking-level check or
    from the [catch] block. *)
Lemma text_generate_error_categorized (options : TextGenerateOptions)
    (st st1 st' : State) (fileParts : list ContentPart) (e : Error) :
  addFiles env (orDefault (files options) []) st = (Ok fileParts, st1) ->
  generate env options st = (Throw e, st') ->
  beginsWithCategory (message e) = true.
Proof.
  intros Hfiles. unfold generate.
  destruct (validateThinkingLevel (orDefault (model options) DEFAULT_TEXT_MODEL)
              (orDefault (thinkingLevel options) high)) as [validationError|].
  - unfold throw. intros H. injection H as <- _. reflexivity.
  - unfold bind at 1. rewrite Hfiles. unfold tryCatch.
    match goal with
    | |- context [match ?run with (_, _) => _ end] => destruct run as [[r|error] st2]
    end.
    + discriminate.
    + unfold throw. intros H. injection H as <- _. apply text_rethrow_categorized.
Qed.

End TextErrors.

Section ImageErrors.

Import GeminiImageProvider.

Variable env : Env.

(** When the options pass the checks, every error thrown by the image
    provider carries a category token. *)
Lemma image_generate_error_categorized (options : ImageGenerateOptions)
    (st st' : State) (e : Error) :
  imagePreflight options = None ->
  generate env options st = (Throw e, st') ->
  beginsWithCategory (message e) = true.
Proof.
  intros Hpre. rewrite generate_image_stages, Hpre. unfold tryCatch.
  match goal with
  | |- context [match ?run with (_, _) => _ end] => destruct run as [[r|error] st2]
  end.
  - discriminate.
  - unfold throw. intros H. injection H as <- _. apply image_rethrow_categorized.
Qed.

End ImageErrors.

Section ResearchErrors.

Import GeminiDeepResearchProvider.

Variable env : Env.
Hypothesis no_rejection : noFetchRejection env.

Lemma startResearch_error_categorized (query : string) (st st' : State) (e : Error) :
  startResearch env query st = (Throw e, st') ->
  beginsWithCategory (message e) = true.
Proof.
  unfold startResearch, bind, fetchStartM.
  destruct (fetchStart env query) as [e0|httpStatus errorText parsed|id] eqn:Hreply.
  - now destruct (proj1 no_rejection query e0).
  - match goal with
    | |- context [let '(_, _) := ?p in _] => destruct p as [errorMessage isAuthError]
    end.
    destruct (isAuthError || (httpStatus =? 401) || (httpStatus =? 403));
      [|destruct (httpStatus =? 429)];
      unfold throw; intros H; injection H as <- _; reflexivity.
  - destruct id as [i|]; [destruct (truthy i)|]; unfold ret, throw; intros H;
      try discriminate; injection H as <- _; reflexivity.
Qed.

Lemma pollIteration_error_categorized (interactionId : string)
    (timeoutMs pollIntervalMs startTime : Z) (st st' : State) (e : Error) :
  pollIteration env interactionId timeoutMs pollIntervalMs startTime st
  = (Throw e, st') ->
  beginsWithCategory (message e) = true.
Proof.
  unfold pollIteration, bind, dateNowM, fetchPollM, sleepM.
  destruct (_ >? timeoutMs).
  - unfold throw. intros H. injection H as <- _. reflexivity.
  - cbn [polls].
    destruct (fetchPoll env (polls st) interactionId)
      as [e0|httpStatus errorText|pollStatus outputs pollError] eqn:Hreply.
    + now destruct (proj2 no_rejection (polls st) interactionId e0).
    + unfold throw. intros H. injection H as <- _. reflexivity.
    + destruct (String.eqb pollStatus "completed").
      * destruct (negb (truthy (joinOutputs outputs))); unfold throw, ret; intros H;
          [injection H as <- _; reflexivity | discriminate].
      * destruct (String.eqb pollStatus "failed").
        -- unfold throw. intros H. injection H as <- _. reflexivity.
        -- unfold ret. discriminate.
Qed.

Lemma pollForCompletion_error_categorized (fuel : nat) (interactionId : string)
    (timeoutMs pollIntervalMs startTime : Z) :
  forall (st st' : State) (e : Error),
    pollForCompletion env fuel interactionId timeoutMs pollIntervalMs startTime st
    = Some (Throw e, st') ->
    beginsWithCategory (message e) = true.
Proof.
  induction fuel as [|fuel IH]; intros st st' e; [discriminate|].
  cbn [pollForCompletion].
  destruct (pollIteration env interactionId timeoutMs pollIntervalMs startTime st)
    as [[[r|]|e0] st1] eqn:Hiter.
  - discriminate.
  - apply IH.
  - intros H. injection H as <- _.
    exact (pollIteration_error_categorized _ _ _ _ _ _ _ Hiter).
Qed.

Lemma research_error_categorized (fuel : nat) (options : DeepResearchOptions)
    (st st' : State) (e : Error) :
  research env fuel options st = Some (Throw e, st') ->
  beginsWithCategory (message e) = true.
Proof.
  unfold research, dateNowM.
  destruct (startResearch env (query options) _) as [[id|e0] st1] eqn:Hstart.
  - destruct (pollForCompletion env fuel id _ _ _ st1) as [[[r|e1] st2]|] eqn:Hpoll.
    + discriminate.
    + intros H. injection H as <- _.
      exact (pollForCompletion_error_categorized _ _ _ _ _ _ _ _ Hpoll).
    + discriminate.
  - intros H. injection H as <- _.
    exact (startResearch_error_categorized _ _ _ _ Hstart).
Qed.

End ResearchErrors.

(* ===================================================================== *)
(** * The tool boundary *)
(* ===================================================================== *)


Section ToolBoundary.

Import Server.

Variable env : Env.

Lemma handleGenerateText_error_prefix (args : GenerateTextArgs) (st : State) :
  isError (fst (handleGenerateText env args st)) = true ->
  startsWith (resultText (fst (handleGenerateText env args st))) "Error: " = true.
Proof.
  unfold handleGenerateText.
  destruct (blank (t_prompt args)); [reflexivity|].
  destruct (match t_model args with
            | Some model => truthy model && negb (isSupportedTextModel model)
            | None => false
            end); [reflexivity|].
  destruct (t_model args) as [name|]; [destruct (textModelOfName name)|];
    try (destruct (GeminiTextProvider.generate env _ st) as [[r|e] st']; cbn [fst];
         [discriminate | intros _; apply startsWith_app]).
  intros _. reflexivity.
Qed.

Lemma handleGenerateImage_error_prefix (args : GenerateImageArgs) (st : State) :
  isError (fst (handleGenerateImage env args st)) = true ->
  startsWith (resultText (fst (handleGenerateImage env args st))) "Error: " = true.
Proof.
  unfold handleGenerateImage.
  destruct (blank (i_prompt args)); [reflexivity|].
  destruct (blank (i_output_path args)); [reflexivity|].
  destruct (match i_model args with
            | Some model => truthy model && negb (isSupportedImageModel model)
            | None => false
            end); [reflexivity|].
  destruct (i_model args) as [name|]; [destruct (imageModelOfName name)|];
    [destruct (GeminiImageProvider.generate env _ st) as [[r|e] st']
    |destruct (GeminiImageProvider.generateWithoutTables env _ _ st) as [[r|e] st']
    |destruct (GeminiImageProvider.generate env _ st) as [[r|e] st']];
    cbn [fst]; (discriminate || (intros _; apply startsWith_app)).
Qed.

Lemma handleDeepResearch_error_prefix (fuel : nat) (args : DeepResearchArgs)
    (st st' : State) (result : ToolResult) :
  handleDeepResearch env fuel args st = Some (result, st') ->
  isError result = true ->
  startsWith (resultText result) "Error: " = true.
Proof.
  unfold handleDeepResearch.
  destruct (blank (r_query args)).
  - intros H. injection H as <- _. reflexivity.
  - destruct (GeminiDeepResearchProvider.research env fuel _ st)
      as [[[r|e] st1]|]; intros H; try discriminate;
      injection H as <- _; [discriminate|].
    intros _.
    exact (startsWith_app "Error: " (messageOr e "Unknown error during deep research")).
Qed.

(** With a model that is absent or supported and a prompt that is not
    blank, the handler runs the provider on the options built from the
    arguments. *)
Lemma handleGenerateText_known_model (args : GenerateTextArgs) (st : State) :
  blank (t_prompt args) = false ->
  textModelKnown args ->
  handleGenerateText env args st
  = match GeminiTextProvider.generate env (textOptionsOf args) st with
    | (Ok result, st') =>
        (mkToolResult (orDefault (text result) EmptyString) false
           (Some (TextMeta (resultModel result) (usage result))), st')
    | (Throw error, st') =>
        (errorResult ("Error: " ++ messageOr error "Unknown error during generation"),
         st')
    end.
Proof.
  intros Hprompt Hmodel. unfold handleGenerateText, textOptionsOf. rewrite Hprompt.
  destruct Hmodel as [-> | [model ->]]; [reflexivity|].
  destruct model; reflexivity.
Qed.

Lemma handleGenerateImage_known_model (args : GenerateImageArgs) (st : State) :
  blank (i_prompt args) = false ->
  blank (i_output_path args) = false ->
  imageModelKnown args ->
  handleGenerateImage env args st
  = match GeminiImageProvider.generate env (imageOptionsOf args) st with
    | (Ok result, st') =>
        (mkToolResult
           ("Image saved to: " ++ orDefault (imagePath result) "undefined") false
           (Some (ImageMeta (resultModel result) (imagePath result) (usage result))),
         st')
    | (Throw error, st') =>
        (errorResult
           ("Error: " ++ messageOr error "Unknown error during image generation"),
         st')
    end.
Proof.
  intros Hprompt Hpath Hmodel. unfold handleGenerateImage, imageOptionsOf.
  rewrite Hprompt, Hpath.
  destruct Hmodel as [-> | [model ->]]; [reflexivity|].
  destruct model; reflexivity.
Qed.

End ToolBoundary.

Example generate_text_rate_limited_text :
  fst (Server.handleGenerateText
         (Sample.env Sample.rateLimited Sample.tenSeconds (fun _ => Sample.inProgress))
         (Server.mkTextArgs "hello" None None None None None None) initialState)
  = Server.mkToolResult
      "Error: RATE_LIMIT: Gemini API rate limit or quota exceeded. Please wait and retry."
      true None.
Proof. reflexivity. Qed.

(* ===================================================================== *)
(** * Attachments *)
(* ===================================================================== *)

(** C4.  An existing attachment whose extension is [.gif] is rejected by
    the resolver before it is read and before any vendor call, but the
    message of the failure is [Unsupported file type ".gif". ...]: it does
    not begin with VALIDATION_ERROR (nor with any category token), unlike
    the thinking-level rejection thrown by the same function, and
    [categorizeError] files it under API_ERROR. *)
Lemma gif_attachment_rejected_without_category :
  let env :=
    Sample.env (Ok Sample.okResponse) Sample.tenSeconds (fun _ => Sample.inProgress) in
  let msg :=
    "Unsupported file type " ++ dquote ++ ".gif" ++ dquote ++ ". Supported types: "
    ++ join ", " (map fst SUPPORTED_MIME_TYPES) in
  GeminiTextProvider.getMimeType env "/tmp/clip.gif" = Throw (newError msg)
  /\ GeminiTextProvider.generate env
       (GeminiTextProvider.mkOptions "what is this" None None None None None
          (Some ["/tmp/clip.gif"]))
       initialState
     = (Throw (newError msg), mkState [EvExists "/tmp/clip.gif"] 0 0 0)
  /\ startsWith msg "VALIDATION_ERROR" = false
  /\ beginsWithCategory msg = false
  /\ category (categorizeError (newError msg)) = API_ERROR
  /\ Server.resultText
       (fst (Server.handleGenerateText env
               (Server.mkTextArgs "what is this" None None None None None
                  (Some ["/tmp/clip.gif"]))
               initialState))
     = "Error: " ++ msg.
Proof. repeat split. Qed.

Section AttachmentFacts.

Import GeminiTextProvider.

Variable env : Env.

Lemma addFiles_vendorCalls (files : list string) :
  forall st, vendorCalls (snd (addFiles env files st)) = vendorCalls st.
Proof.
  induction files as [|p rest IH]; intros st; [reflexivity|].
  cbn [addFiles]. unfold bind, existsSyncM, readFileSyncM, liftResult, throw, ret.
  destruct (existsSync env p); cbn [negb]; [|reflexivity].
  destruct (getMimeType env p) as [mime|e]; [|reflexivity].
  destruct (readFileSync env p) as [data|e]; [|reflexivity].
  specialize (IH (record (EvReadFile p) (record (EvExists p) st))).
  destruct (addFiles env rest _) as [[more|e] st']; exact IH.
Qed.

(** A path that does not exist stops the loop right after the existence
    check that found it missing. *)
Lemma addFiles_missing (before : list string) (p : string) (after : list string) :
  forall st fileParts st1,
    addFiles env before st = (Ok fileParts, st1) ->
    existsSync env p = false ->
    addFiles env (before ++ p :: after) st
    = (Throw (newError ("File not found: " ++ p)), record (EvExists p) st1).
Proof.
  induction before as [|q before IH]; intros st fileParts st1 Hbefore Hmissing.
  - injection Hbefore as _ <-. cbn [app addFiles].
    unfold bind, existsSyncM. now rewrite Hmissing.
  - cbn [app addFiles] in *. unfold bind, existsSyncM, readFileSyncM, liftResult in *.
    destruct (existsSync env q); cbn [negb] in *; [|discriminate].
    destruct (getMimeType env q) as [mime|e]; [|discriminate].
    destruct (readFileSync env q) as [data|e]; [|discriminate].
    destruct (addFiles env before _) as [[more|e] st'] eqn:Hrest; [|discriminate].
    injection Hbefore as _ <-.
    now rewrite (IH _ _ _ Hrest Hmissing).
Qed.

End AttachmentFacts.

(** The attachment resolver on supported and unsupported extensions:
    [.png] in any letter case maps to [image/png]; an extension absent
    from the table, such as [.gif], makes it throw. *)
Theorem getMimeType_by_extension (env : Env) (filePath : string) :
  (toLowerCase (extname env filePath) = ".png" ->
   GeminiTextProvider.getMimeType env filePath = Ok "image/png")
  /\ (lookup SUPPORTED_MIME_TYPES (toLowerCase (extname env filePath)) = None ->
      GeminiTextProvider.getMimeType env filePath
      = Throw (newError ("Unsupported file type " ++ dquote
                         ++ toLowerCase (extname env filePath) ++ dquote
                         ++ ". Supported types: "
                         ++ join ", " (map fst SUPPORTED_MIME_TYPES))))
  /\ lookup SUPPORTED_MIME_TYPES ".gif" = None
  /\ lookup SUPPORTED_MIME_TYPES ".bmp" = None
  /\ lookup SUPPORTED_MIME_TYPES ".tiff" = None.
Proof.
  unfold GeminiTextProvider.getMimeType. repeat split.
  - intros ->. reflexivity.
  - intros ->. reflexivity.
Qed.

(** An attachment path that does not exist makes [generate] throw
    [File not found: <path>] right after the existence check: the file is
    not read and the vendor is not called. *)
Theorem missing_attachment_rejected_before_encoding
    (env : Env) (options : GeminiTextProvider.TextGenerateOptions)
    (before after : list string) (p : string) (fileParts : list ContentPart)
    (st st1 : State) :
  validateThinkingLevel
    (orDefault (GeminiTextProvider.model options) DEFAULT_TEXT_MODEL)
    (orDefault (GeminiTextProvider.thinkingLevel options) high) = None ->
  GeminiTextProvider.files options = Some (before ++ p :: after)%list ->
  GeminiTextProvider.addFiles env before st = (Ok fileParts, st1) ->
  existsSync env p = false ->
  GeminiTextProvider.generate env options st
  = (Throw (newError ("File not found: " ++ p)), record (EvExists p) st1)
  /\ vendorCalls (record (EvExists p) st1) = vendorCalls st
  /\ trace (record (EvExists p) st1) = (trace st1 ++ [EvExists p])%list.
Proof.
  intros Hvalid Hfiles Hbefore Hmissing. split; [|split; [|reflexivity]].
  - unfold GeminiTextProvider.generate. rewrite Hvalid, Hfiles. cbn [orDefault].
    unfold bind at 1.
    now rewrite (addFiles_missing env before p after st fileParts st1 Hbefore Hmissing).
  - pose proof (addFiles_vendorCalls env before st) as H.
    rewrite Hbefore in H. exact H.
Qed.

Lemma missing_attachment_rejected_before_encoding_witness :
  GeminiTextProvider.generate
    (Sample.env (Ok Sample.okResponse) Sample.tenSeconds (fun _ => Sample.inProgress))
    (GeminiTextProvider.mkOptions "compare them" None None None None None
       (Some ["/tmp/cat.png"; "/tmp/missing.png"]))
    initialState
  = (Throw (newError "File not found: /tmp/missing.png"),
     mkState [EvExists "/tmp/cat.png"; EvReadFile "/tmp/cat.png";
              EvExists "/tmp/missing.png"] 0 0 0).
Proof.
  apply (missing_attachment_rejected_before_encoding
           (Sample.env (Ok Sample.okResponse) Sample.tenSeconds
              (fun _ => Sample.inProgress))
           (GeminiTextProvider.mkOptions "compare them" None None None None None
              (Some ["/tmp/cat.png"; "/tmp/missing.png"]))
           ["/tmp/cat.png"] [] "/tmp/missing.png"
           [InlinePart "image/png" "aGVsbG8="] initialState
           (mkState [EvExists "/tmp/cat.png"; EvReadFile "/tmp/cat.png"] 0 0 0));
    reflexivity.
Defined.

(* ===================================================================== *)
(** * Reference images *)
(* ===================================================================== *)

(** C5.  Four reference images against nano-banana (cap 3) are rejected
    before any vendor call, but the message of the failure is
    [Maximum 3 reference images allowed for nano-banana]: it carries no
    VALIDATION_ERROR token, neither from the provider nor at the tool
    boundary. *)
Lemma reference_overflow_rejected_without_category :
  let env :=
    Sample.env (Ok Sample.imageResponse) Sample.tenSeconds
      (fun _ => Sample.inProgress) in
  let four := ["AAAA"; "BBBB"; "CCCC"; "DDDD"] in
  let msg := "Maximum 3 reference images allowed for nano-banana" in
  GeminiImageProvider.generate env
    (GeminiImageProvider.mkOptions "blend them" "/tmp/out.png" (Some nano_banana)
       (Some four) None)
    initialState
  = (Throw (newError msg), initialState)
  /\ includes msg "VALIDATION_ERROR" = false
  /\ beginsWithCategory msg = false
  /\ Server.handleGenerateImage env
       (Server.mkImageArgs "blend them" "/tmp/out.png" (Some nano_banana)
          (Some four) None)
       initialState
     = (Server.mkToolResult ("Error: " ++ msg) true None, initialState).
Proof. repeat split. Qed.

(** A request with more reference images than the selected model allows
    (3 for nano-banana, 14 for nano-banana-pro) is rejected with the state
    untouched: nothing is sent to the vendor and nothing is written. *)
Theorem reference_overflow_rejected_before_vendor
    (env : Env) (options : GeminiImageProvider.ImageGenerateOptions) (st : State) :
  let model := orDefault (GeminiImageProvider.model options) nano_banana in
  let referenceImages := orDefault (GeminiImageProvider.referenceImages options) [] in
  Z.of_nat (List.length referenceImages)
  > GeminiImageProvider.MAX_REFERENCE_IMAGES model ->
  GeminiImageProvider.MAX_REFERENCE_IMAGES model
  = match model with nano_banana => 3 | nano_banana_pro => 14 end
  /\ exists msg,
       GeminiImageProvider.generate env options st = (Throw (newError msg), st)
       /\ (imagePreflight
             (GeminiImageProvider.mkOptions (GeminiImageProvider.prompt options)
                (GeminiImageProvider.outputPath options)
                (GeminiImageProvider.model options)
                (GeminiImageProvider.referenceImages options) None)
           = Some msg
           \/ startsWith msg "Invalid aspect ratio" = true).
Proof.
  intros model referenceImages Hover. split; [now destruct model|].
  rewrite generate_image_stages. unfold imagePreflight.
  cbn [GeminiImageProvider.model GeminiImageProvider.referenceImages
       GeminiImageProvider.aspectRatio GeminiImageProvider.truthyOpt andb].
  fold model. fold referenceImages.
  replace (Z.of_nat (List.length referenceImages)
           >? GeminiImageProvider.MAX_REFERENCE_IMAGES model) with true
    by (symmetry; rewrite Z.gtb_ltb; apply Z.ltb_lt; lia).
  destruct (GeminiImageProvider.truthyOpt (GeminiImageProvider.aspectRatio options)
            && negb (arrayIncludes GeminiImageProvider.VALID_ASPECT_RATIOS
                       (orDefault (GeminiImageProvider.aspectRatio options)
                          EmptyString))).
  - eexists. split; [reflexivity|]. right. reflexivity.
  - eexists. split; [reflexivity|]. left. reflexivity.
Qed.

Lemma reference_overflow_rejected_before_vendor_witness :
  exists msg,
    GeminiImageProvider.generate
      (Sample.env (Ok Sample.imageResponse) Sample.tenSeconds
         (fun _ => Sample.inProgress))
      (GeminiImageProvider.mkOptions "blend them" "/tmp/out.png" None
         (Some ["AAAA"; "BBBB"; "CCCC"; "DDDD"]) None)
      initialState
    = (Throw (newError msg), initialState).
Proof.
  destruct (reference_overflow_rejected_before_vendor
              (Sample.env (Ok Sample.imageResponse) Sample.tenSeconds
                 (fun _ => Sample.inProgress))
              (GeminiImageProvider.mkOptions "blend them" "/tmp/out.png" None
                 (Some ["AAAA"; "BBBB"; "CCCC"; "DDDD"]) None)
              initialState) as (_ & msg & Hrun & _).
  - cbn. lia.
  - exists msg. exact Hrun.
Defined.

Example getMimeType_samples :
  let env :=
    Sample.env (Ok Sample.okResponse) Sample.tenSeconds (fun _ => Sample.inProgress) in
  GeminiTextProvider.getMimeType env "/tmp/cat.png" = Ok "image/png"
  /\ GeminiTextProvider.getMimeType env "/tmp/SCAN.PNG" = Ok "image/png"
  /\ GeminiTextProvider.getMimeType env "/tmp/notes.md" = Ok "text/markdown"
  /\ GeminiTextProvider.getMimeType env "/tmp/README"
     = Throw (newError ("Unsupported file type " ++ dquote ++ dquote
                        ++ ". Supported types: "
                        ++ join ", " (map fst SUPPORTED_MIME_TYPES))).
Proof. repeat split. Qed.

(* ===================================================================== *)
(** * More on the retry harness *)
(* ===================================================================== *)

Section RetryShape.

Context {St T : Type}.
Variable sleep : Z -> St -> St.
Variable fn : St -> Result T * St.
Variable opts : RetryOptions.

(** The shape of every run of the loop whose last allowed iteration is
    attempt [maxRetries + 1]. *)
Lemma retryLoop_shape (m : nat) :
  forall (attempt delay : Z) (lastError : option Error) (sp : St * Probe T),
    attempt + Z.of_nat m = maxRetries opts + 1 ->
    exists r st' earlier,
      retryLoop (probedSleep sleep) opts (probedFn fn) (S m) attempt delay
        lastError sp
      = (r, (st', mkProbe (invocations (snd sp) ++ earlier ++ [r])
                    (sleeps (snd sp)
                     ++ backoffDelays opts (List.length earlier) delay)))
      /\ Forall (retryableFailure (retryableErrors opts)) earlier
      /\ (List.length earlier <= m)%nat
      /\ (forall e, r = Throw e -> (List.length earlier < m)%nat ->
          isRetryableError e (retryableErrors opts) = false).
Proof.
  induction m as [|m IH]; intros attempt delay lastError sp Hm.
  - cbn [retryLoop]. unfold probedFn.
    destruct (fn (fst sp)) as [[v|e] st1].
    + exists (Ok v), st1, []. cbn. rewrite app_nil_r.
      repeat split; auto; intros; lia.
    + replace (attempt <=? maxRetries opts) with false
        by (symmetry; apply Z.leb_gt; lia).
      rewrite orb_true_r.
      exists (Throw e), st1, []. cbn. rewrite app_nil_r.
      repeat split; auto; intros; lia.
  - remember (S m) as n eqn:Hn. cbn [retryLoop]. unfold probedFn at 1.
    destruct (fn (fst sp)) as [[v|e] st1].
    + exists (Ok v), st1, []. cbn. rewrite app_nil_r.
      repeat split; auto; [lia | intros; discriminate].
    + destruct (isRetryableError e (retryableErrors opts)) eqn:Hre.
      * replace (attempt <=? maxRetries opts) with true
          by (symmetry; apply Z.leb_le; lia).
        cbn [negb orb]. subst n.
        destruct (IH (attempt + 1)
                    (Z.min (delay * backoffMultiplier opts) (maxDelayMs opts))
                    (Some e)
                    (probedSleep sleep delay
                       (st1, mkProbe (invocations (snd sp) ++ [Throw e])
                               (sleeps (snd sp)))))
          as (r & st' & earlier & Hrun & Hall & Hlen & Hlast); [lia|].
        exists r, st', (Throw e :: earlier). rewrite Hrun.
        cbn [probedSleep fst snd invocations sleeps backoffDelays List.length].
        rewrite <- !app_assoc. cbn [app]. split; [reflexivity|].
        split; [constructor; [now exists e | exact Hall]|].
        split; [lia|]. intros e' He' Hlt. apply Hlast; [exact He' | lia].
      * cbn [negb orb].
        exists (Throw e), st1, []. cbn. rewrite app_nil_r.
        repeat split; auto; [lia|]. intros e' He' _. now injection He' as <-.
Qed.

End RetryShape.

(** For every operation and every retry count [maxRetries >= 0], a run of
    [withRetry] invokes the operation at least once and at most
    [maxRetries + 1] times; its result is the outcome of the last
    invocation; every earlier invocation failed with a retryable error; it
    sleeps once between consecutive invocations, following the backoff
    schedule; and it gives up on a retryable error only when the retries
    are used up. *)
Theorem withRetry_run_shape
    (St T : Type) (sleep : Z -> St -> St) (fn : St -> Result T * St)
    (options : RetryOverrides) (st : St) :
  let opts := mergeOptions DEFAULT_OPTIONS options in
  0 <= maxRetries opts ->
  exists r st' earlier,
    withRetry (probedSleep sleep) (probedFn fn) options (st, noProbe)
    = (r, (st', mkProbe (earlier ++ [r])
                  (backoffDelays opts (List.length earlier) (initialDelayMs opts))))
    /\ withRetry sleep fn options st = (r, st')
    /\ Forall (retryableFailure (retryableErrors opts)) earlier
    /\ Z.of_nat (List.length earlier) <= maxRetries opts
    /\ (forall e, r = Throw e ->
        Z.of_nat (List.length earlier) < maxRetries opts ->
        isRetryableError e (retryableErrors opts) = false).
Proof.
  intros opts Hmax.
  assert (Z.to_nat (maxRetries opts + 1) = S (Z.to_nat (maxRetries opts))) as Hiter
    by lia.
  destruct (retryLoop_shape sleep fn opts (Z.to_nat (maxRetries opts))
              1 (initialDelayMs opts) None (st, noProbe))
    as (r & st' & earlier & Hloop & Hall & Hlen & Hlast); [lia|].
  cbn [fst snd invocations sleeps noProbe app] in Hloop.
  exists r, st', earlier.
  assert (withRetry (probedSleep sleep) (probedFn fn) options (st, noProbe)
          = (r, (st', mkProbe (earlier ++ [r])
                   (backoffDelays opts (List.length earlier) (initialDelayMs opts)))))
    as Hrun.
  { unfold withRetry. fold opts. rewrite Hiter. exact Hloop. }
  split; [exact Hrun|]. split.
  { unfold withRetry in Hrun |- *. fold opts in Hrun |- *.
    destruct (retryLoop_probe_erasure sleep fn opts (Z.to_nat (maxRetries opts + 1))
                1 (initialDelayMs opts) None st noProbe) as [p' Her].
    destruct (retryLoop sleep opts fn (Z.to_nat (maxRetries opts + 1)) 1
                (initialDelayMs opts) None st) as [r0 s0].
    rewrite Hrun in Her. cbn [fst snd] in Her. congruence. }
  split; [exact Hall|]. split; [lia|].
  intros e He Hlt. apply (Hlast e He). lia.
Qed.

(** A flaky operation under the default options: rate limited twice, then
    refused as a bad request, which is not retried. *)
Lemma withRetry_run_shape_witness :
  exists r st' earlier,
    withRetry (probedSleep Sample.noSleep)
      (probedFn (scripted (fun i => if Nat.ltb i 2 then fst (Sample.alwaysRateLimited i)
                                    else fst (Sample.alwaysBadRequest i))))
      noOverrides (0%nat, noProbe)
    = (r, (st', mkProbe (earlier ++ [r])
                  (backoffDelays DEFAULT_OPTIONS (List.length earlier) 1000)))
    /\ Z.of_nat (List.length earlier) <= 3.
Proof.
  destruct (withRetry_run_shape nat unit Sample.noSleep
              (scripted (fun i => if Nat.ltb i 2 then fst (Sample.alwaysRateLimited i)
                                  else fst (Sample.alwaysBadRequest i)))
              noOverrides 0%nat)
    as (r & st' & earlier & Hrun & _ & _ & Hlen & _).
  - cbn. lia.
  - exists r, st', earlier. split; [exact Hrun | exact Hlen].
Defined.

Section ScriptedRecovery.

Context {T : Type}.
Variable outcomes : nat -> Result T.
Variable opts : RetryOptions.

Lemma retryLoop_recovers (k : nat) :
  forall (first m : nat) (attempt delay : Z) (lastError : option Error)
         (p : Probe T) (v : T),
    (forall i, (i < k)%nat ->
       retryableFailure (retryableErrors opts) (outcomes (first + i))) ->
    outcomes (first + k) = Ok v ->
    attempt + Z.of_nat k <= maxRetries opts + 1 ->
    (k <= m)%nat ->
    retryLoop (probedSleep Sample.noSleep) opts (probedFn (scripted outcomes))
      (S m) attempt delay lastError (first, p)
    = (Ok v,
       (S (first + k),
        mkProbe (invocations p ++ map outcomes (seq first (S k)))
          (sleeps p ++ backoffDelays opts k delay))).
Proof.
  induction k as [|k IH]; intros first m attempt delay lastError p v Hfail Hok Hk Hm.
  - rewrite Nat.add_0_r in *. cbn [retryLoop]. unfold probedFn, scripted.
    cbn [fst snd seq map backoffDelays]. rewrite Hok, app_nil_r. reflexivity.
  - destruct m as [|m]; [lia|].
    destruct (Hfail 0%nat) as (e & He & Hre); [lia|]. rewrite Nat.add_0_r in He.
    remember (S m) as n eqn:Hn. cbn [retryLoop]. unfold probedFn at 1, scripted at 1.
    cbn [fst snd]. rewrite He, Hre.
    replace (attempt <=? maxRetries opts) with true
      by (symmetry; apply Z.leb_le; lia).
    cbn [negb orb]. subst n.
    change (probedSleep Sample.noSleep delay
              (S first, mkProbe (invocations p ++ [Throw e]) (sleeps p)))
      with (S first, mkProbe (invocations p ++ [Throw e]) (sleeps p ++ [delay])).
    rewrite (IH (S first) m (attempt + 1) _ (Some e) _ v).
    + cbn [invocations sleeps backoffDelays]. rewrite <- !app_assoc.
      cbn [app seq map]. rewrite He.
      replace (S first + k)%nat with (first + S k)%nat by lia. reflexivity.
    + intros i Hi. replace (S first + i)%nat with (first + S i)%nat by lia.
      apply Hfail. lia.
    + replace (S first + k)%nat with (first + S k)%nat by lia. exact Hok.
    + lia.
    + lia.
Qed.

End ScriptedRecovery.

(** Recovery from transient failures: when the first [k <= maxRetries]
    invocations of an operation fail with retryable errors and the next
    one succeeds with [v], [withRetry] returns [v] after exactly [k + 1]
    invocations and [k] sleeps that follow the backoff schedule. *)
Theorem withRetry_recovers_after_transient_failures
    (T : Type) (outcomes : nat -> Result T) (options : RetryOverrides)
    (k : nat) (v : T) :
  let opts := mergeOptions DEFAULT_OPTIONS options in
  Z.of_nat k <= maxRetries opts ->
  (forall i, (i < k)%nat -> retryableFailure (retryableErrors opts) (outcomes i)) ->
  outcomes k = Ok v ->
  withRetry (probedSleep Sample.noSleep) (probedFn (scripted outcomes)) options
    (0%nat, noProbe)
  = (Ok v,
     (S k, mkProbe (map outcomes (seq 0 (S k)))
             (backoffDelays opts k (initialDelayMs opts)))).
Proof.
  intros opts Hk Hfail Hok. unfold withRetry. fold opts.
  assert (Z.to_nat (maxRetries opts + 1) = S (Z.to_nat (maxRetries opts))) as Hiter
    by lia.
  rewrite Hiter.
  rewrite (retryLoop_recovers outcomes opts k 0 (Z.to_nat (maxRetries opts)) 1
             (initialDelayMs opts) None noProbe v); auto; lia.
Qed.

Lemma withRetry_recovers_after_transient_failures_witness :
  withRetry (probedSleep Sample.noSleep)
    (probedFn (scripted (fun i => if Nat.ltb i 2 then fst (Sample.alwaysRateLimited i)
                                  else Ok tt)))
    noOverrides (0%nat, noProbe)
  = (Ok tt,
     (3%nat,
      mkProbe [fst (Sample.alwaysRateLimited 0); fst (Sample.alwaysRateLimited 1); Ok tt]
        [1000; 2000])).
Proof.
  apply (withRetry_recovers_after_transient_failures unit
           (fun i => if Nat.ltb i 2 then fst (Sample.alwaysRateLimited i) else Ok tt)
           noOverrides 2 tt).
  - cbn. lia.
  - intros i Hi. destruct i as [|[|i]]; [| |lia];
      (eexists; split; reflexivity).
  - reflexivity.
Defined.

(** With a negative retry count the loop body never runs: [withRetry] does
    not invoke the operation and throws the error of the statement after
    the loop. *)
Theorem withRetry_negative_retries_never_invokes
    (St T : Type) (sleep : Z -> St -> St) (fn : St -> Result T * St)
    (options : RetryOverrides) (st : St) :
  maxRetries (mergeOptions DEFAULT_OPTIONS options) < 0 ->
  withRetry (probedSleep sleep) (probedFn fn) options (st, noProbe)
  = (Throw (newError "Retry failed with unknown error"), (st, noProbe))
  /\ withRetry sleep fn options st
     = (Throw (newError "Retry failed with unknown error"), st).
Proof.
  intros Hneg. unfold withRetry.
  replace (Z.to_nat (maxRetries (mergeOptions DEFAULT_OPTIONS options) + 1)) with 0%nat
    by lia.
  split; reflexivity.
Qed.

Lemma withRetry_negative_retries_never_invokes_witness :
  withRetry (probedSleep Sample.noSleep) (probedFn Sample.alwaysRateLimited)
    (mkRetryOverrides (Some (-1)) None None None None) (0%nat, noProbe)
  = (Throw (newError "Retry failed with unknown error"), (0%nat, noProbe)).
Proof.
  apply (withRetry_negative_retries_never_invokes nat unit Sample.noSleep
           Sample.alwaysRateLimited (mkRetryOverrides (Some (-1)) None None None None)
           0%nat).
  cbn. lia.
Defined.

(* ===================================================================== *)
(** * Text generation *)
(* ===================================================================== *)

Section TextFacts.

Import GeminiTextProvider.

Variable env : Env.

(** [generate] is its stages in sequence. *)
Lemma generate_text_stages (options : TextGenerateOptions) (st : State) :
  generate env options st
  = match validateThinkingLevel (orDefault (model options) DEFAULT_TEXT_MODEL)
            (orDefault (thinkingLevel options) high) with
    | Some validationError =>
        (Throw (newError ("VALIDATION_ERROR: " ++ validationError)), st)
    | None =>
        match addFiles env (orDefault (files options) []) st with
        | (Ok fileParts, st1) =>
            tryCatch
              (response <- textVendorStage env options fileParts ;;
               ret (textResultOf options response))
              (fun error => throw (rethrow error)) st1
        | (Throw e, st1) => (Throw e, st1)
        end
    end.
Proof.
  unfold generate.
  destruct (validateThinkingLevel _ _); [reflexivity|].
  unfold bind at 1.
  destruct (addFiles env (orDefault (files options) []) st) as [[fileParts|e] st1];
    [|reflexivity].
  unfold tryCatch, bind, textVendorStage, textRequest, textPromptOf, textResultOf.
  match goal with
  | |- context [withRetry ?a ?b ?c st1] => destruct (withRetry a b c st1) as [[response|e] st2]
  end; [|reflexivity].
  destruct (extractText response) as [text thoughtSummary]. reflexivity.
Qed.

(** The loop over the attachments computes [resolveAll] and performs
    exactly the file-system calls of [touchedEvents]. *)
Lemma addFiles_resolveAll (files : list string) :
  forall st,
    addFiles env files st
    = (resolveAll env files, recordAll (touchedEvents env files) st).
Proof.
  induction files as [|p rest IH]; intros st.
  - cbn. unfold ret, recordAll. rewrite app_nil_r. now destruct st.
  - cbn [addFiles resolveAll touchedEvents].
    unfold bind, existsSyncM, readFileSyncM, liftResult, throw, ret,
      resolveAttachment, attachmentEvents.
    destruct (existsSync env p); cbn [negb]; [|reflexivity].
    destruct (getMimeType env p) as [mime|e]; [|reflexivity].
    destruct (readFileSync env p) as [data|e].
    + rewrite IH. unfold recordAll, record. cbn [trace vendorCalls clockReads polls].
      rewrite <- !app_assoc. cbn [app].
      destruct (resolveAll env rest); reflexivity.
    + unfold recordAll, record. cbn [trace vendorCalls clockReads polls].
      now rewrite <- !app_assoc.
Qed.

End TextFacts.

Section AttachmentOrder.

Variable env : Env.

Lemma resolveAll_ok (files : list string) :
  forall fileParts,
    resolveAll env files = Ok fileParts ->
    Forall2 (fun filePath part =>
               existsSync env filePath = true
               /\ exists mimeType data,
                    GeminiTextProvider.getMimeType env filePath = Ok mimeType
                    /\ readFileSync env filePath = Ok data
                    /\ part = InlinePart mimeType data)
      files fileParts
    /\ touchedEvents env files
       = flat_map (fun filePath => [EvExists filePath; EvReadFile filePath]) files.
Proof.
  induction files as [|p rest IH]; intros fileParts Hall.
  - injection Hall as <-. split; [constructor | reflexivity].
  - cbn [resolveAll touchedEvents flat_map] in *.
    unfold resolveAttachment, attachmentEvents in *.
    destruct (existsSync env p) eqn:Hex; [|discriminate].
    destruct (GeminiTextProvider.getMimeType env p) as [mime|e] eqn:Hmime;
      [|discriminate].
    destruct (readFileSync env p) as [data|e] eqn:Hread; [|discriminate].
    destruct (resolveAll env rest) as [more|e]; [|discriminate].
    injection Hall as <-. destruct (IH more eq_refl) as [Hparts Hevs].
    split.
    + constructor; [|exact Hparts]. split; [exact Hex|]. now exists mime, data.
    + now rewrite Hevs.
Qed.

Lemma resolveAll_first_failure (before : list string) (p : string)
    (after : list string) (e : Error) :
  forall fileParts,
    resolveAll env before = Ok fileParts ->
    resolveAttachment env p = Throw e ->
    resolveAll env (before ++ p :: after) = Throw e
    /\ touchedEvents env (before ++ p :: after)
       = (touchedEvents env before ++ attachmentEvents env p)%list.
Proof.
  induction before as [|q before IH]; intros fileParts Hbefore Hp.
  - cbn [app resolveAll touchedEvents]. now rewrite Hp.
  - cbn [app resolveAll touchedEvents] in *.
    destruct (resolveAttachment env q) as [part|e0]; [|discriminate].
    destruct (resolveAll env before) as [more|e0] eqn:Hmore; [|discriminate].
    destruct (IH more eq_refl Hp) as [Hres Hevs].
    rewrite Hres, Hevs. split; [reflexivity | now rewrite app_assoc].
Qed.

End AttachmentOrder.

(** The attachment loop of the text provider.  When it succeeds there is
    one inline part per path, in the order of the paths, each holding the
    MIME type of the path's extension and the file's base64 content, and
    each file was checked for existence and then read, in that order.
    When a path fails (missing, unsupported extension, unreadable) after
    paths that resolve, the loop throws that path's error and never looks
    at the paths after it. *)
Theorem addFiles_resolves_in_order :
  (forall env files st fileParts st',
      GeminiTextProvider.addFiles env files st = (Ok fileParts, st') ->
      Forall2 (fun filePath part =>
                 existsSync env filePath = true
                 /\ exists mimeType data,
                      GeminiTextProvider.getMimeType env filePath = Ok mimeType
                      /\ readFileSync env filePath = Ok data
                      /\ part = InlinePart mimeType data)
        files fileParts
      /\ st' = recordAll
                 (flat_map (fun filePath => [EvExists filePath; EvReadFile filePath])
                    files) st)
  /\ (forall env before p after st fileParts e,
        resolveAll env before = Ok fileParts ->
        resolveAttachment env p = Throw e ->
        GeminiTextProvider.addFiles env (before ++ p :: after) st
        = (Throw e,
           recordAll
             (flat_map (fun filePath => [EvExists filePath; EvReadFile filePath])
                before ++ attachmentEvents env p) st)).
Proof.
  split.
  - intros env files st fileParts st' Hrun.
    rewrite addFiles_resolveAll in Hrun. injection Hrun as Hres <-.
    destruct (resolveAll_ok env files fileParts Hres) as [Hparts Hevs].
    split; [exact Hparts | now rewrite Hevs].
  - intros env before p after st fileParts e Hbefore Hp.
    rewrite addFiles_resolveAll.
    destruct (resolveAll_first_failure env before p after e fileParts Hbefore Hp)
      as [Hres Hevs].
    rewrite Hres, Hevs.
    now rewrite (proj2 (resolveAll_ok env before fileParts Hbefore)).
Qed.

Example addFiles_unsupported_stops_the_loop :
  GeminiTextProvider.addFiles
    (Sample.env (Ok Sample.okResponse) Sample.tenSeconds (fun _ => Sample.inProgress))
    ["/tmp/cat.png"; "/tmp/clip.gif"; "/tmp/cat.png"] initialState
  = (Throw (newError ("Unsupported file type " ++ dquote ++ ".gif" ++ dquote
                      ++ ". Supported types: "
                      ++ join ", " (map fst SUPPORTED_MIME_TYPES))),
     mkState [EvExists "/tmp/cat.png"; EvReadFile "/tmp/cat.png";
              EvExists "/tmp/clip.gif"] 0 0 0).
Proof. reflexivity. Qed.

(* ===================================================================== *)
(** * Vendor calls under the harness *)
(* ===================================================================== *)

Section VendorCalls.

Variable env : Env.
Variable req : GenerateContentRequest.
Variable timeoutMs : Z.
Variable opts : RetryOptions.

Lemma retryLoop_vendor_calls (n : nat) :
  forall attempt delay lastError st,
    exists evs,
      snd (retryLoop sleepState opts (generateContentWithTimeout env req timeoutMs)
             n attempt delay lastError st)
      = mkState (trace st ++ evs)
          (vendorCalls st + List.length (filter isVendorCall evs))
          (clockReads st) (polls st)
      /\ (List.length (filter isVendorCall evs) <= n)%nat
      /\ ((1 <= n)%nat -> (1 <= List.length (filter isVendorCall evs))%nat)
      /\ callsAndSleeps req evs.
Proof.
  induction n as [|n IH]; intros attempt delay lastError st.
  - exists []. cbn [retryLoop snd filter List.length].
    rewrite app_nil_r, Nat.add_0_r.
    split; [now destruct st|]. split; [lia|]. split; [lia | constructor].
  - cbn [retryLoop]. unfold generateContentWithTimeout at 1.
    set (st1 := mkState (trace st ++ [EvGenerateContent req]) (S (vendorCalls st))
                  (clockReads st) (polls st)).
    assert (callsAndSleeps req [EvGenerateContent req]) as Hone
      by (constructor; [now left | constructor]).
    destruct (snd (withTimeout (generateContent env (vendorCalls st) req) timeoutMs))
      as [v|e].
    + exists [EvGenerateContent req]. cbn [snd filter isVendorCall List.length].
      rewrite Nat.add_1_r. split; [reflexivity|]. split; [lia|]. split; [lia|].
      exact Hone.
    + destruct (negb (isRetryableError e (retryableErrors opts))
                || negb (attempt <=? maxRetries opts)).
      * exists [EvGenerateContent req]. cbn [snd filter isVendorCall List.length].
        rewrite Nat.add_1_r. split; [reflexivity|]. split; [lia|]. split; [lia|].
        exact Hone.
      * destruct (IH (attempt + 1)
                    (Z.min (delay * backoffMultiplier opts) (maxDelayMs opts))
                    (Some e) (sleepState delay st1))
          as (evs & Hst & Hle & _ & Hall).
        exists (EvGenerateContent req :: EvSleep delay :: evs). rewrite Hst.
        unfold sleepState, record, st1. cbn [trace vendorCalls clockReads polls].
        rewrite <- !app_assoc. cbn [app filter isVendorCall List.length].
        split; [f_equal; lia|]. split; [lia|]. split; [lia|].
        constructor; [now left|]. constructor; [right; now exists delay | exact Hall].
Qed.

End VendorCalls.

Lemma withTimeout_stalls (T : Type) (p : Promise T) (timeoutMs : Z) :
  1 <= timeoutMs <= 2147483647 ->
  stalls p timeoutMs ->
  withTimeout p timeoutMs = (timeoutMs, Throw (timeoutError timeoutMs)).
Proof.
  intros Hrange. unfold withTimeout. rewrite (timerDelay_in_range _ Hrange).
  destruct p as [|t r]; cbn; [reflexivity|]. intros Hlate.
  replace (t <=? timeoutMs) with false by (symmetry; apply Z.leb_gt; lia).
  reflexivity.
Qed.

(** The vendor stage of either provider when the first call stalls: one
    call, no retry, the timeout error. *)
Lemma stalled_vendor_stage (env : Env) (req : GenerateContentRequest)
    (timeoutMs : Z) (st : State) :
  1 <= timeoutMs <= 2147483647 ->
  stalls (generateContent env (vendorCalls st) req) timeoutMs ->
  isRetryableError (timeoutError timeoutMs)
    (retryableErrors (mergeOptions DEFAULT_OPTIONS providerRetryOptions)) = false ->
  withRetry sleepState (generateContentWithTimeout env req timeoutMs)
    providerRetryOptions st
  = (Throw (timeoutError timeoutMs),
     mkState (trace st ++ [EvGenerateContent req]) (S (vendorCalls st))
       (clockReads st) (polls st)).
Proof.
  intros Hrange Hstall Hre. unfold withRetry. cbn [mergeOptions providerRetryOptions
    orDefault maxRetries initialDelayMs maxRetries' initialDelayMs' Z.to_nat].
  change (Z.to_nat (2 + 1)) with 3%nat. cbn [retryLoop].
  unfold generateContentWithTimeout at 1.
  rewrite (withTimeout_stalls _ _ _ Hrange Hstall). cbn [snd].
  cbn [mergeOptions providerRetryOptions orDefault retryableErrors
       retryableErrors'] in Hre |- *.
  now rewrite Hre.
Qed.

(** Timeouts are not retried.  When the first vendor call of a generation
    has not settled within the provider's timeout (5 minutes for text, 3
    minutes for images), the provider makes exactly that one call, does not
    sleep, and throws its TIMEOUT message; for images nothing is written. *)
Theorem stalled_vendor_call_is_not_retried :
  (forall env options st fileParts,
      validateThinkingLevel
        (orDefault (GeminiTextProvider.model options) DEFAULT_TEXT_MODEL)
        (orDefault (GeminiTextProvider.thinkingLevel options) high) = None ->
      resolveAll env (orDefault (GeminiTextProvider.files options) [])
      = Ok fileParts ->
      stalls (generateContent env (vendorCalls st) (textRequest options fileParts))
        GeminiTextProvider.DEFAULT_TIMEOUT_MS ->
      GeminiTextProvider.generate env options st
      = (Throw (newError
           "TIMEOUT: Request timed out. The prompt may be too complex or the service is slow."),
         mkState
           (trace st
            ++ touchedEvents env (orDefault (GeminiTextProvider.files options) [])
            ++ [EvGenerateContent (textRequest options fileParts)])
           (S (vendorCalls st)) (clockReads st) (polls st)))
  /\ (forall env options st,
        imagePreflight options = None ->
        stalls (generateContent env (vendorCalls st) (imageRequest options))
          GeminiImageProvider.DEFAULT_TIMEOUT_MS ->
        GeminiImageProvider.generate env options st
        = (Throw (newError
             "TIMEOUT: Request timed out. The image generation may be taking too long."),
           mkState (trace st ++ [EvGenerateContent (imageRequest options)])
             (S (vendorCalls st)) (clockReads st) (polls st))).
Proof.
  split.
  - intros env options st fileParts Hvalid Hfiles Hstall.
    rewrite generate_text_stages, Hvalid, addFiles_resolveAll, Hfiles.
    unfold tryCatch, bind, textVendorStage.
    rewrite stalled_vendor_stage; [|split; discriminate | exact Hstall | reflexivity].
    unfold recordAll. cbn [trace vendorCalls clockReads polls].
    rewrite <- app_assoc. reflexivity.
  - intros env options st Hpre Hstall.
    rewrite generate_image_stages, Hpre.
    unfold tryCatch, bind, imageVendorStage.
    rewrite stalled_vendor_stage; [|split; discriminate | exact Hstall | reflexivity].
    reflexivity.
Qed.

Section VendorCallBounds.

Lemma noVendorCall_filter (evs : list Event) :
  noVendorCall evs -> filter isVendorCall evs = [].
Proof.
  induction 1 as [|ev evs Hev _ IH]; [reflexivity|]. cbn. now rewrite Hev.
Qed.

Lemma noVendorCall_not_in (evs : list Event) (req : GenerateContentRequest) :
  noVendorCall evs -> ~ In (EvGenerateContent req) evs.
Proof.
  intros Hall Hin. unfold noVendorCall in Hall. rewrite Forall_forall in Hall.
  specialize (Hall _ Hin). discriminate.
Qed.

Lemma callsAndSleeps_in (req req' : GenerateContentRequest) (evs : list Event) :
  callsAndSleeps req evs -> In (EvGenerateContent req') evs -> req' = req.
Proof.
  intros Hall Hin. unfold callsAndSleeps in Hall. rewrite Forall_forall in Hall.
  destruct (Hall _ Hin) as [Heq|[ms Heq]]; [now injection Heq | discriminate].
Qed.

Lemma touchedEvents_noVendorCall (env : Env) (files : list string) :
  noVendorCall (touchedEvents env files).
Proof.
  induction files as [|p rest IH]; [constructor|].
  cbn [touchedEvents]. unfold attachmentEvents.
  destruct (resolveAttachment env p);
    destruct (existsSync env p);
    try destruct (GeminiTextProvider.getMimeType env p);
    repeat (apply Forall_cons; [reflexivity|]); try apply Forall_nil;
    try exact IH.
Qed.

Lemma saveImage_noVendorCall (env : Env) (outputPath : string)
    (model : SupportedImageModel) (response : Response) (st : State) :
  exists evs,
    snd (GeminiImageProvider.saveImage env outputPath model response st)
    = recordAll evs st
    /\ noVendorCall evs.
Proof.
  unfold GeminiImageProvider.saveImage, GeminiImageProvider.saveImageAs.
  destruct (GeminiImageProvider.extractImage response) as [data|].
  - unfold bind, existsSyncM, mkdirSyncM, writeFileSyncM, ret, record, recordAll.
    destruct (truthy (dirname env outputPath)).
    + destruct (existsSync env (dirname env outputPath)); cbn [negb].
      * exists [EvExists (dirname env outputPath); EvWriteFile outputPath data].
        split; [|repeat constructor].
        destruct (writeFileSync env outputPath data); cbn;
          now rewrite <- app_assoc.
      * destruct (mkdirSync env (dirname env outputPath)).
        -- exists [EvExists (dirname env outputPath); EvMkdir (dirname env outputPath)].
           split; [|repeat constructor]. cbn. now rewrite <- app_assoc.
        -- exists [EvExists (dirname env outputPath); EvMkdir (dirname env outputPath);
                   EvWriteFile outputPath data].
           split; [|repeat constructor].
           destruct (writeFileSync env outputPath data); cbn;
             now rewrite <- !app_assoc.
    + exists [EvWriteFile outputPath data]. split; [|repeat constructor].
      destruct (writeFileSync env outputPath data); reflexivity.
  - exists []. split; [|constructor]. unfold throw, recordAll. cbn.
    rewrite app_nil_r. now destruct st.
Qed.

Lemma provider_vendor_stage (env : Env) (req : GenerateContentRequest)
    (timeoutMs : Z) (st : State) :
  exists evs,
    snd (withRetry sleepState (generateContentWithTimeout env req timeoutMs)
           providerRetryOptions st)
    = mkState (trace st ++ evs)
        (vendorCalls st + List.length (filter isVendorCall evs))
        (clockReads st) (polls st)
    /\ (1 <= List.length (filter isVendorCall evs) <= 3)%nat
    /\ callsAndSleeps req evs.
Proof.
  destruct (retryLoop_vendor_calls env req timeoutMs
              (mergeOptions DEFAULT_OPTIONS providerRetryOptions) 3 1 1000 None st)
    as (evs & Hst & Hle & Hge & Hall).
  exists evs. split; [exact Hst|]. split; [|exact Hall]. split; [apply Hge; lia | exact Hle].
Qed.

End VendorCallBounds.

(** Vendor calls of one generation.  Whatever the vendor answers, a text
    or image generation calls the vendor at most three times, and every
    call carries the same request (the attachments in order followed by
    the prompt, or the image request).  It calls the vendor at least once
    exactly when its checks pass (and, for text, all attachments resolve);
    otherwise it makes no call at all. *)
Theorem generation_vendor_calls_bounded :
  (forall env options st,
      let run := GeminiTextProvider.generate env options st in
      let files := orDefault (GeminiTextProvider.files options) [] in
      let valid :=
        validateThinkingLevel
          (orDefault (GeminiTextProvider.model options) DEFAULT_TEXT_MODEL)
          (orDefault (GeminiTextProvider.thinkingLevel options) high) = None in
      exists evs,
        trace (snd run) = (trace st ++ evs)%list
        /\ vendorCalls (snd run)
           = (vendorCalls st + List.length (filter isVendorCall evs))%nat
        /\ (List.length (filter isVendorCall evs) <= 3)%nat
        /\ (forall req, In (EvGenerateContent req) evs ->
            valid /\ exists fileParts,
              resolveAll env files = Ok fileParts
              /\ req = textRequest options fileParts)
        /\ (valid -> (exists fileParts, resolveAll env files = Ok fileParts) ->
            (1 <= List.length (filter isVendorCall evs))%nat))
  /\ (forall env options st,
        let run := GeminiImageProvider.generate env options st in
        exists evs,
          trace (snd run) = (trace st ++ evs)%list
          /\ vendorCalls (snd run)
             = (vendorCalls st + List.length (filter isVendorCall evs))%nat
          /\ (List.length (filter isVendorCall evs) <= 3)%nat
          /\ (forall req, In (EvGenerateContent req) evs ->
              imagePreflight options = None /\ req = imageRequest options)
          /\ (imagePreflight options = None ->
              (1 <= List.length (filter isVendorCall evs))%nat)).
Proof.
  split.
  - intros env options st run files valid. subst run valid.
    rewrite generate_text_stages.
    destruct (validateThinkingLevel _ _) as [msg|] eqn:Hvalid.
    { exists []. cbn [snd filter List.length]. rewrite app_nil_r, Nat.add_0_r.
      split; [reflexivity|]. split; [reflexivity|]. split; [lia|].
      split; [intros r [] | intros; discriminate]. }
    rewrite addFiles_resolveAll. fold files.
    pose proof (touchedEvents_noVendorCall env files) as Hno.
    destruct (resolveAll env files) as [fileParts|e] eqn:Hfiles.
    + unfold tryCatch, bind.
      destruct (provider_vendor_stage env (textRequest options fileParts)
                  GeminiTextProvider.DEFAULT_TIMEOUT_MS
                  (recordAll (touchedEvents env files) st))
        as (evs & Hst & [Hge Hle] & Hall).
      fold (textVendorStage env options fileParts) in Hst.
      exists (touchedEvents env files ++ evs)%list.
      rewrite filter_app, (noVendorCall_filter _ Hno). cbn [app].
      assert (trace (mkState
                       (trace (recordAll (touchedEvents env files) st) ++ evs)
                       (vendorCalls (recordAll (touchedEvents env files) st)
                        + List.length (filter isVendorCall evs))
                       (clockReads (recordAll (touchedEvents env files) st))
                       (polls (recordAll (touchedEvents env files) st)))
              = (trace st ++ touchedEvents env files ++ evs)%list) as Htrace
        by (unfold recordAll; cbn [trace]; now rewrite <- app_assoc).
      assert (forall req, In (EvGenerateContent req) (touchedEvents env files ++ evs) ->
              None = None (A := string) /\ exists fileParts0,
                Ok fileParts = Ok fileParts0
                /\ req = textRequest options fileParts0) as Hreq.
      { intros req Hin. split; [reflexivity|]. exists fileParts.
        split; [reflexivity|].
        apply in_app_or in Hin. destruct Hin as [Hin|Hin].
        - now destruct (noVendorCall_not_in _ req Hno).
        - exact (callsAndSleeps_in _ _ _ Hall Hin). }
      destruct (textVendorStage env options fileParts
                  (recordAll (touchedEvents env files) st)) as [[response|e0] st2];
        cbn [snd] in Hst; unfold ret, throw; cbn [snd]; rewrite Hst, Htrace;
        (split; [reflexivity|]); (split; [reflexivity|]); (split; [exact Hle|]);
        (split; [exact Hreq | intros _ _; exact Hge]).
    + exists (touchedEvents env files). cbn [snd]. unfold recordAll. cbn [trace vendorCalls].
      rewrite (noVendorCall_filter _ Hno). cbn [List.length]. rewrite Nat.add_0_r.
      split; [reflexivity|]. split; [reflexivity|]. split; [lia|].
      split.
      * intros req Hin. now destruct (noVendorCall_not_in _ req Hno).
      * intros _ [fileParts Hok]. discriminate.
  - intros env options st run. subst run.
    rewrite generate_image_stages.
    destruct (imagePreflight options) as [msg|] eqn:Hpre.
    { exists []. cbn [snd filter List.length]. rewrite app_nil_r, Nat.add_0_r.
      split; [reflexivity|]. split; [reflexivity|]. split; [lia|].
      split; [intros r [] | intros; discriminate]. }
    unfold tryCatch, bind.
    destruct (provider_vendor_stage env (imageRequest options)
                GeminiImageProvider.DEFAULT_TIMEOUT_MS st)
      as (evs & Hst & [Hge Hle] & Hall).
    fold (imageVendorStage env options) in Hst.
    destruct (imageVendorStage env options st) as [[response|e] st1]; cbn [snd] in Hst.
    + destruct (saveImage_noVendorCall env (GeminiImageProvider.outputPath options)
                  (orDefault (GeminiImageProvider.model options) nano_banana)
                  response st1) as (evs' & Hst' & Hno).
      exists (evs ++ evs')%list.
      assert (forall run : Result GenerateResult * State,
                 snd (let (r, st') := run in
                      match r with
                      | Ok a => (Ok a, st')
                      | Throw e0 => throw (GeminiImageProvider.rethrow e0) st'
                      end) = snd run) as Hsnd
        by (intros [[r|e0] st2]; reflexivity).
      rewrite Hsnd, Hst', Hst. unfold recordAll. cbn [trace vendorCalls].
      rewrite filter_app, (noVendorCall_filter _ Hno), app_nil_r, <- app_assoc.
      split; [reflexivity|]. split; [reflexivity|]. split; [exact Hle|].
      split; [|intros _; exact Hge].
      intros req Hin. split; [reflexivity|].
      apply in_app_or in Hin. destruct Hin as [Hin|Hin].
      * exact (callsAndSleeps_in _ _ _ Hall Hin).
      * now destruct (noVendorCall_not_in _ req Hno).
    + exists evs. unfold throw. cbn [snd]. rewrite Hst. cbn [trace vendorCalls].
      split; [reflexivity|]. split; [reflexivity|]. split; [exact Hle|].
      split; [|intros _; exact Hge].
      intros req Hin. split; [reflexivity|]. exact (callsAndSleeps_in _ _ _ Hall Hin).
Qed.

(* ===================================================================== *)
(** * The answer and the reasoning trace *)
(* ===================================================================== *)

Lemma append_empty_r (s : string) : s ++ EmptyString = s.
Proof. induction s as [|c s IH]; simpl; [reflexivity | now rewrite IH]. Qed.

(** The loop over the parts, with its two accumulators. *)
Lemma demuxParts_spec (ps : list Part) :
  forall text thoughtSummary,
    GeminiTextProvider.demuxParts ps text thoughtSummary
    = (text ++ answerOf ps, thoughtSummary ++ thoughtsOf ps).
Proof.
  unfold answerOf, thoughtsOf.
  induction ps as [|p ps IH]; intros text thoughtSummary.
  - cbn. now rewrite !append_empty_r.
  - cbn [GeminiTextProvider.demuxParts filter].
    destruct (partText p) as [t|] eqn:Ht.
    + assert (partHasText p = truthy t) as Hhas
        by (unfold partHasText; now rewrite Ht).
      assert (partTextOr p = t) as Hor by (unfold partTextOr; now rewrite Ht).
      rewrite !Hhas. destruct (truthy t); cbn [andb]; [|apply IH].
      destruct (thought p); cbn [negb map concatAll fold_right]; rewrite IH, Hor;
        now rewrite !append_assoc.
    + assert (partHasText p = false) as Hhas
        by (unfold partHasText; now rewrite Ht).
      rewrite !Hhas. cbn [andb]. apply IH.
Qed.

(** Separation of the answer from the reasoning trace.  A non-empty direct
    text of the response is the answer and no trace is reported.
    Otherwise only the first candidate is read: the answer is the
    concatenation of the texts of its parts that are not marked as
    thoughts, the trace is the concatenation of the texts of its thought
    parts, each followed by a line break, both in the order of the parts;
    parts without text are skipped.  A response with neither yields two
    empty strings. *)
Theorem extractText_separates_answer_and_thoughts (response : Response) :
  (forall t, responseText response = Some t -> truthy t = true ->
     GeminiTextProvider.extractText response = (t, EmptyString))
  /\ (forall c cs,
        truthy (orDefault (responseText response) EmptyString) = false ->
        candidates response = Some (c :: cs) ->
        GeminiTextProvider.extractText response
        = (answerOf (orDefault (parts c) []), thoughtsOf (orDefault (parts c) [])))
  /\ (truthy (orDefault (responseText response) EmptyString) = false ->
      candidates response = None \/ candidates response = Some [] ->
      GeminiTextProvider.extractText response = (EmptyString, EmptyString)).
Proof.
  unfold GeminiTextProvider.extractText. split; [|split].
  - intros t -> ->. reflexivity.
  - intros c cs Hdirect ->.
    destruct (responseText response) as [t|]; cbn [orDefault] in Hdirect;
      [rewrite Hdirect|]; now rewrite demuxParts_spec.
  - intros Hdirect Hnone.
    destruct (responseText response) as [t|]; cbn [orDefault] in Hdirect;
      [rewrite Hdirect|]; destruct Hnone as [-> | ->]; reflexivity.
Qed.

Example extractText_interleaved :
  GeminiTextProvider.extractText
    {| responseText := None;
       candidates :=
         Some [ {| parts := Some [ mkPart (Some "First I add. ") true None;
                                  mkPart (Some "The sum ") false None;
                                  mkPart None false None;
                                  mkPart (Some "Then I check.") true None;
                                  mkPart (Some "is 4.") false None ] |};
                {| parts := Some [ mkPart (Some "ignored") false None ] |} ];
       usageMetadata := None |}
  = ("The sum is 4.", "First I add. " ++ nl ++ "Then I check." ++ nl).
Proof. reflexivity. Qed.

(** A successful text generation.  Its result is built from the response
    of the vendor stage alone: the model field names the selected model
    (the default one when none is given), no image path is set, the usage
    counters are those of the response's usage metadata, absent when the
    vendor sent none, and the text is the answer, followed by the delimited
    thinking summary when the response has thoughts.  The vendor is not
    called again after the vendor stage: the number of vendor calls on
    return is the number that stage left. *)
Theorem generate_text_success_shape
    (env : Env) (options : GeminiTextProvider.TextGenerateOptions)
    (st st' : State) (r : GenerateResult) :
  GeminiTextProvider.generate env options st = (Ok r, st') ->
  exists fileParts st1 response st2,
    GeminiTextProvider.addFiles env
      (orDefault (GeminiTextProvider.files options) []) st = (Ok fileParts, st1)
    /\ textVendorStage env options fileParts st1 = (Ok response, st2)
    /\ vendorCalls st' = vendorCalls st2
    /\ resultModel r
       = textModelName (orDefault (GeminiTextProvider.model options) DEFAULT_TEXT_MODEL)
    /\ imagePath r = None
    /\ usage r
       = match usageMetadata response with
         | Some u =>
             Some (mkUsageInfo (promptTokenCount u) (candidatesTokenCount u)
                     (totalTokenCount u) (thoughtsTokenCount u))
         | None => None
         end
    /\ text r
       = Some (let '(answer, thoughts) := GeminiTextProvider.extractText response in
               if truthy thoughts then
                 answer ++ nl ++ nl ++ "---" ++ nl ++ "**Thinking Summary:**" ++ nl
                 ++ thoughts
               else answer).
Proof.
  rewrite generate_text_stages.
  destruct (validateThinkingLevel _ _); [discriminate|].
  destruct (GeminiTextProvider.addFiles env _ st) as [[fileParts|e] st1];
    [|discriminate].
  unfold tryCatch, bind.
  destruct (textVendorStage env options fileParts st1) as [[response|e] st2] eqn:Hv;
    unfold ret, throw; [|discriminate].
  intros H. injection H as <- <-.
  exists fileParts, st1, response, st2. unfold textResultOf.
  destruct (GeminiTextProvider.extractText response) as [answer thoughts].
  split; [reflexivity|]. split; [exact Hv|]. repeat split.
Qed.

Lemma generate_text_success_shape_witness :
  exists fileParts st1 response,
    GeminiTextProvider.addFiles
      (Sample.env (Ok Sample.okResponse) Sample.tenSeconds (fun _ => Sample.inProgress))
      [] initialState = (Ok fileParts, st1)
    /\ usage (mkGenerateResult (Some "hello") None None "gemini-3-pro")
       = match usageMetadata response with
         | Some u =>
             Some (mkUsageInfo (promptTokenCount u) (candidatesTokenCount u)
                     (totalTokenCount u) (thoughtsTokenCount u))
         | None => None
         end.
Proof.
  destruct (generate_text_success_shape
              (Sample.env (Ok Sample.okResponse) Sample.tenSeconds
                 (fun _ => Sample.inProgress))
              (GeminiTextProvider.mkOptions "hello" None None None None None None)
              initialState
              (mkState
                 [EvGenerateContent
                    (mkRequest "gemini-3-pro-preview" (ContentArray [TextPart "hello"])
                       (TextConfig 65536 (QArith_base.Qmake 7 10) "HIGH" true))]
                 1 0 0)
              (mkGenerateResult (Some "hello") None None "gemini-3-pro"))
    as (fileParts & st1 & response & st2 & Hfiles & _ & _ & _ & _ & Husage & _).
  - reflexivity.
  - exists fileParts, st1, response. split; [exact Hfiles | exact Husage].
Defined.

(* ===================================================================== *)
(** * Reference images *)
(* ===================================================================== *)

Section DataUrls.

Import GeminiImageProvider.

Lemma splitAtSemicolon_app (mime rest : string) :
  hasChar ";"%char mime = false ->
  splitAtSemicolon (mime ++ String ";"%char rest) = Some (mime, rest).
Proof.
  induction mime as [|c mime IH]; intros Hno; [reflexivity|].
  cbn [hasChar] in Hno. apply orb_false_iff in Hno. destruct Hno as [Hc Hno].
  cbn [append splitAtSemicolon]. rewrite Hc, (IH Hno). reflexivity.
Qed.

Lemma matchDataUrl_dataUrl (mime payload : string) :
  truthy mime = true ->
  hasChar ";"%char mime = false ->
  truthy payload = true ->
  hasLineTerminator payload = false ->
  matchDataUrl (dataUrl mime payload) = Some (mime, payload).
Proof.
  intros Hmime Hno Hpayload Hline. unfold matchDataUrl, dataUrl.
  rewrite startsWith_app.
  change (drop 5 ("data:" ++ mime ++ ";base64," ++ payload))
    with (mime ++ String ";"%char ("base64," ++ payload)).
  rewrite (splitAtSemicolon_app _ _ Hno), Hmime, startsWith_app.
  change (drop 7 ("base64," ++ payload)) with payload.
  now rewrite Hpayload, Hline.
Qed.

Lemma matchDataUrl_multiline (mime payload : string) :
  hasChar ";"%char mime = false ->
  hasLineTerminator payload = true ->
  matchDataUrl (dataUrl mime payload) = None.
Proof.
  intros Hno Hline. unfold matchDataUrl, dataUrl.
  rewrite startsWith_app.
  change (drop 5 ("data:" ++ mime ++ ";base64," ++ payload))
    with (mime ++ String ";"%char ("base64," ++ payload)).
  rewrite (splitAtSemicolon_app _ _ Hno), startsWith_app.
  change (drop 7 ("base64," ++ payload)) with payload.
  rewrite Hline. cbn [negb]. rewrite andb_false_r.
  now destruct (truthy mime).
Qed.

End DataUrls.

(** Reference images.  A data URL with a non-empty MIME type (free of
    semicolons) and a non-empty single-line payload becomes an inline part
    with exactly that MIME type and payload; with a payload that holds a
    line terminator (LF, CR, U+2028 or U+2029) the whole data URL becomes
    a PNG inline part; a string that does not start
    with [data:] becomes a PNG inline part holding the string unchanged;
    so does a [data:] string without a semicolon.  With reference images
    the content sequence holds one inline part per image, in order,
    followed by the prompt; without them it is the prompt alone. *)
Theorem reference_images_become_inline_parts :
  (forall mime payload,
      truthy mime = true -> hasChar ";"%char mime = false ->
      truthy payload = true ->
      GeminiImageProvider.hasLineTerminator payload = false ->
      GeminiImageProvider.referencePart (dataUrl mime payload)
      = InlinePart mime payload)
  /\ (forall mime payload,
        hasChar ";"%char mime = false ->
        GeminiImageProvider.hasLineTerminator payload = true ->
        GeminiImageProvider.referencePart (dataUrl mime payload)
        = InlinePart "image/png" (dataUrl mime payload))
  /\ (forall raw,
        startsWith raw "data:" = false ->
        GeminiImageProvider.referencePart raw = InlinePart "image/png" raw)
  /\ (forall rest,
        hasChar ";"%char rest = false ->
        GeminiImageProvider.referencePart ("data:" ++ rest)
        = InlinePart "image/png" ("data:" ++ rest))
  /\ (forall prompt, GeminiImageProvider.buildContents prompt [] = ContentString prompt)
  /\ (forall prompt image images,
        GeminiImageProvider.buildContents prompt (image :: images)
        = ContentArray
            (map GeminiImageProvider.referencePart (image :: images)
             ++ [RawText prompt])).
Proof.
  split; [|split; [|split; [|split; [|split]]]].
  - intros mime payload Hmime Hno Hpayload Hline.
    unfold GeminiImageProvider.referencePart.
    rewrite (matchDataUrl_dataUrl mime payload Hmime Hno Hpayload Hline).
    unfold dataUrl. now rewrite startsWith_app.
  - intros mime payload Hno Hline.
    unfold GeminiImageProvider.referencePart.
    rewrite (matchDataUrl_multiline mime payload Hno Hline).
    unfold dataUrl. now rewrite startsWith_app.
  - intros raw Hraw. unfold GeminiImageProvider.referencePart. now rewrite Hraw.
  - intros rest Hno. unfold GeminiImageProvider.referencePart,
      GeminiImageProvider.matchDataUrl.
    rewrite startsWith_app.
    change (GeminiImageProvider.drop 5 ("data:" ++ rest)) with rest.
    assert (GeminiImageProvider.splitAtSemicolon rest = None) as Hsplit.
    { induction rest as [|c rest IH]; [reflexivity|].
      cbn [hasChar] in Hno. apply orb_false_iff in Hno. destruct Hno as [Hc Hno].
      cbn [GeminiImageProvider.splitAtSemicolon]. now rewrite Hc, (IH Hno). }
    now rewrite Hsplit.
  - reflexivity.
  - reflexivity.
Qed.

Example referencePart_samples :
  GeminiImageProvider.referencePart "data:image/jpeg;base64,/9j/4AAQ"
  = InlinePart "image/jpeg" "/9j/4AAQ"
  /\ GeminiImageProvider.referencePart "iVBORw0KGgo=" = InlinePart "image/png" "iVBORw0KGgo="
  /\ GeminiImageProvider.referencePart "data:image/jpeg;base64,"
     = InlinePart "image/png" "data:image/jpeg;base64,"
  /\ GeminiImageProvider.referencePart "data:image/jpeg;charset=x;base64,AAAA"
     = InlinePart "image/png" "data:image/jpeg;charset=x;base64,AAAA".
Proof. repeat split. Qed.

(** A payload holding a line separator (U+2028, bytes E2 80 A8 in UTF-8)
    is not matched by the pattern, as one holding a line feed is not: the
    whole string is sent as a PNG. *)
Example referencePart_line_terminators :
  let ls := String (ascii_of_nat 226) (String (ascii_of_nat 128)
              (String (ascii_of_nat 168) EmptyString)) in
  GeminiImageProvider.referencePart ("data:image/jpeg;base64,AAAA" ++ ls ++ "BBBB")
  = InlinePart "image/png" ("data:image/jpeg;base64,AAAA" ++ ls ++ "BBBB")
  /\ GeminiImageProvider.referencePart ("data:image/jpeg;base64,AAAA" ++ nl ++ "BBBB")
     = InlinePart "image/png" ("data:image/jpeg;base64,AAAA" ++ nl ++ "BBBB")
  /\ GeminiImageProvider.hasLineTerminator ("AAAA" ++ ls) = true.
Proof. repeat split. Qed.

(* ===================================================================== *)
(** * The image in a response *)
(* ===================================================================== *)

Section ExtractImage.

Import GeminiImageProvider.

Lemma findImage_firstSome (cs : list Candidate) :
  forall imageData imageMimeType,
    truthyOpt imageData = false ->
    (let found := fst (findImage cs imageData imageMimeType) in
     if truthyOpt found then found else None)
    = firstSome (map candidatePayload cs).
Proof.
  induction cs as [|c cs IH]; intros imageData imageMimeType Hfalsy.
  - cbn. now rewrite Hfalsy.
  - cbn [findImage map firstSome]. unfold candidatePayload at 1.
    destruct (firstInlineData (orDefault (parts c) [])) as [d|].
    + destruct (truthyOpt (data d)) eqn:Hd.
      * cbn [fst]. rewrite Hd. destruct (data d); [reflexivity | discriminate].
      * apply IH. exact Hd.
    + rewrite Hfalsy. apply IH. exact Hfalsy.
Qed.

Lemma firstInlineData_in (ps : list Part) (d : InlineData) :
  firstInlineData ps = Some d ->
  exists part, In part ps /\ inlineData part = Some d.
Proof.
  induction ps as [|p ps IH]; [discriminate|]. cbn [firstInlineData].
  destruct (inlineData p) as [d0|] eqn:Hp.
  - intros H. injection H as <-. exists p. split; [now left | exact Hp].
  - intros H. destruct (IH H) as (part & Hin & Hpart).
    exists part. split; [now right | exact Hpart].
Qed.

Lemma firstSome_in {A : Type} (l : list (option A)) (a : A) :
  firstSome l = Some a -> In (Some a) l.
Proof.
  induction l as [|[x|] l IH]; cbn; [discriminate| |].
  - intros H. left. exact H.
  - intros H. right. now apply IH.
Qed.

End ExtractImage.

(** The image taken from a response is the payload of the first candidate
    that offers one, where a candidate offers the data of its first part
    with inline data, provided it is not empty (later parts of the same
    candidate are not considered).  Hence an extracted payload is never
    empty and always is the data of an inline part of the response; a
    response without candidates has no image. *)
Theorem extractImage_first_candidate_with_payload (response : Response) :
  GeminiImageProvider.extractImage response
  = firstSome (map candidatePayload (orDefault (candidates response) []))
  /\ (forall payload,
        GeminiImageProvider.extractImage response = Some payload ->
        truthy payload = true
        /\ exists candidate part inline,
             In candidate (orDefault (candidates response) [])
             /\ In part (orDefault (parts candidate) [])
             /\ inlineData part = Some inline
             /\ data inline = Some payload)
  /\ (candidates response = None \/ candidates response = Some [] ->
      GeminiImageProvider.extractImage response = None).
Proof.
  assert (GeminiImageProvider.extractImage response
          = firstSome (map candidatePayload (orDefault (candidates response) [])))
    as Hspec.
  { unfold GeminiImageProvider.extractImage.
    exact (findImage_firstSome _ None "image/png" eq_refl). }
  split; [exact Hspec|]. split.
  - intros payload Hx. rewrite Hspec in Hx. apply firstSome_in in Hx.
    apply in_map_iff in Hx. destruct Hx as (c & Hc & Hin).
    unfold candidatePayload in Hc.
    destruct (GeminiImageProvider.firstInlineData (orDefault (parts c) []))
      as [d|] eqn:Hd; [|discriminate].
    destruct (GeminiImageProvider.truthyOpt (data d)) eqn:Ht; [|discriminate].
    rewrite Hc in Ht. split; [exact Ht|].
    destruct (firstInlineData_in _ _ Hd) as (part & Hpart & Hinl).
    now exists c, part, d.
  - rewrite Hspec. intros [-> | ->]; reflexivity.
Qed.

Example extractImage_skips_candidate_with_empty_first_payload :
  GeminiImageProvider.extractImage
    {| responseText := None;
       candidates :=
         Some [ {| parts :=
                     Some [ mkPart None false (Some (mkInlineData (Some EmptyString) None));
                            mkPart None false
                              (Some (mkInlineData (Some "AAAA") (Some "image/png"))) ] |};
                {| parts :=
                     Some [ mkPart (Some "here") false None;
                            mkPart None false
                              (Some (mkInlineData (Some "BBBB") None)) ] |} ];
       usageMetadata := None |}
  = Some "BBBB".
Proof. reflexivity. Qed.

(* ===================================================================== *)
(** * Successful image generation *)
(* ===================================================================== *)

Section ImageSuccess.

Import GeminiImageProvider.

Variable env : Env.

Lemma saveImageAs_success (outputPath modelName : string)
    (response : Response) (st st' : State) (result : GenerateResult) :
  saveImageAs env outputPath modelName response st = (Ok result, st') ->
  exists payload,
    extractImage response = Some payload
    /\ writeFileSync env outputPath payload = None
    /\ (truthy (dirname env outputPath) = true ->
        existsSync env (dirname env outputPath) = false ->
        mkdirSync env (dirname env outputPath) = None)
    /\ st' = recordAll (saveEvents env outputPath payload) st
    /\ result = {| text := None;
                   imagePath := Some outputPath;
                   usage := usageOf response;
                   resultModel := modelName |}.
Proof.
  unfold saveImageAs, saveEvents.
  destruct (extractImage response) as [payload|]; [|discriminate].
  unfold bind, existsSyncM, mkdirSyncM, writeFileSyncM, ret, record, recordAll.
  intros Hrun. exists payload. split; [reflexivity|].
  destruct (truthy (dirname env outputPath)).
  - destruct (existsSync env (dirname env outputPath)); cbn [negb] in Hrun.
    + destruct (writeFileSync env outputPath payload); [discriminate|].
      injection Hrun as <- <-. split; [reflexivity|].
      split; [intros; discriminate|]. split; [|reflexivity].
      cbn. now rewrite <- app_assoc.
    + destruct (mkdirSync env (dirname env outputPath)); [discriminate|].
      destruct (writeFileSync env outputPath payload); [discriminate|].
      injection Hrun as <- <-. split; [reflexivity|].
      split; [reflexivity|]. split; [|reflexivity].
      cbn. now rewrite <- !app_assoc.
  - destruct (writeFileSync env outputPath payload); [discriminate|].
    injection Hrun as <- <-. split; [reflexivity|].
    split; [intros; discriminate|]. split; reflexivity.
Qed.

(** The directory creations and file writes among the calls of a save. *)
Lemma saveEvents_fsWrites (outputPath payload : string) :
  filter isFsWrite (saveEvents env outputPath payload)
  = ((if truthy (dirname env outputPath)
         && negb (existsSync env (dirname env outputPath))
      then [EvMkdir (dirname env outputPath)] else [])
     ++ [EvWriteFile outputPath payload])%list.
Proof.
  unfold saveEvents.
  destruct (truthy (dirname env outputPath)); [|reflexivity].
  destruct (existsSync env (dirname env outputPath)); reflexivity.
Qed.

(** What a run of [generateWith] that returns a result did. *)
Lemma generateWith_success (modelName : string) (modelId : option string)
    (maxImages : option Z) (options : ImageGenerateOptions) (st st' : State)
    (result : GenerateResult) :
  generateWith env modelName modelId maxImages options st = (Ok result, st') ->
  let outputPath := outputPath options in
  let outputDir := dirname env outputPath in
  exists response payload,
    fst (withRetry sleepState
           (generateContentWithTimeout env
              (mkRequestWith modelId
                 (buildContents (prompt options)
                    (orDefault (referenceImages options) []))
                 (ImageConfig ["image"; "text"]
                    (if truthyOpt (aspectRatio options) then aspectRatio options
                     else None)))
              DEFAULT_TIMEOUT_MS)
           providerRetryOptions st) = Ok response
    /\ extractImage response = Some payload
    /\ truthy payload = true
    /\ writeFileSync env outputPath payload = None
    /\ (truthy outputDir = true -> existsSync env outputDir = false ->
        mkdirSync env outputDir = None)
    /\ fsWrites st'
       = (fsWrites st
          ++ (if truthy outputDir && negb (existsSync env outputDir)
              then [EvMkdir outputDir] else [])
          ++ [EvWriteFile outputPath payload])%list
    /\ result
       = {| text := None;
            imagePath := Some outputPath;
            usage := usageOf response;
            resultModel := modelName |}.
Proof.
  intros Hrun outputPath outputDir. unfold generateWith in Hrun.
  destruct (truthyOpt (aspectRatio options)
            && negb (arrayIncludes VALID_ASPECT_RATIOS
                       (orDefault (aspectRatio options) EmptyString)));
    [unfold throw in Hrun; discriminate|].
  destruct (match maxImages with
            | Some n =>
                Z.of_nat (List.length (orDefault (referenceImages options) [])) >? n
            | None => false
            end); [unfold throw in Hrun; discriminate|].
  unfold tryCatch, bind in Hrun.
  match type of Hrun with
  | context [withRetry ?sl ?fn ?o st] =>
      pose proof (vendor_stage_fsWrites env
                    (mkRequestWith modelId
                       (buildContents (prompt options)
                          (orDefault (referenceImages options) []))
                       (ImageConfig ["image"; "text"]
                          (if truthyOpt (aspectRatio options) then aspectRatio options
                           else None)))
                    DEFAULT_TIMEOUT_MS providerRetryOptions st) as Hvendor;
      destruct (withRetry sl fn o st) as [[response|e] st1] eqn:Hv
  end; [|unfold throw in Hrun; discriminate].
  cbn [snd] in Hvendor.
  destruct (saveImageAs env (GeminiImageProvider.outputPath options) modelName
              response st1) as [[r|e] st2] eqn:Hsave;
    [|unfold throw in Hrun; discriminate].
  injection Hrun as <- <-.
  destruct (saveImageAs_success _ _ _ _ _ _ Hsave)
    as (payload & Hx & Hw & Hmk & Hst & Hres).
  exists response, payload.
  split; [reflexivity|]. split; [exact Hx|]. split.
  { unfold extractImage in Hx.
    destruct (truthyOpt (fst (findImage (orDefault (candidates response) []) None
                                "image/png"))) eqn:Ht; [|discriminate].
    rewrite Hx in Ht. exact Ht. }
  split; [exact Hw|]. split; [exact Hmk|]. split; [|exact Hres].
  rewrite Hst. unfold fsWrites at 1, recordAll. cbn [trace].
  rewrite filter_app, saveEvents_fsWrites. fold (fsWrites st1).
  now rewrite Hvendor.
Qed.

End ImageSuccess.



(* ===================================================================== *)
(** * The checks of the image options *)
(* ===================================================================== *)

Lemma arrayIncludes_In (l : list string) (x : string) :
  arrayIncludes l x = true <-> In x l.
Proof.
  unfold arrayIncludes. rewrite existsb_exists. split.
  - intros (y & Hin & Heq). apply String.eqb_eq in Heq. now subst.
  - intros Hin. exists x. split; [exact Hin | apply String.eqb_refl].
Qed.

Lemma truthy_nonempty (s : string) : truthy s = true <-> s <> EmptyString.
Proof. destruct s; cbn; split; congruence. Qed.

Lemma imagePreflight_accepts (options : GeminiImageProvider.ImageGenerateOptions) :
  let ratio := orDefault (GeminiImageProvider.aspectRatio options) EmptyString in
  let count :=
    Z.of_nat (List.length (orDefault (GeminiImageProvider.referenceImages options) [])) in
  let cap :=
    GeminiImageProvider.MAX_REFERENCE_IMAGES
      (orDefault (GeminiImageProvider.model options) nano_banana) in
  imagePreflight options = None
  <-> (ratio = EmptyString \/ In ratio GeminiImageProvider.VALID_ASPECT_RATIOS)
      /\ count <= cap.
Proof.
  intros ratio count cap. unfold imagePreflight. fold count. fold cap.
  assert (GeminiImageProvider.truthyOpt (GeminiImageProvider.aspectRatio options)
          = truthy ratio) as ->
    by (unfold ratio; now destruct (GeminiImageProvider.aspectRatio options)).
  fold ratio.
  destruct (truthy ratio) eqn:Ht; cbn [andb].
  - destruct (arrayIncludes GeminiImageProvider.VALID_ASPECT_RATIOS ratio) eqn:Hin;
      cbn [negb].
    + apply arrayIncludes_In in Hin.
      destruct (count >? cap) eqn:Hc.
      * split; [discriminate|]. intros [_ Hle].
        rewrite Z.gtb_ltb in Hc. apply Z.ltb_lt in Hc. lia.
      * split; [|reflexivity]. intros _. split; [now right|].
        rewrite Z.gtb_ltb in Hc. apply Z.ltb_ge in Hc. exact Hc.
    + split; [discriminate|]. intros [[Hempty | Hvalid] _].
      * apply truthy_nonempty in Ht. contradiction.
      * apply arrayIncludes_In in Hvalid. congruence.
  - assert (ratio = EmptyString) as Hempty by (destruct ratio; [reflexivity | discriminate]).
    destruct (count >? cap) eqn:Hc.
    + split; [discriminate|]. intros [_ Hle].
      rewrite Z.gtb_ltb in Hc. apply Z.ltb_lt in Hc. lia.
    + split; [|reflexivity]. intros _. split; [now left|].
      rewrite Z.gtb_ltb in Hc. apply Z.ltb_ge in Hc. exact Hc.
Qed.

Lemma image_generate_calls_vendor (env : Env)
    (options : GeminiImageProvider.ImageGenerateOptions) (st : State) :
  imagePreflight options = None ->
  (vendorCalls st < vendorCalls (snd (GeminiImageProvider.generate env options st)))%nat.
Proof.
  intros Hpre. rewrite generate_image_stages, Hpre. unfold tryCatch, bind.
  destruct (provider_vendor_stage env (imageRequest options)
              GeminiImageProvider.DEFAULT_TIMEOUT_MS st)
    as (evs & Hst & [Hge _] & _).
  change (withRetry sleepState
            (generateContentWithTimeout env (imageRequest options)
               GeminiImageProvider.DEFAULT_TIMEOUT_MS) providerRetryOptions st)
    with (imageVendorStage env options st) in Hst.
  destruct (imageVendorStage env options st) as [[response|e] st1];
    cbn [snd] in Hst; subst st1.
  - destruct (saveImage_noVendorCall env (GeminiImageProvider.outputPath options)
                (orDefault (GeminiImageProvider.model options) nano_banana) response
                (mkState (trace st ++ evs)
                   (vendorCalls st + List.length (filter isVendorCall evs))
                   (clockReads st) (polls st)))
      as (evs2 & Hsave & _).
    destruct (GeminiImageProvider.saveImage env (GeminiImageProvider.outputPath options)
                (orDefault (GeminiImageProvider.model options) nano_banana) response
                (mkState (trace st ++ evs)
                   (vendorCalls st + List.length (filter isVendorCall evs))
                   (clockReads st) (polls st)))
      as [[r|e] st2]; cbn [snd] in Hsave; subst st2; unfold throw, recordAll;
      cbn [snd vendorCalls]; lia.
  - unfold throw. cbn [snd vendorCalls]. lia.
Qed.

(** The checks of the image options.  An aspect ratio that is given, not
    empty and not one of the ten valid ratios is rejected, whatever the
    number of reference images; otherwise a number of reference images
    above the cap of the model is rejected; both with the state untouched.
    In every other case (no aspect ratio, an empty one or a valid one, and
    a number of reference images up to and including the cap) the vendor is
    called.  So the vendor is called exactly when the options pass both
    checks. *)
Theorem image_options_checked_before_vendor
    (env : Env) (options : GeminiImageProvider.ImageGenerateOptions) (st : State) :
  let run := GeminiImageProvider.generate env options st in
  let ratio := orDefault (GeminiImageProvider.aspectRatio options) EmptyString in
  let model := orDefault (GeminiImageProvider.model options) nano_banana in
  let count :=
    Z.of_nat (List.length (orDefault (GeminiImageProvider.referenceImages options) [])) in
  let cap := GeminiImageProvider.MAX_REFERENCE_IMAGES model in
  let ratioAccepted :=
    ratio = EmptyString \/ In ratio GeminiImageProvider.VALID_ASPECT_RATIOS in
  (~ ratioAccepted ->
   run = (Throw (newError
                   ("Invalid aspect ratio " ++ dquote ++ ratio ++ dquote
                    ++ ". Valid options: 1:1, 2:3, 3:2, 3:4, 4:3, 4:5, 5:4, 9:16, 16:9, 21:9")),
          st))
  /\ (ratioAccepted -> count > cap ->
      run = (Throw (newError
                      ("Maximum " ++ ofZ cap ++ " reference images allowed for "
                       ++ imageModelName model)),
             st))
  /\ (ratioAccepted -> count <= cap ->
      (vendorCalls st < vendorCalls (snd run))%nat)
  /\ (vendorCalls (snd run) = vendorCalls st <-> ~ (ratioAccepted /\ count <= cap)).
Proof.
  intros run ratio model count cap ratioAccepted.
  pose proof (imagePreflight_accepts options) as Hacc.
  cbv zeta in Hacc. fold ratio count model cap in Hacc. fold ratioAccepted in Hacc.
  assert (GeminiImageProvider.truthyOpt (GeminiImageProvider.aspectRatio options)
          = truthy ratio) as Htruthy
    by (unfold ratio; now destruct (GeminiImageProvider.aspectRatio options)).
  assert (ratioAccepted ->
          GeminiImageProvider.truthyOpt (GeminiImageProvider.aspectRatio options)
          && negb (arrayIncludes GeminiImageProvider.VALID_ASPECT_RATIOS ratio) = false)
    as Hratio.
  { rewrite Htruthy. intros [Hempty | Hvalid].
    - now rewrite Hempty.
    - apply arrayIncludes_In in Hvalid. rewrite Hvalid. apply andb_false_r. }
  split; [|split; [|split]].
  - intros Hbad. unfold run. rewrite generate_image_stages. unfold imagePreflight.
    fold ratio. rewrite Htruthy.
    destruct (truthy ratio) eqn:Ht.
    + destruct (arrayIncludes GeminiImageProvider.VALID_ASPECT_RATIOS ratio) eqn:Hin.
      * exfalso. apply Hbad. right. now apply arrayIncludes_In.
      * reflexivity.
    + exfalso. apply Hbad. left. destruct ratio; [reflexivity | discriminate].
  - intros Hok Hover. unfold run. rewrite generate_image_stages. unfold imagePreflight.
    fold ratio model count cap. rewrite (Hratio Hok).
    replace (count >? cap) with true
      by (symmetry; rewrite Z.gtb_ltb; apply Z.ltb_lt; lia).
    reflexivity.
  - intros Hok Hle. apply image_generate_calls_vendor. apply Hacc. now split.
  - split.
    + intros Hsame Hboth. apply Hacc in Hboth.
      pose proof (image_generate_calls_vendor env options st Hboth) as Hlt.
      fold run in Hlt. lia.
    + intros Hnot. unfold run. rewrite generate_image_stages.
      destruct (imagePreflight options) as [msg|] eqn:Hpre; [reflexivity|].
      exfalso. apply Hnot. now apply Hacc.
Qed.

Example image_options_boundaries :
  let env := Sample.env (Ok Sample.imageResponse) Sample.tenSeconds
               (fun _ => Sample.inProgress) in
  let three := ["QUFB"; "QkJC"; "Q0ND"] in
  vendorCalls (snd (GeminiImageProvider.generate env
                      (GeminiImageProvider.mkOptions "blend" "/tmp/o.png" None
                         (Some three) (Some EmptyString)) initialState)) = 1%nat
  /\ GeminiImageProvider.generate env
       (GeminiImageProvider.mkOptions "blend" "/tmp/o.png" None
          (Some ("RERE" :: three)) (Some "16:10")) initialState
     = (Throw (newError
                 ("Invalid aspect ratio " ++ dquote ++ "16:10" ++ dquote
                  ++ ". Valid options: 1:1, 2:3, 3:2, 3:4, 4:3, 4:5, 5:4, 9:16, 16:9, 21:9")),
        initialState).
Proof. split; reflexivity. Qed.

(* ===================================================================== *)
(** * Runs of the research poll loop *)
(* ===================================================================== *)

Section PollRuns.

Import GeminiDeepResearchProvider.

Variable env : Env.
Variable interactionId : string.
Variables timeoutMs pollIntervalMs startTime : Z.

Local Abbreviation afterPoll := (afterPoll interactionId).
Local Abbreviation afterSleep := (afterSleep interactionId pollIntervalMs).
Local Abbreviation afterSleeps := (afterSleeps interactionId pollIntervalMs).
Local Abbreviation elapsedAt := (elapsedAt env startTime).
Local Abbreviation keepsPolling := (keepsPolling env interactionId timeoutMs startTime).
Local Abbreviation pollEnds := (pollEnds env interactionId timeoutMs startTime).
Local Abbreviation pollIteration :=
  (pollIteration env interactionId timeoutMs pollIntervalMs startTime).
Local Abbreviation pollForCompletion :=
  (fun fuel => pollForCompletion env fuel interactionId timeoutMs pollIntervalMs startTime).

Lemma keepsPolling_S (st : State) (k : nat) :
  keepsPolling st 1 -> keepsPolling (afterSleep st) k -> keepsPolling st (S k).
Proof.
  intros H1 Hk [|i] Hi; [apply H1; lia|].
  destruct (Hk i) as (Hb & Hrest); [lia|].
  unfold afterSleep, afterPoll, record in Hb, Hrest.
  cbn [clockReads polls] in Hb, Hrest.
  replace (clockReads st + S i)%nat with (S (clockReads st) + i)%nat by lia.
  replace (polls st + S i)%nat with (S (polls st) + i)%nat by lia.
  split; assumption.
Qed.

(** One iteration either ends the loop or sleeps and goes on. *)
Lemma pollIteration_cases (st : State) :
  (exists res st', pollIteration st = (loopOutcome res, st') /\ pollEnds st res st')
  \/ (keepsPolling st 1 /\ pollIteration st = (Ok None, afterSleep st)).
Proof.
  unfold GeminiDeepResearchProvider.pollIteration, pollEnds,
    elapsedAt, bind, dateNowM, fetchPollM.
  cbn [polls trace vendorCalls clockReads].
  destruct (dateNow env (clockReads st) - startTime >? timeoutMs) eqn:Hgt.
  - left. rewrite Z.gtb_ltb in Hgt. apply Z.ltb_lt in Hgt.
    eexists _, _. split; [|left; split; [lia | split; reflexivity]]. reflexivity.
  - rewrite Z.gtb_ltb in Hgt. apply Z.ltb_ge in Hgt.
    cbn [polls trace vendorCalls clockReads].
    destruct (fetchPoll env (polls st) interactionId)
      as [e | httpStatus errorText | pollStatus outputs pollError] eqn:Hfetch.
    + left. exists (Throw e). eexists. split; [reflexivity|].
      right. split; [lia|]. split; reflexivity.
    + left. eexists (Throw _), _. split; [reflexivity|].
      right. split; [lia|]. split; reflexivity.
    + destruct (String.eqb pollStatus "completed") eqn:Hc.
      * apply String.eqb_eq in Hc. left.
        destruct (truthy (joinOutputs outputs)) eqn:Ht; cbn [negb].
        -- eexists (Ok _), _. split; [reflexivity|].
           right. split; [lia|]. split; [reflexivity|]. left. auto.
        -- eexists (Throw _), _. split; [reflexivity|].
           right. split; [lia|]. split; [reflexivity|]. right. left.
           split; [exact Hc|]. split; [|reflexivity].
           destruct (joinOutputs outputs); [reflexivity | discriminate].
      * destruct (String.eqb pollStatus "failed") eqn:Hf.
        -- apply String.eqb_eq in Hf. left.
           eexists (Throw _), _. split; [reflexivity|].
           right. split; [lia|]. split; [reflexivity|]. right. right.
           split; [exact Hf | reflexivity].
        -- right. split; [|reflexivity].
           intros i Hi. assert (i = 0%nat) as -> by lia. rewrite !Nat.add_0_r.
           split; [lia|]. exists pollStatus, outputs, pollError.
           split; [exact Hfetch|]. apply String.eqb_neq in Hc, Hf. now split.
Qed.

(** An iteration that ends the loop does not go on. *)
Lemma pollEnds_iteration (st st' : State) (res : Result PollResult) :
  pollEnds st res st' -> pollIteration st = (loopOutcome res, st').
Proof.
  unfold pollEnds, elapsedAt.
  intros [(Hgt & -> & ->) | (Hle & -> & Hfetch)].
  - now apply pollIteration_timeout.
  - unfold GeminiDeepResearchProvider.pollIteration, bind, dateNowM, fetchPollM.
    replace (dateNow env (clockReads st) - startTime >? timeoutMs) with false
      by (symmetry; rewrite Z.gtb_ltb; apply Z.ltb_ge; lia).
    cbn [polls trace vendorCalls clockReads].
    destruct (fetchPoll env (polls st) interactionId)
      as [e | httpStatus errorText | pollStatus outputs pollError].
    + now subst res.
    + now subst res.
    + destruct Hfetch as [(-> & Ht & ->) | [(-> & Ht & ->) | (-> & ->)]].
      * change (("completed" =? "completed")%string) with true. cbn iota.
        now rewrite Ht.
      * change (("completed" =? "completed")%string) with true. cbn iota.
        now rewrite Ht.
      * reflexivity.
Qed.

(** Every run of the loop that ends consists of some rounds of polling and
    sleeping followed by an iteration that ends the loop. *)
Lemma pollForCompletion_ends (fuel : nat) :
  forall st res st',
    pollForCompletion fuel st = Some (res, st') ->
    exists k, (k < fuel)%nat /\ keepsPolling st k /\ pollEnds (afterSleeps k st) res st'.
Proof.
  induction fuel as [|fuel IH]; intros st res st' Hrun; [discriminate|].
  cbn [GeminiDeepResearchProvider.pollForCompletion] in Hrun.
  destruct (pollIteration_cases st) as [(r & s & Hiter & Hends) | (Hone & Hiter)];
    rewrite Hiter in Hrun.
  - exists 0%nat. split; [lia|]. split; [intros i Hi; lia|].
    cbn [afterSleeps].
    destruct r; cbn [loopOutcome] in Hrun; injection Hrun as <- <-; exact Hends.
  - destruct (IH _ _ _ Hrun) as (k & Hk & Hkeeps & Hends).
    exists (S k). split; [lia|]. split; [now apply keepsPolling_S|].
    exact Hends.
Qed.

(** Conversely, such rounds followed by an ending iteration are a run. *)
Lemma pollForCompletion_reaches (k fuel : nat) (st st' : State)
    (res : Result PollResult) :
  (k < fuel)%nat -> keepsPolling st k -> pollEnds (afterSleeps k st) res st' ->
  pollForCompletion fuel st = Some (res, st').
Proof.
  intros Hk Hkeeps Hends.
  replace fuel with (k + S (fuel - k - 1))%nat by lia.
  rewrite (pollForCompletion_skip env interactionId timeoutMs pollIntervalMs startTime
             k st _ Hkeeps).
  cbn [GeminiDeepResearchProvider.pollForCompletion].
  rewrite (pollEnds_iteration _ _ _ Hends). now destruct res.
Qed.

(** If the [n]-th clock reading from [st] on shows the budget spent, the
    loop ends within [n + 1] iterations, having polled at most [n] times. *)
Lemma pollForCompletion_terminates (n : nat) :
  forall st fuel,
    dateNow env (clockReads st + n) - startTime > timeoutMs ->
    (n < fuel)%nat ->
    exists res st',
      pollForCompletion fuel st = Some (res, st')
      /\ (polls st' <= polls st + n)%nat
      /\ (clockReads st' <= clockReads st + n + 1)%nat.
Proof.
  induction n as [|n IH]; intros st fuel Hspent Hfuel;
    (destruct fuel as [|fuel]; [lia|]);
    cbn [GeminiDeepResearchProvider.pollForCompletion].
  - rewrite Nat.add_0_r in Hspent.
    rewrite (pollIteration_timeout env interactionId timeoutMs pollIntervalMs startTime
               st Hspent).
    eexists _, _. split; [reflexivity|]. cbn [polls clockReads]. lia.
  - destruct (pollIteration_cases st) as [(r & s & Hiter & Hends) | (Hone & Hiter)];
      rewrite Hiter.
    + exists r, s. split; [now destruct r|].
      destruct Hends as [(_ & _ & ->) | (_ & -> & _)];
        unfold afterPoll; cbn [polls clockReads]; lia.
    + destruct (IH (afterSleep st) fuel) as (res & st' & Hrun & Hp & Hc).
      * unfold afterSleep, afterPoll, record. cbn [clockReads].
        replace (S (clockReads st) + n)%nat with (clockReads st + S n)%nat by lia.
        exact Hspent.
      * lia.
      * exists res, st'. split; [exact Hrun|].
        unfold afterSleep, afterPoll, record in Hp, Hc.
        cbn [clockReads polls] in Hp, Hc. lia.
Qed.

End PollRuns.


Example pollForCompletion_failed_status :
  let env := Sample.env (Ok Sample.okResponse) Sample.tenSeconds
               (fun k => match k with
                         | O => Sample.inProgress
                         | _ => PollOk "failed" None (Some "agent crashed")
                         end) in
  GeminiDeepResearchProvider.pollForCompletion env 5 "interactions/abc123"
    1800000 10000 1000000 initialState
  = Some (Throw (newError "RESEARCH_FAILED: agent crashed"),
          mkState [EvFetchPoll "interactions/abc123"; EvSleep 10000;
                   EvFetchPoll "interactions/abc123"] 0 2 2).
Proof. reflexivity. Qed.

(* ===================================================================== *)
(** * Starting a research task *)
(* ===================================================================== *)

Section ResearchRuns.

Import GeminiDeepResearchProvider.

Variable env : Env.

(** The category of a start request that was answered with a status that
    is not OK. *)
Lemma startResearch_not_ok (query errorText : string) (httpStatus : Z)
    (parsed : option Json) (st : State) :
  fetchStart env query = StartNotOk httpStatus errorText parsed ->
  let fallback := "Failed to start research: " ++ ofZ httpStatus in
  let detail := fst (errorMessageAndAuth errorText parsed fallback) in
  let keyInvalid := snd (errorMessageAndAuth errorText parsed fallback) in
  let category :=
    if keyInvalid || (httpStatus =? 401) || (httpStatus =? 403) then "AUTH_ERROR"
    else if httpStatus =? 429 then "RATE_LIMIT" else "API_ERROR" in
  startResearch env query st
  = (Throw (newError (category ++ ": " ++ detail)), record (EvFetchStart query) st).
Proof.
  intros Hstart fallback detail keyInvalid category.
  unfold startResearch, bind, fetchStartM. rewrite Hstart.
  unfold category, detail, keyInvalid. fold fallback.
  destruct (errorMessageAndAuth errorText parsed fallback) as [errorMessage isAuthError].
  cbn [fst snd].
  destruct (isAuthError || (httpStatus =? 401) || (httpStatus =? 403));
    [reflexivity|]. destruct (httpStatus =? 429); reflexivity.
Qed.

Lemma startResearch_state (query : string) (st : State) :
  snd (startResearch env query st) = record (EvFetchStart query) st.
Proof.
  destruct (fetchStart env query) as [e | httpStatus errorText parsed | id] eqn:Hstart.
  - unfold startResearch, bind, fetchStartM. now rewrite Hstart.
  - now rewrite (startResearch_not_ok query errorText httpStatus parsed st Hstart).
  - unfold startResearch, bind, fetchStartM. rewrite Hstart.
    destruct id as [id|]; [destruct (truthy id)|]; reflexivity.
Qed.

Lemma startResearch_result (query : string) (st st2 : State) :
  fst (startResearch env query st) = fst (startResearch env query st2).
Proof.
  destruct (fetchStart env query) as [e | httpStatus errorText parsed | id] eqn:Hstart.
  - unfold startResearch, bind, fetchStartM. now rewrite Hstart.
  - now rewrite !(startResearch_not_ok query errorText httpStatus parsed _ Hstart).
  - unfold startResearch, bind, fetchStartM. rewrite Hstart.
    destruct id as [id|]; [destruct (truthy id)|]; reflexivity.
Qed.

Lemma startResearch_ok_inv (query id : string) (st st1 : State) :
  startResearch env query st = (Ok id, st1) ->
  fetchStart env query = StartOk (Some id) /\ truthy id = true
  /\ st1 = record (EvFetchStart query) st.
Proof.
  intros Hrun. pose proof (startResearch_state query st) as Hst.
  rewrite Hrun in Hst. cbn [snd] in Hst.
  destruct (fetchStart env query) as [e | httpStatus errorText parsed | i] eqn:Hstart.
  - unfold startResearch, bind, fetchStartM in Hrun. rewrite Hstart in Hrun.
    unfold throw in Hrun. discriminate.
  - rewrite (startResearch_not_ok query errorText httpStatus parsed st Hstart) in Hrun.
    discriminate.
  - unfold startResearch, bind, fetchStartM in Hrun. rewrite Hstart in Hrun.
    destruct i as [i|]; [destruct (truthy i) eqn:Ht|]; unfold throw, ret in Hrun;
      try discriminate.
    injection Hrun as -> _. auto.
Qed.

Lemma afterSleeps_trace (interactionId : string) (pollIntervalMs : Z) (k : nat) :
  forall st,
    trace (afterSleeps interactionId pollIntervalMs k st)
    = (trace st ++ pollRounds interactionId pollIntervalMs k)%list.
Proof.
  induction k as [|k IH]; intros st; cbn [afterSleeps pollRounds].
  - now rewrite app_nil_r.
  - rewrite IH. unfold afterSleep, afterPoll, record. cbn [trace].
    now rewrite <- !app_assoc.
Qed.

(** The reasons of a well-formed body are searched for the invalid key. *)
Lemma someApiKeyInvalid_reasons (reasons : list string) :
  someApiKeyInvalid
    (map (fun reason => JsonObject [("reason", JsonString reason)]) reasons)
  = Ok (existsb (String.eqb "API_KEY_INVALID") reasons).
Proof.
  induction reasons as [|r rest IH]; [reflexivity|].
  cbn [map someApiKeyInvalid getMember lookupLast existsb].
  change (("reason" =? "reason")%string) with true. cbn iota.
  rewrite (String.eqb_sym "API_KEY_INVALID" r).
  destruct (String.eqb r "API_KEY_INVALID"); [reflexivity | exact IH].
Qed.

Lemma readErrorBody_well_formed (message : string) (reasons : list string)
    (fallback : string) :
  readErrorBody (errorBody message reasons) fallback
  = (if truthy message then message else fallback,
     Some (existsb (String.eqb "API_KEY_INVALID") reasons)).
Proof.
  unfold readErrorBody, errorBody.
  cbn [getMember lookupLast getOptional jsonTruthy jsonToString].
  change (("error" =? "error")%string) with true.
  change (("message" =? "message")%string) with true.
  change (("details" =? "details")%string) with true.
  change (("details" =? "message")%string) with false.
  change (("message" =? "details")%string) with false.
  cbn iota. cbn [getOptional lookupLast jsonTruthy jsonToString].
  change (("message" =? "message")%string) with true.
  change (("details" =? "details")%string) with true.
  change (("details" =? "message")%string) with false.
  change (("message" =? "details")%string) with false.
  cbn iota. now rewrite someApiKeyInvalid_reasons.
Qed.

End ResearchRuns.

Section StartRejections.

Import GeminiDeepResearchProvider.

Lemma existsb_eqb_In (x : string) (l : list string) :
  existsb (String.eqb x) l = true <-> In x l.
Proof.
  rewrite existsb_exists. split.
  - intros (y & Hin & Heq). apply String.eqb_eq in Heq. now subst.
  - intros Hin. exists x. split; [exact Hin | apply String.eqb_refl].
Qed.

Lemma start_category_auth (keyInvalid : bool) (httpStatus : Z) :
  (if keyInvalid || (httpStatus =? 401) || (httpStatus =? 403) then "AUTH_ERROR"
   else if httpStatus =? 429 then "RATE_LIMIT" else "API_ERROR") = "AUTH_ERROR"
  <-> keyInvalid = true \/ httpStatus = 401 \/ httpStatus = 403.
Proof.
  destruct keyInvalid; cbn [orb]; [tauto|].
  destruct (httpStatus =? 401) eqn:H401; cbn [orb].
  - apply Z.eqb_eq in H401. tauto.
  - destruct (httpStatus =? 403) eqn:H403.
    + apply Z.eqb_eq in H403. tauto.
    + apply Z.eqb_neq in H401, H403.
      destruct (httpStatus =? 429); split; try discriminate;
        intros [H | [H | H]]; congruence.
Qed.

End StartRejections.

(** Rejected start requests.  When the start request is answered with a
    status that is not OK, [startResearch] throws after that one fetch and
    [research] never polls.  The message is a category, a colon and a
    text.  The category is AUTH_ERROR for the statuses 401 and 403,
    RATE_LIMIT only for 429 and API_ERROR only for other statuses.  For a
    body of the documented shape (alone or as first element of an array)
    the text is the vendor's message, or names the status when that message
    is empty, and the category is AUTH_ERROR exactly when a reason is
    API_KEY_INVALID or the status is 401 or 403.  When the body cannot be
    parsed, or reading it throws (it is [null], its [details] are not an
    array, or hold a [null] before any invalid-key reason), the reasons are
    not taken into account: the category is AUTH_ERROR for 401 and 403
    only, and the text is the raw body when that is not empty. *)
Theorem startResearch_rejection_classified
    (env : Env) (query errorText : string) (httpStatus : Z)
    (parsed : option Json) (st : State) :
  fetchStart env query = StartNotOk httpStatus errorText parsed ->
  let fallback := "Failed to start research: " ++ ofZ httpStatus in
  exists category detail,
    GeminiDeepResearchProvider.startResearch env query st
    = (Throw (newError (category ++ ": " ++ detail)), record (EvFetchStart query) st)
    /\ (category = "AUTH_ERROR" \/ category = "RATE_LIMIT" \/ category = "API_ERROR")
    /\ (httpStatus = 401 \/ httpStatus = 403 -> category = "AUTH_ERROR")
    /\ (category = "RATE_LIMIT" -> httpStatus = 429)
    /\ (category = "API_ERROR" ->
        httpStatus <> 401 /\ httpStatus <> 403 /\ httpStatus <> 429)
    /\ (forall message reasons others,
          parsed = Some (errorBody message reasons)
          \/ parsed = Some (JsonArray (errorBody message reasons :: others)) ->
          detail = (if truthy message then message else fallback)
          /\ (category = "AUTH_ERROR"
              <-> In "API_KEY_INVALID" reasons \/ httpStatus = 401 \/ httpStatus = 403))
    /\ (parsed = None
        \/ (exists json,
              parsed = Some json
              /\ snd (GeminiDeepResearchProvider.readErrorBody json fallback) = None) ->
        (truthy errorText = true -> detail = errorText)
        /\ (parsed = None -> truthy errorText = false -> detail = fallback)
        /\ (category = "AUTH_ERROR" <-> httpStatus = 401 \/ httpStatus = 403))
    /\ (forall reason,
          snd (GeminiDeepResearchProvider.readErrorBody JsonNull fallback) = None
          /\ snd (GeminiDeepResearchProvider.readErrorBody (JsonArray [JsonNull]) fallback)
             = None
          /\ snd (GeminiDeepResearchProvider.readErrorBody
                    (JsonObject
                       [("error", JsonObject [("details", JsonString reason)])])
                    fallback)
             = (if truthy reason then None else Some false)
          /\ snd (GeminiDeepResearchProvider.readErrorBody
                    (JsonObject
                       [("error",
                         JsonObject
                           [("details",
                             JsonArray
                               [JsonNull;
                                JsonObject [("reason", JsonString "API_KEY_INVALID")]])])])
                    fallback)
             = None
          /\ snd (GeminiDeepResearchProvider.readErrorBody
                    (JsonObject
                       [("error",
                         JsonObject
                           [("details",
                             JsonArray
                               [JsonObject [("reason", JsonString "API_KEY_INVALID")];
                                JsonNull])])])
                    fallback)
             = Some true)
    /\ forall fuel options,
         GeminiDeepResearchProvider.query options = query ->
         exists st',
           GeminiDeepResearchProvider.research env fuel options st
           = Some (Throw (newError (category ++ ": " ++ detail)), st')
           /\ polls st' = polls st
           /\ trace st' = (trace st ++ [EvFetchStart query])%list.
Proof.
  intros Hstart fallback.
  pose proof (startResearch_not_ok env query errorText httpStatus parsed) as Hrun.
  cbv zeta in Hrun. fold fallback in Hrun.
  set (reading := GeminiDeepResearchProvider.errorMessageAndAuth errorText parsed fallback)
    in Hrun.
  set (category :=
         if snd reading || (httpStatus =? 401) || (httpStatus =? 403) then "AUTH_ERROR"
         else if httpStatus =? 429 then "RATE_LIMIT" else "API_ERROR") in Hrun.
  exists category, (fst reading).
  split; [exact (Hrun st Hstart)|].
  split.
  { unfold category.
    destruct (snd reading || (httpStatus =? 401) || (httpStatus =? 403)); [now left|].
    destruct (httpStatus =? 429); [right; now left | right; now right]. }
  split.
  { intros Hs. apply start_category_auth. right. exact Hs. }
  split.
  { unfold category.
    destruct (snd reading || (httpStatus =? 401) || (httpStatus =? 403));
      [discriminate|].
    destruct (httpStatus =? 429) eqn:H429; [|discriminate].
    intros _. now apply Z.eqb_eq. }
  split.
  { unfold category.
    destruct (snd reading || (httpStatus =? 401) || (httpStatus =? 403)) eqn:Hauth;
      [discriminate|].
    destruct (httpStatus =? 429) eqn:H429; [discriminate|]. intros _.
    apply orb_false_iff in Hauth. destruct Hauth as [Hauth H403].
    apply orb_false_iff in Hauth. destruct Hauth as [_ H401].
    apply Z.eqb_neq in H401, H403, H429. auto. }
  split.
  { intros message reasons others Hbody.
    assert (reading
            = (if truthy message then message else fallback,
               existsb (String.eqb "API_KEY_INVALID") reasons)) as Hreading.
    { unfold reading, GeminiDeepResearchProvider.errorMessageAndAuth.
      destruct Hbody as [-> | ->].
      - now rewrite readErrorBody_well_formed.
      - change (GeminiDeepResearchProvider.readErrorBody
                  (JsonArray (errorBody message reasons :: others)) fallback)
          with (GeminiDeepResearchProvider.readErrorBody
                  (errorBody message reasons) fallback).
        now rewrite readErrorBody_well_formed. }
    unfold category. rewrite Hreading. cbn [fst snd]. split; [reflexivity|].
    rewrite start_category_auth, existsb_eqb_In. reflexivity. }
  split.
  { intros Hunread.
    assert (snd reading = false
            /\ (truthy errorText = true -> fst reading = errorText)
            /\ (parsed = None -> truthy errorText = false -> fst reading = fallback))
      as (Hkey & Htext & Hnone).
    { unfold reading, GeminiDeepResearchProvider.errorMessageAndAuth.
      destruct Hunread as [-> | (json & -> & Hthrows)].
      - split; [reflexivity|]. split; intros; [|intros]; cbn [fst].
        + now rewrite H.
        + now rewrite H0.
      - destruct (GeminiDeepResearchProvider.readErrorBody json fallback)
          as [m [a|]]; [discriminate|].
        split; [reflexivity|]. split; [|discriminate].
        intros Ht. cbn [fst]. now rewrite Ht. }
    split; [exact Htext|]. split; [exact Hnone|].
    unfold category. rewrite start_category_auth, Hkey.
    split; [intros [H | H]; [discriminate | exact H] | intros H; now right]. }
  split.
  { intros reason. split; [reflexivity|]. split; [reflexivity|].
    split; [now destruct reason|]. split; reflexivity. }
  intros fuel options Hquery.
  unfold GeminiDeepResearchProvider.research, dateNowM. rewrite Hquery.
  rewrite (Hrun _ Hstart). eexists. split; [reflexivity|]. split; reflexivity.
Qed.

Lemma startResearch_rejection_classified_witness :
  let body :=
    JsonArray [errorBody "API key not valid. Please pass a valid API key."
                 ["BAD_REQUEST"; "API_KEY_INVALID"]] in
  let env :=
    withFetchStart (StartNotOk 400 "[{...}]" (Some body))
      (Sample.env (Ok Sample.okResponse) Sample.tenSeconds (fun _ => Sample.inProgress)) in
  fetchStart env "tides" = StartNotOk 400 "[{...}]" (Some body)
  /\ fst (GeminiDeepResearchProvider.startResearch env "tides" initialState)
     = Throw (newError "AUTH_ERROR: API key not valid. Please pass a valid API key.").
Proof.
  intros body env. split; [reflexivity|].
  destruct (startResearch_rejection_classified env "tides" "[{...}]" 400 (Some body)
              initialState eq_refl)
    as (category & detail & Hrun & _).
  reflexivity.
Defined.

Example startResearch_rejections :
  let base := Sample.env (Ok Sample.okResponse) Sample.tenSeconds
                (fun _ => Sample.inProgress) in
  fst (GeminiDeepResearchProvider.startResearch
         (withFetchStart (StartNotOk 429 "slow down" None) base) "tides" initialState)
  = Throw (newError "RATE_LIMIT: slow down")
  /\ fst (GeminiDeepResearchProvider.startResearch
            (withFetchStart (StartNotOk 403 EmptyString None) base) "tides" initialState)
     = Throw (newError "AUTH_ERROR: Failed to start research: 403")
  /\ fst (GeminiDeepResearchProvider.startResearch
            (withFetchStart (StartNotOk 500 "[]" (Some (JsonArray []))) base)
            "tides" initialState)
     = Throw (newError "API_ERROR: Failed to start research: 500")
  /\ fst (GeminiDeepResearchProvider.startResearch
            (withFetchStart (StartNotOk 400 "[null]" (Some (JsonArray [JsonNull]))) base)
            "tides" initialState)
     = Throw (newError "API_ERROR: [null]")
  /\ fst (GeminiDeepResearchProvider.startResearch
            (withFetchStart
               (StartNotOk 400 "{...}"
                  (Some (JsonObject
                           [("error",
                             JsonObject
                               [("message", JsonString "API key not valid");
                                ("details",
                                 JsonArray
                                   [JsonNull;
                                    JsonObject
                                      [("reason", JsonString "API_KEY_INVALID")]])])])))
               base)
            "tides" initialState)
     = Throw (newError "API_ERROR: {...}")
  /\ fst (GeminiDeepResearchProvider.startResearch
            (withFetchStart (StartOk (Some EmptyString)) base) "tides" initialState)
     = Throw (newError "API_ERROR: No interaction ID returned from API").
Proof. repeat split. Qed.

(* ===================================================================== *)
(** * Runs of a research task *)
(* ===================================================================== *)

Section ResearchOutcomes.

Import GeminiDeepResearchProvider.

Variable env : Env.

Lemma research_terminates (n : nat) (options : DeepResearchOptions)
    (st : State) (fuel : nat) :
  dateNow env (clockReads st + 1 + n) - dateNow env (clockReads st)
  > orDefault (timeoutMs options) DEFAULT_TIMEOUT_MS ->
  (n < fuel)%nat ->
  exists res st',
    research env fuel options st = Some (res, st')
    /\ (polls st' <= polls st + n)%nat.
Proof.
  intros Hspent Hfuel. unfold research, dateNowM.
  match goal with
  | |- context [startResearch env ?q ?s] =>
      pose proof (startResearch_state env q s) as Hst;
      destruct (startResearch env q s) as [[id|e] st1]
  end; cbn [snd] in Hst; subst st1.
  - match goal with
    | |- context [pollForCompletion env fuel id ?t ?p ?s0 ?s] =>
        destruct (pollForCompletion_terminates env id t p s0 n s fuel)
          as (res & st2 & Hrun & Hpolls & _)
    end.
    + unfold record. cbn [clockReads].
      replace (S (clockReads st) + n)%nat with (clockReads st + 1 + n)%nat by lia.
      exact Hspent.
    + exact Hfuel.
    + rewrite Hrun. unfold record in Hpolls. cbn [polls] in Hpolls.
      destruct res as [r|e]; eexists _, _; (split; [reflexivity|]);
        cbn [polls]; exact Hpolls.
  - eexists _, _. split; [reflexivity|]. unfold record. cbn [polls]. lia.
Qed.

End ResearchOutcomes.

(** Termination of a research task.  If the clock reading made by the
    [(n + 1)]-th iteration of the poll loop shows more than the budget
    elapsed since the task's first reading, [research] ends (with a result
    or an error) for every iteration bound above [n], having fetched the
    status at most [n] times. *)
Theorem research_ends_once_budget_spent
    (env : Env) (options : GeminiDeepResearchProvider.DeepResearchOptions)
    (st : State) (n fuel : nat) :
  dateNow env (clockReads st + 1 + n) - dateNow env (clockReads st)
  > orDefault (GeminiDeepResearchProvider.timeoutMs options)
      GeminiDeepResearchProvider.DEFAULT_TIMEOUT_MS ->
  (n < fuel)%nat ->
  exists res st',
    GeminiDeepResearchProvider.research env fuel options st = Some (res, st')
    /\ (polls st' <= polls st + n)%nat.
Proof. apply research_terminates. Qed.

Lemma research_ends_once_budget_spent_witness :
  let env := Sample.env (Ok Sample.okResponse) Sample.tenSeconds
               (fun _ => Sample.inProgress) in
  let options := GeminiDeepResearchProvider.mkOptions "tides" (Some 25000) None in
  Sample.tenSeconds 3 - Sample.tenSeconds 0 > 25000
  /\ exists res st',
       GeminiDeepResearchProvider.research env 3 options initialState = Some (res, st')
       /\ (polls st' <= 2)%nat.
Proof.
  intros env options. split; [reflexivity|].
  apply (research_ends_once_budget_spent env options initialState 2 3);
    [reflexivity | lia].
Defined.

(** With a clock that advances between any two readings, [research] always
    ends: for every iteration bound above the budget (in milliseconds) it
    returns a result or throws, after at most as many status fetches as the
    budget has milliseconds. *)
Theorem research_ends_with_advancing_clock
    (env : Env) (options : GeminiDeepResearchProvider.DeepResearchOptions)
    (st : State) (fuel : nat) :
  (forall i, dateNow env i < dateNow env (S i)) ->
  let budget :=
    Z.to_nat (orDefault (GeminiDeepResearchProvider.timeoutMs options)
                GeminiDeepResearchProvider.DEFAULT_TIMEOUT_MS) in
  (budget < fuel)%nat ->
  exists res st',
    GeminiDeepResearchProvider.research env fuel options st = Some (res, st')
    /\ (polls st' <= polls st + budget)%nat.
Proof.
  intros Hclock budget Hfuel.
  apply research_terminates; [|exact Hfuel].
  assert (forall k c, dateNow env c + Z.of_nat k <= dateNow env (c + k)) as Hadv.
  { induction k as [|k IH]; intros c.
    - rewrite Nat.add_0_r. lia.
    - specialize (IH c). specialize (Hclock (c + k)%nat).
      replace (c + S k)%nat with (S (c + k)) by lia. lia. }
  specialize (Hadv (1 + budget)%nat (clockReads st)).
  replace (clockReads st + 1 + budget)%nat with (clockReads st + (1 + budget))%nat
    by lia.
  unfold budget in *. lia.
Qed.

Lemma research_ends_with_advancing_clock_witness :
  let env := Sample.env (Ok Sample.okResponse) Sample.tenSeconds
               (fun _ => Sample.inProgress) in
  let options := GeminiDeepResearchProvider.mkOptions "tides" (Some 5) None in
  (forall i, Sample.tenSeconds i < Sample.tenSeconds (S i))
  /\ exists res st',
       GeminiDeepResearchProvider.research env 6 options initialState = Some (res, st')
       /\ (polls st' <= 5)%nat.
Proof.
  intros env options.
  assert (forall i, Sample.tenSeconds i < Sample.tenSeconds (S i)) as Hclock
    by (intros i; unfold Sample.tenSeconds; lia).
  split; [exact Hclock|].
  apply (research_ends_with_advancing_clock env options initialState 6 Hclock).
  cbn. lia.
Defined.


Lemma afterSleeps_vendorCalls (interactionId : string) (pollIntervalMs : Z) (k : nat) :
  forall st, vendorCalls (afterSleeps interactionId pollIntervalMs k st) = vendorCalls st.
Proof.
  induction k as [|k IH]; intros st; [reflexivity|].
  cbn [afterSleeps]. now rewrite IH.
Qed.

(** Successful research.  When [research] returns a result, the start
    request returned a non-empty interaction identifier, which the result
    carries; some number [k] of status fetches found a non-terminal status
    within the budget, each followed by a sleep of the poll interval, and
    the next fetch, made with the budget still unspent, found [completed]
    with outputs whose non-empty joined text is the result's text.  The
    status is [completed], the model [deep-research], and the duration is
    the difference between the last and the first clock reading of the
    run, which reads the clock [k + 3] times. *)
Theorem research_success_shape
    (env : Env) (options : GeminiDeepResearchProvider.DeepResearchOptions)
    (fuel : nat) (st st' : State)
    (result : GeminiDeepResearchProvider.DeepResearchResult) :
  GeminiDeepResearchProvider.research env fuel options st = Some (Ok result, st') ->
  let query := GeminiDeepResearchProvider.query options in
  let timeoutMs :=
    orDefault (GeminiDeepResearchProvider.timeoutMs options)
      GeminiDeepResearchProvider.DEFAULT_TIMEOUT_MS in
  let pollIntervalMs :=
    orDefault (GeminiDeepResearchProvider.pollIntervalMs options)
      GeminiDeepResearchProvider.DEFAULT_POLL_INTERVAL_MS in
  let startTime := dateNow env (clockReads st) in
  exists id k outputs pollError,
    fetchStart env query = StartOk (Some id)
    /\ truthy id = true
    /\ (k < fuel)%nat
    /\ keepsPolling env id timeoutMs startTime (afterStart query st) k
    /\ dateNow env (clockReads st + 1 + k) - startTime <= timeoutMs
    /\ fetchPoll env (polls st + k) id = PollOk "completed" outputs pollError
    /\ truthy (GeminiDeepResearchProvider.joinOutputs outputs) = true
    /\ result
       = GeminiDeepResearchProvider.mkResult
           (GeminiDeepResearchProvider.joinOutputs outputs) "deep-research" id
           GeminiDeepResearchProvider.completed
           (dateNow env (clockReads st + 2 + k) - startTime)
    /\ st' = mkState
               (trace st ++ EvFetchStart query
                :: pollRounds id pollIntervalMs k ++ [EvFetchPoll id])
               (vendorCalls st) (clockReads st + k + 3) (polls st + k + 1).
Proof.
  intros Hrun query timeoutMs pollIntervalMs startTime.
  unfold GeminiDeepResearchProvider.research, dateNowM in Hrun.
  fold query timeoutMs pollIntervalMs startTime in Hrun.
  destruct (GeminiDeepResearchProvider.startResearch env query
              (mkState (trace st) (vendorCalls st) (S (clockReads st)) (polls st)))
    as [[id|e] st1] eqn:Hstart; [|discriminate].
  apply startResearch_ok_inv in Hstart. destruct Hstart as (Hfetch & Hid & ->).
  fold (afterStart query st) in Hrun.
  destruct (GeminiDeepResearchProvider.pollForCompletion env fuel id timeoutMs
              pollIntervalMs startTime (afterStart query st))
    as [[[r|e] st2]|] eqn:Hpoll; try discriminate.
  injection Hrun as <- <-.
  apply pollForCompletion_ends in Hpoll.
  destruct Hpoll as (k & Hk & Hkeeps & Hends).
  destruct (afterSleeps_counters id pollIntervalMs k (afterStart query st))
    as (Hclock & Hpolls & _).
  pose proof (afterSleeps_trace id pollIntervalMs k (afterStart query st)) as Htrace.
  unfold afterStart at 2, record in Hclock. cbn [clockReads] in Hclock.
  unfold afterStart at 2, record in Hpolls. cbn [polls] in Hpolls.
  unfold afterStart at 2, record in Htrace. cbn [trace] in Htrace.
  unfold pollEnds, elapsedAt in Hends.
  destruct Hends as [(_ & Hres & _) | (Hle & -> & Hreply)]; [discriminate|].
  rewrite Hclock in Hle. rewrite Hpolls in Hreply.
  replace (S (clockReads st) + k)%nat with (clockReads st + 1 + k)%nat in Hle by lia.
  destruct (fetchPoll env (polls st + k) id)
    as [e | httpStatus errorText | pollStatus outputs pollError] eqn:Hreplied;
    try discriminate.
  destruct Hreply as [(-> & Ht & Hres) | [(_ & _ & Hres) | (_ & Hres)]];
    try discriminate.
  injection Hres as ->.
  exists id, k, outputs, pollError.
  split; [exact Hfetch|]. split; [exact Hid|]. split; [exact Hk|].
  split; [exact Hkeeps|]. split; [exact Hle|]. split; [exact Hreplied|].
  split; [exact Ht|].
  unfold afterPoll. cbn [clockReads trace vendorCalls polls
                         GeminiDeepResearchProvider.pollText
                         GeminiDeepResearchProvider.pollModel
                         GeminiDeepResearchProvider.pollStatusOf].
  rewrite Hclock, Hpolls, Htrace, afterSleeps_vendorCalls.
  unfold afterStart, record. cbn [vendorCalls].
  replace (S (S (clockReads st) + k)) with (clockReads st + 2 + k)%nat by lia.
  split; [reflexivity|].
  f_equal; [|lia|lia].
  rewrite <- !app_assoc. reflexivity.
Qed.

Lemma research_success_shape_witness :
  let env := Sample.env (Ok Sample.okResponse) Sample.tenSeconds Sample.twoThenDone in
  let options := GeminiDeepResearchProvider.mkOptions "tides" None None in
  let result :=
    GeminiDeepResearchProvider.mkResult ("Part one." ++ nl ++ nl ++ "Part two.")
      "deep-research" "interactions/abc123" GeminiDeepResearchProvider.completed 40000 in
  let st' :=
    mkState
      [EvFetchStart "tides";
       EvFetchPoll "interactions/abc123"; EvSleep 10000;
       EvFetchPoll "interactions/abc123"; EvSleep 10000;
       EvFetchPoll "interactions/abc123"]
      0 5 3 in
  GeminiDeepResearchProvider.research env 5 options initialState = Some (Ok result, st')
  /\ exists id, fetchStart env "tides" = StartOk (Some id) /\ truthy id = true.
Proof.
  intros env options result st'. split; [reflexivity|].
  destruct (research_success_shape env options 5 initialState st' result eq_refl)
    as (id & _ & _ & _ & Hstart & Hid & _).
  exists id. split; [exact Hstart | exact Hid].
Defined.


(* ===================================================================== *)
(** * The tools at the boundary *)
(* ===================================================================== *)

Lemma imageModelOfName_name (name : string) (model : SupportedImageModel) :
  Server.imageModelOfName name = Some model -> imageModelName model = name.
Proof.
  unfold Server.imageModelOfName. intros Hfind.
  apply find_some in Hfind. destruct Hfind as [_ Heq].
  now apply String.eqb_eq in Heq.
Qed.



(** A model argument that is the empty string passes the dispatcher's
    check, and the provider, whose default replaces an absent value only,
    names the empty string as the model of the result. *)
Example generate_image_empty_model_name :
  let env := Sample.env (Ok Sample.imageResponse) Sample.tenSeconds
               (fun _ => Sample.inProgress) in
  let args := Server.mkImageArguments "a cat" "/tmp/cat-out.png" (Some EmptyString)
                None None in
  Server.meta (fst (Server.handleGenerateImage env args initialState))
  = Some (Server.ImageMeta EmptyString (Some "/tmp/cat-out.png")
            (GeminiImageProvider.usageOf Sample.imageResponse)).
Proof. reflexivity. Qed.

(** The [timeout_minutes] argument of [deep_research].  An absent value
    and the value 0 select a budget of 30 minutes; any other value, a
    negative one included, is used as given; the budget is that many
    minutes in milliseconds.  For a query that is not blank and a start
    request that returns an interaction identifier, the budget is compared
    with the time elapsed at the first clock reading of the poll loop:
    when the elapsed time exceeds it, the tool reports the timeout
    without a single status fetch; when it does not and the first status
    fetch finds the research completed with text, the tool returns that
    text.  Whatever the platform does, an absent value and 0 behave
    exactly like 30. *)
Theorem deep_research_timeout_minutes
    (env : Env) (fuel : nat) (query : string) (timeout_minutes : option Z)
    (id : string) (st : State) :
  Server.blank query = false ->
  fetchStart env query = StartOk (Some id) ->
  truthy id = true ->
  let minutes :=
    match timeout_minutes with
    | Some n => if n =? 0 then 30 else n
    | None => 30
    end in
  let elapsed := dateNow env (S (clockReads st)) - dateNow env (clockReads st) in
  let run :=
    Server.handleDeepResearch env (S fuel)
      (Server.mkResearchArgs query timeout_minutes) st in
  (minutes * 60000 < elapsed ->
   run = Some (Server.errorResult
                 ("Error: " ++ GeminiDeepResearchProvider.timeoutMessage elapsed id),
               mkState (trace st ++ [EvFetchStart query]) (vendorCalls st)
                 (S (S (clockReads st))) (polls st)))
  /\ (elapsed <= minutes * 60000 ->
      forall outputs pollError,
        fetchPoll env (polls st) id = PollOk "completed" outputs pollError ->
        truthy (GeminiDeepResearchProvider.joinOutputs outputs) = true ->
        run = Some (Server.mkToolResult
                      (GeminiDeepResearchProvider.joinOutputs outputs) false
                      (Some (Server.ResearchMeta "deep-research" id
                               (dateNow env (S (S (clockReads st)))
                                - dateNow env (clockReads st)))),
                    mkState (trace st ++ [EvFetchStart query; EvFetchPoll id])
                      (vendorCalls st) (S (S (S (clockReads st))))
                      (S (polls st))))
  /\ (forall env' fuel' query' st0,
        Server.handleDeepResearch env' fuel' (Server.mkResearchArgs query' None) st0
        = Server.handleDeepResearch env' fuel' (Server.mkResearchArgs query' (Some 30))
            st0
        /\ Server.handleDeepResearch env' fuel' (Server.mkResearchArgs query' (Some 0))
             st0
           = Server.handleDeepResearch env' fuel'
               (Server.mkResearchArgs query' (Some 30)) st0).
Proof.
  intros Hblank Hstart Hid minutes elapsed run.
  assert (Hrun : run
                 = match GeminiDeepResearchProvider.pollForCompletion env (S fuel) id
                           (minutes * 60 * 1000)
                           GeminiDeepResearchProvider.DEFAULT_POLL_INTERVAL_MS
                           (dateNow env (clockReads st))
                           (record (EvFetchStart query)
                              (mkState (trace st) (vendorCalls st) (S (clockReads st))
                                 (polls st))) with
                   | None => None
                   | Some (Throw error, st2) =>
                       Some (Server.errorResult
                               ("Error: "
                                ++ messageOr error "Unknown error during deep research"),
                             st2)
                   | Some (Ok result, st2) =>
                       Some (Server.mkToolResult
                               (GeminiDeepResearchProvider.pollText result) false
                               (Some (Server.ResearchMeta
                                        (GeminiDeepResearchProvider.pollModel result) id
                                        (dateNow env (clockReads st2)
                                         - dateNow env (clockReads st)))),
                             mkState (trace st2) (vendorCalls st2) (S (clockReads st2))
                               (polls st2))
                   end).
  { unfold run, Server.handleDeepResearch.
    cbn [Server.r_query Server.r_timeout_minutes]. rewrite Hblank.
    fold minutes.
    unfold GeminiDeepResearchProvider.research, dateNowM.
    cbn [GeminiDeepResearchProvider.query GeminiDeepResearchProvider.timeoutMs
         GeminiDeepResearchProvider.pollIntervalMs orDefault].
    rewrite (startResearch_ok env query id _ Hstart Hid).
    destruct (GeminiDeepResearchProvider.pollForCompletion env (S fuel) id _ _ _ _)
      as [[[r|e] st2]|]; reflexivity. }
  split; [|split].
  - intros Hgt. rewrite Hrun.
    cbn [GeminiDeepResearchProvider.pollForCompletion].
    rewrite pollIteration_timeout.
    + unfold record, elapsedAt. cbn [trace vendorCalls clockReads polls].
      unfold messageOr. cbn [message newError]. reflexivity.
    + unfold record, elapsedAt. cbn [clockReads]. fold elapsed. lia.
  - intros Hle outputs pollError Hfetch Htext. rewrite Hrun.
    cbn [GeminiDeepResearchProvider.pollForCompletion].
    rewrite (pollIteration_completed env id _ _ _ _ outputs pollError).
    + rewrite Htext. unfold afterPoll, record.
      cbn [trace vendorCalls clockReads polls GeminiDeepResearchProvider.pollText
           GeminiDeepResearchProvider.pollModel].
      now rewrite <- app_assoc.
    + unfold record, elapsedAt. cbn [clockReads]. fold elapsed. lia.
    + unfold record. cbn [polls]. exact Hfetch.
  - intros env' fuel' query' st0. split; reflexivity.
Qed.

Lemma deep_research_timeout_minutes_witness :
  let env := Sample.env (Ok Sample.okResponse) Sample.tenSeconds
               (fun _ => PollOk "completed" (Some [Some "Tides follow the moon."])
                           None) in
  Server.handleDeepResearch env 1 (Server.mkResearchArgs "tides" (Some 0)) initialState
  = Some (Server.mkToolResult "Tides follow the moon." false
            (Some (Server.ResearchMeta "deep-research" "interactions/abc123" 20000)),
          mkState [EvFetchStart "tides"; EvFetchPoll "interactions/abc123"] 0 3 1).
Proof.
  intros env.
  exact (proj1 (proj2
           (deep_research_timeout_minutes env 0 "tides" (Some 0) "interactions/abc123"
              initialState eq_refl eq_refl eq_refl))
           ltac:(vm_compute; discriminate) _ _ eq_refl eq_refl).
Defined.

Example deep_research_negative_timeout :
  let env := Sample.env (Ok Sample.okResponse) Sample.tenSeconds Sample.twoThenDone in
  Server.handleDeepResearch env 5 (Server.mkResearchArgs "tides" (Some (-5))) initialState
  = Some (Server.errorResult
            ("Error: TIMEOUT: Research timed out after 0 minutes. "
             ++ "The research may still be running - interaction ID: interactions/abc123"),
          mkState [EvFetchStart "tides"] 0 2 0).
Proof. reflexivity. Qed.

(** A query consisting of a no-break space (U+00A0, two bytes in UTF-8)
    and an ideographic space (U+3000, three bytes) is blank. *)
Example deep_research_unicode_blank_query :
  let env := Sample.env (Ok Sample.okResponse) Sample.tenSeconds Sample.twoThenDone in
  let query :=
    String (ascii_of_nat 194) (String (ascii_of_nat 160)
      (String (ascii_of_nat 227) (String (ascii_of_nat 128)
         (String (ascii_of_nat 128) EmptyString)))) in
  Server.handleDeepResearch env 5 (Server.mkResearchArgs query None) initialState
  = Some (Server.errorResult "Error: Query cannot be empty", initialState).
Proof. reflexivity. Qed.


(* ===================================================================== *)
(** * Vendor calls that keep failing *)
(* ===================================================================== *)

Lemma generateContent_fails (env : Env) (req : GenerateContentRequest)
    (timeoutMs : Z) (e : Error) (st : State) :
  1 <= timeoutMs <= 2147483647 ->
  failsInTime env req timeoutMs (vendorCalls st) e ->
  generateContentWithTimeout env req timeoutMs st
  = (Throw e,
     mkState (trace st ++ [EvGenerateContent req]) (S (vendorCalls st))
       (clockReads st) (polls st)).
Proof.
  intros Hrange (t & Hcall & Ht). unfold generateContentWithTimeout. rewrite Hcall.
  unfold withTimeout. rewrite (timerDelay_in_range _ Hrange).
  replace (t <=? timeoutMs) with true by (symmetry; apply Z.leb_le; lia).
  reflexivity.
Qed.

(** Three failures in a row, the first two of them retryable: three calls,
    pauses of one and two seconds, and the third error thrown. *)
Lemma vendor_stage_three_failures (env : Env) (req : GenerateContentRequest)
    (timeoutMs : Z) (st : State) (e0 e1 e2 : Error) :
  1 <= timeoutMs <= 2147483647 ->
  failsInTime env req timeoutMs (vendorCalls st) e0 ->
  failsInTime env req timeoutMs (S (vendorCalls st)) e1 ->
  failsInTime env req timeoutMs (S (S (vendorCalls st))) e2 ->
  retriedByProviders e0 = true ->
  retriedByProviders e1 = true ->
  withRetry sleepState (generateContentWithTimeout env req timeoutMs)
    providerRetryOptions st
  = (Throw e2,
     mkState (trace st ++ threeCalls req) (S (S (S (vendorCalls st))))
       (clockReads st) (polls st)).
Proof.
  intros Hrange H0 H1 H2 Hr0 Hr1. unfold retriedByProviders in Hr0, Hr1.
  unfold withRetry.
  set (opts := mergeOptions DEFAULT_OPTIONS providerRetryOptions) in *.
  change (Z.to_nat (maxRetries opts + 1)) with 3%nat.
  change (initialDelayMs opts) with 1000.
  cbn [retryLoop].
  rewrite (generateContent_fails env req timeoutMs e0 st Hrange H0), Hr0.
  change (1 <=? maxRetries opts) with true. cbn [negb orb].
  unfold sleepState at 1, record at 1. cbn [trace vendorCalls clockReads polls].
  rewrite (generateContent_fails env req timeoutMs e1); [|exact Hrange | exact H1].
  rewrite Hr1. change (1 + 1 <=? maxRetries opts) with true. cbn [negb orb].
  change (Z.min (1000 * backoffMultiplier opts) (maxDelayMs opts)) with 2000.
  unfold sleepState at 1, record at 1. cbn [trace vendorCalls clockReads polls].
  rewrite (generateContent_fails env req timeoutMs e2); [|exact Hrange | exact H2].
  change (1 + 1 + 1 <=? maxRetries opts) with false. cbn [negb].
  rewrite orb_true_r. cbn [trace vendorCalls clockReads polls].
  unfold threeCalls. rewrite <- !app_assoc. reflexivity.
Qed.

Lemma retried_when_429 (e : Error) :
  includes (message e) "429" = true -> retriedByProviders e = true.
Proof.
  intros H. unfold retriedByProviders, isRetryableError.
  cbn [mergeOptions providerRetryOptions retryableErrors retryableErrors' orDefault
       existsb].
  rewrite H. cbn [orb]. now rewrite orb_true_r.
Qed.

(** Persistent retryable failures.  When the first three vendor calls of a
    generation are rejected in time and the first two rejections are
    retryable, the provider makes exactly these three calls, pausing one
    second and then two seconds in between, and throws the classification
    of the third rejection; for images nothing is written.  A rejection
    whose message contains [429] is retryable, and unless the message also
    mentions an API key it is classified as RATE_LIMIT. *)
Theorem persistent_vendor_failure_three_calls :
  (forall env options st fileParts e0 e1 e2,
      let req := textRequest options fileParts in
      let timeoutMs := GeminiTextProvider.DEFAULT_TIMEOUT_MS in
      validateThinkingLevel
        (orDefault (GeminiTextProvider.model options) DEFAULT_TEXT_MODEL)
        (orDefault (GeminiTextProvider.thinkingLevel options) high) = None ->
      resolveAll env (orDefault (GeminiTextProvider.files options) [])
      = Ok fileParts ->
      failsInTime env req timeoutMs (vendorCalls st) e0 ->
      failsInTime env req timeoutMs (S (vendorCalls st)) e1 ->
      failsInTime env req timeoutMs (S (S (vendorCalls st))) e2 ->
      retriedByProviders e0 = true ->
      retriedByProviders e1 = true ->
      GeminiTextProvider.generate env options st
      = (Throw (GeminiTextProvider.rethrow e2),
         mkState
           (trace st
            ++ touchedEvents env (orDefault (GeminiTextProvider.files options) [])
            ++ threeCalls req)
           (S (S (S (vendorCalls st)))) (clockReads st) (polls st)))
  /\ (forall env options st e0 e1 e2,
        let req := imageRequest options in
        let timeoutMs := GeminiImageProvider.DEFAULT_TIMEOUT_MS in
        imagePreflight options = None ->
        failsInTime env req timeoutMs (vendorCalls st) e0 ->
        failsInTime env req timeoutMs (S (vendorCalls st)) e1 ->
        failsInTime env req timeoutMs (S (S (vendorCalls st))) e2 ->
        retriedByProviders e0 = true ->
        retriedByProviders e1 = true ->
        GeminiImageProvider.generate env options st
        = (Throw (GeminiImageProvider.rethrow e2),
           mkState (trace st ++ threeCalls req) (S (S (S (vendorCalls st))))
             (clockReads st) (polls st)))
  /\ (forall e,
        includes (message e) "429" = true ->
        retriedByProviders e = true
        /\ (includes (message e) "API key" || includes (message e) "API_KEY" = false ->
            GeminiTextProvider.rethrow e
            = newError
                "RATE_LIMIT: Gemini API rate limit or quota exceeded. Please wait and retry."
            /\ GeminiImageProvider.rethrow e
               = newError
                   "RATE_LIMIT: Gemini API rate limit or quota exceeded. Please wait and retry.")).
Proof.
  split; [|split].
  - intros env options st fileParts e0 e1 e2 req timeoutMs Hvalid Hfiles
      H0 H1 H2 Hr0 Hr1.
    rewrite generate_text_stages, Hvalid, addFiles_resolveAll, Hfiles.
    unfold tryCatch, bind, textVendorStage. fold req. fold timeoutMs.
    rewrite (vendor_stage_three_failures env req timeoutMs _ e0 e1 e2);
      try assumption; [|split; discriminate].
    unfold throw, recordAll. cbn [trace vendorCalls clockReads polls].
    now rewrite <- app_assoc.
  - intros env options st e0 e1 e2 req timeoutMs Hpre H0 H1 H2 Hr0 Hr1.
    rewrite generate_image_stages, Hpre.
    unfold tryCatch, bind, imageVendorStage. fold req. fold timeoutMs.
    rewrite (vendor_stage_three_failures env req timeoutMs _ e0 e1 e2);
      try assumption; [|split; discriminate].
    reflexivity.
  - intros e H429. split; [now apply retried_when_429|]. intros Hkey.
    unfold GeminiTextProvider.rethrow, GeminiTextProvider.classify,
      GeminiImageProvider.rethrow, GeminiImageProvider.classify.
    rewrite Hkey, H429, !orb_true_r. split; reflexivity.
Qed.

Example rate_limited_text_generation :
  GeminiTextProvider.generate
    (Sample.env Sample.rateLimited Sample.tenSeconds (fun _ => Sample.inProgress))
    (GeminiTextProvider.mkOptions "hello" None None None None None None)
    initialState
  = (Throw (newError
       "RATE_LIMIT: Gemini API rate limit or quota exceeded. Please wait and retry."),
     mkState
       (threeCalls
          (mkRequest "gemini-3-pro-preview" (ContentArray [TextPart "hello"])
             (TextConfig 65536 (QArith_base.Qmake 7 10) "HIGH" true)))
       3 0 0).
Proof. reflexivity. Qed.


(* ===================================================================== *)
(** * categorizeError *)
(* ===================================================================== *)

Lemma includes_after_TIMEOUT (msg p : string) :
  In p CATEGORIZE_PATTERNS -> p <> "TIMEOUT" ->
  includes ("TIMEOUT: " ++ msg) p = includes msg p.
Proof.
  intros Hin Hp. unfold CATEGORIZE_PATTERNS in Hin. cbn [In] in Hin.
  repeat (destruct Hin as [<- | Hin]; [try congruence; destruct msg; reflexivity|]).
  contradiction.
Qed.

Lemma includes_after_API_ERROR (msg p : string) :
  In p CATEGORIZE_PATTERNS ->
  includes ("API_ERROR: " ++ msg) p = includes msg p.
Proof.
  intros Hin. unfold CATEGORIZE_PATTERNS in Hin. cbn [In] in Hin.
  repeat (destruct Hin as [<- | Hin]; [destruct msg; reflexivity|]).
  contradiction.
Qed.

(** [categorizeError].  The category is never VALIDATION_ERROR and the
    message of the categorized error is the category's name, a colon and a
    space followed by a text that is the original message for API_ERROR and
    TIMEOUT and a fixed text for the other categories.  The status looked
    at is [status], or [statusCode] when [status] is absent or 0; it is
    kept except for TIMEOUT, which drops it.  Categorizing is stable: a
    categorized error, categorized once more, keeps its category, and for
    the categories with a fixed text also its message.  A status of 401
    gives AUTH_ERROR whatever the message says. *)
Theorem categorizeError_stable (error : Error) :
  let once := categorizeError error in
  let twice := categorizeError (asError once) in
  (forall s, status error = Some s -> s <> 0 -> statusOf error = Some s)
  /\ (status error = None \/ status error = Some 0 ->
      statusOf error = errorStatusCode error)
  /\ category once <> VALIDATION_ERROR
  /\ (exists detail,
        mcpMessage once = categoryName (category once) ++ ": " ++ detail
        /\ (category once = API_ERROR \/ category once = TIMEOUT ->
            detail = message error))
  /\ (category once <> TIMEOUT -> statusCode once = statusOf error)
  /\ (category once = TIMEOUT -> statusCode once = None)
  /\ category twice = category once
  /\ (category once <> API_ERROR -> category once <> TIMEOUT ->
      mcpMessage twice = mcpMessage once)
  /\ (statusOf error = Some 401 -> category once = AUTH_ERROR).
Proof.
  intros once twice.
  assert ((forall s, status error = Some s -> s <> 0 -> statusOf error = Some s)
          /\ (status error = None \/ status error = Some 0 ->
              statusOf error = errorStatusCode error)) as Hstatus.
  { unfold statusOf. split.
    - intros s -> Hs. apply Z.eqb_neq in Hs. now rewrite Hs.
    - intros [-> | ->]; reflexivity. }
  destruct Hstatus as [Hstatus1 Hstatus2].
  split; [exact Hstatus1|]. split; [exact Hstatus2|]. clear Hstatus1 Hstatus2.
  assert (forall m c n,
             statusIs (mkErrorWith m None c) n
             = match c with Some s => s =? n | None => false end) as Hagain
    by reflexivity.
  assert (forall m c, statusOf (mkErrorWith m None c) = c) as Hcode by reflexivity.
  unfold twice, once, asError, categorizeError.
  cbn [message].
  destruct (statusIs error 401 || includes (message error) "API key"
            || includes (message error) "unauthorized") eqn:Hauth.
  { cbn [newMCPError mcpMessage statusCode category categoryName].
    assert (forall s : option Z,
               statusIs (mkErrorWith "AUTH_ERROR: Invalid or missing Gemini API key"
                           None s) 401
               || includes "AUTH_ERROR: Invalid or missing Gemini API key" "API key"
               || includes "AUTH_ERROR: Invalid or missing Gemini API key" "unauthorized"
               = true) as Hre
      by (intros s; apply orb_true_iff; left; apply orb_true_iff; right; reflexivity).
    rewrite Hre. cbn [newMCPError mcpMessage statusCode category categoryName].
    split; [discriminate|]. split.
    { eexists. split; [reflexivity|]. intros [H|H]; discriminate. }
    split; [reflexivity|]. split; [discriminate|]. split; [reflexivity|].
    split; [reflexivity|]. reflexivity. }
  apply orb_false_iff in Hauth. destruct Hauth as [Hauth Hunauth].
  apply orb_false_iff in Hauth. destruct Hauth as [H401 Hkey].
  assert (statusOf error = Some 401 -> False) as Hnot401.
  { intros Hs. unfold statusIs in H401. rewrite Hs in H401. discriminate. }
  assert (forall m, statusIs (mkErrorWith m None (statusOf error)) 401 = false)
    as H401' by (intros m; exact H401).
  destruct (statusIs error 429 || includes (message error) "rate"
            || includes (message error) "quota") eqn:Hrate.
  { cbn [newMCPError mcpMessage statusCode category categoryName].
    rewrite H401'.
    change (false
            || includes
                 ("RATE_LIMIT" ++ ": "
                  ++ "Gemini API rate limit or quota exceeded. Please wait and retry.")
                 "API key"
            || includes
                 ("RATE_LIMIT" ++ ": "
                  ++ "Gemini API rate limit or quota exceeded. Please wait and retry.")
                 "unauthorized") with false.
    cbn iota.
    assert (forall b, b || includes
                 ("RATE_LIMIT" ++ ": "
                  ++ "Gemini API rate limit or quota exceeded. Please wait and retry.")
                 "rate"
            || includes
                 ("RATE_LIMIT" ++ ": "
                  ++ "Gemini API rate limit or quota exceeded. Please wait and retry.")
                 "quota" = true) as Hre by (intros []; reflexivity).
    rewrite Hre. cbn [newMCPError mcpMessage statusCode category categoryName].
    split; [discriminate|]. split.
    { eexists. split; [reflexivity|]. intros [H|H]; discriminate. }
    split; [reflexivity|]. split; [discriminate|]. split; [reflexivity|].
    split; [reflexivity|]. intros Hs. now destruct (Hnot401 Hs). }
  apply orb_false_iff in Hrate. destruct Hrate as [Hrate Hquota].
  apply orb_false_iff in Hrate. destruct Hrate as [H429 Hrate].
  assert (forall m, statusIs (mkErrorWith m None (statusOf error)) 429 = false)
    as H429' by (intros m; exact H429).
  destruct (includes (message error) "safety" || includes (message error) "SAFETY")
    eqn:Hsafety.
  { cbn [newMCPError mcpMessage statusCode category categoryName].
    rewrite H401', H429'.
    split; [discriminate|]. split.
    { eexists. split; [reflexivity|]. intros [H|H]; discriminate. }
    split; [reflexivity|]. split; [discriminate|]. split; [reflexivity|].
    split; [reflexivity|]. intros Hs. now destruct (Hnot401 Hs). }
  apply orb_false_iff in Hsafety. destruct Hsafety as [Hsafety HSAFETY].
  destruct (includes (message error) "blocked"
            || includes (message error) "content policy") eqn:Hblocked.
  { cbn [newMCPError mcpMessage statusCode category categoryName].
    rewrite H401', H429'.
    split; [discriminate|]. split.
    { eexists. split; [reflexivity|]. intros [H|H]; discriminate. }
    split; [reflexivity|]. split; [discriminate|]. split; [reflexivity|].
    split; [reflexivity|]. intros Hs. now destruct (Hnot401 Hs). }
  apply orb_false_iff in Hblocked. destruct Hblocked as [Hblocked Hpolicy].
  assert (forall p, In p CATEGORIZE_PATTERNS -> p <> "TIMEOUT" -> p <> "timed out" ->
                    includes (message error) p = false) as Hnone.
  { intros p Hin Hp1 Hp2. unfold CATEGORIZE_PATTERNS in Hin. cbn [In] in Hin.
    repeat (destruct Hin as [<- | Hin]; [try assumption; congruence|]).
    contradiction. }
  destruct (includes (message error) "TIMEOUT" || includes (message error) "timed out")
    eqn:Htimeout.
  { cbn [newMCPError mcpMessage statusCode category categoryName].
    change (statusIs (mkErrorWith ("TIMEOUT" ++ ": " ++ message error) None None) 401)
      with false.
    change (statusIs (mkErrorWith ("TIMEOUT" ++ ": " ++ message error) None None) 429)
      with false.
    change ("TIMEOUT" ++ ": " ++ message error) with ("TIMEOUT: " ++ message error).
    change (includes ("TIMEOUT: " ++ message error) "TIMEOUT") with true.
    rewrite !includes_after_TIMEOUT, Hkey, Hunauth, Hrate, Hquota, Hsafety, HSAFETY,
      Hblocked, Hpolicy;
      try (unfold CATEGORIZE_PATTERNS; cbn [In]; tauto); try discriminate.
    cbn [orb newMCPError mcpMessage statusCode category categoryName].
    split; [discriminate|]. split.
    { eexists. split; [reflexivity|]. intros _. reflexivity. }
    split; [congruence|]. split; [reflexivity|]. split; [reflexivity|].
    split; [congruence|]. intros Hs. now destruct (Hnot401 Hs). }
  apply orb_false_iff in Htimeout. destruct Htimeout as [HTIMEOUT Htimedout].
  cbn [newMCPError mcpMessage statusCode category categoryName].
  rewrite H401', H429'.
  change ("API_ERROR" ++ ": " ++ message error) with ("API_ERROR: " ++ message error).
  rewrite !includes_after_API_ERROR, Hkey, Hunauth, Hrate, Hquota, Hsafety, HSAFETY,
    Hblocked, Hpolicy, HTIMEOUT, Htimedout;
    try (unfold CATEGORIZE_PATTERNS; cbn [In]; tauto).
  cbn [orb newMCPError mcpMessage statusCode category categoryName].
  split; [discriminate|]. split.
  { eexists. split; [reflexivity|]. intros _. reflexivity. }
  split; [reflexivity|]. split; [discriminate|]. split; [reflexivity|].
  split; [congruence|]. intros Hs. now destruct (Hnot401 Hs).
Qed.


(* ===================================================================== *)
(** * The logger *)
(* ===================================================================== *)

Section LoggerFacts.

Variable pf : Logger.Platform.

Lemma appendSilently_ok (file data : string) (w : Logger.World) :
  Logger.appendSilently pf file data w
  = (Ok tt,
     Logger.mkWorld (Logger.out w ++ [Logger.AppendFileSync file data])
       (Logger.dates w) (S (Logger.appends w))).
Proof.
  unfold Logger.appendSilently, Logger.appendFileSyncW.
  now destruct (Logger.appendFileSync pf (Logger.appends w) file data).
Qed.

(** A call of [log] whose details do not make [JSON.stringify] throw
    returns; it prints at most one line and appends at most the same line
    to the log file. *)
Lemma log_returns (this : Logger.Fields) (level : Logger.Level) (event : string)
    (details : Logger.Details) (w : Logger.World) :
  (forall e, details <> Logger.DetailsValue (Throw e)) ->
  exists evs w',
    Logger.log pf this level event details w = (Ok tt, w')
    /\ Logger.out w' = (Logger.out w ++ evs)%list
    /\ Forall (methodOutput this) evs
    /\ List.length (filter isStderr evs)
       = (if match level with Logger.LevelDebug => Logger.debug this | _ => true end
          then 1 else 0)%nat.
Proof.
  intros Hreturns. unfold Logger.log.
  assert (exists message,
             Logger.formatEntry
               {| Logger.timestamp := Logger.toISOString pf (Logger.dates w);
                  Logger.level := level;
                  Logger.event := event;
                  Logger.details := details |} = Ok message)
    as [message ->].
  { unfold Logger.formatEntry. cbn [Logger.details].
    destruct details as [|[[text|]|e]]; try (eexists; reflexivity).
    now elim (Hreturns e). }
  set (w1 := Logger.mkWorld (Logger.out w) (S (Logger.dates w)) (Logger.appends w)).
  assert (methodOutput this (Logger.Stderr ("[mcp-gemini] " ++ message))) as Hline
    by apply startsWith_app.
  assert (exists printed w2,
             (if String.eqb (Logger.levelName level) "error"
              then Logger.consoleError ("[mcp-gemini] " ++ message) w1
              else if String.eqb (Logger.levelName level) "warn"
                   then Logger.consoleError ("[mcp-gemini] " ++ message) w1
                   else if Logger.debug this || String.eqb (Logger.levelName level) "info"
                        then Logger.consoleError ("[mcp-gemini] " ++ message) w1
                        else w1) = w2
             /\ Logger.out w2 = (Logger.out w ++ printed)%list
             /\ Forall (methodOutput this) printed
             /\ List.length (filter isStderr printed)
                = (if match level with
                      | Logger.LevelDebug => Logger.debug this
                      | _ => true
                      end then 1 else 0)%nat) as (printed & w2 & -> & Hout & Hall & Hcount).
  { destruct level; cbn [Logger.levelName String.eqb Ascii.eqb Bool.eqb andb];
      try (exists [Logger.Stderr ("[mcp-gemini] " ++ message)]; eexists;
           split; [reflexivity|]; split; [reflexivity|];
           split; [now constructor | reflexivity]).
    - rewrite orb_true_r.
      exists [Logger.Stderr ("[mcp-gemini] " ++ message)]. eexists.
      split; [reflexivity|]. split; [reflexivity|].
      split; [now constructor | reflexivity].
    - rewrite orb_false_r. destruct (Logger.debug this).
      + exists [Logger.Stderr ("[mcp-gemini] " ++ message)]. eexists.
        split; [reflexivity|]. split; [reflexivity|].
        split; [now constructor | reflexivity].
      + exists []. eexists. split; [reflexivity|]. cbn. rewrite app_nil_r.
        split; [reflexivity|]. split; [constructor | reflexivity]. }
  destruct (Logger.logFile this) as [file|] eqn:Hfile.
  - destruct (truthy file).
    + rewrite appendSilently_ok.
      exists (printed ++ [Logger.AppendFileSync file (message ++ nl)])%list.
      eexists. split; [reflexivity|]. cbn [Logger.out].
      split; [now rewrite Hout, app_assoc|]. split.
      * apply Forall_app. split; [exact Hall|]. constructor; [|constructor].
        split; [now left | now exists message].
      * rewrite filter_app, length_app, Hcount. cbn. lia.
    + exists printed, w2. auto.
  - exists printed, w2. auto.
Qed.

Lemma log_outputs (this : Logger.Fields) (level : Logger.Level) (event : string)
    (details : option string) (w : Logger.World) :
  exists evs w',
    Logger.log pf this level event (Logger.rendered details) w = (Ok tt, w')
    /\ Logger.out w' = (Logger.out w ++ evs)%list
    /\ Forall (methodOutput this) evs
    /\ List.length (filter isStderr evs)
       = (if match level with Logger.LevelDebug => Logger.debug this | _ => true end
          then 1 else 0)%nat.
Proof.
  apply log_returns. intros e. now destruct details.
Qed.

Lemma performCall_outputs (this : Logger.Fields) (c : LoggerCall) (w : Logger.World) :
  exists evs w',
    performCall pf this c w = (Ok tt, w')
    /\ Logger.out w' = (Logger.out w ++ evs)%list
    /\ Forall (methodOutput this) evs
    /\ List.length (filter isStderr evs)
       = (if printsLine (Logger.debug this) c then 1 else 0)%nat
    /\ (printsLine (Logger.debug this) c = false -> w' = w).
Proof.
  destruct c as [event details|event details|event details|event details|entry];
    cbn [performCall printsLine].
  - destruct (log_outputs this Logger.LevelInfo event details w)
      as (evs & w' & Hrun & Hout & Hall & Hcount).
    exists evs, w'. repeat split; try assumption. discriminate.
  - destruct (log_outputs this Logger.LevelWarn event details w)
      as (evs & w' & Hrun & Hout & Hall & Hcount).
    exists evs, w'. repeat split; try assumption. discriminate.
  - destruct (log_outputs this Logger.LevelError event details w)
      as (evs & w' & Hrun & Hout & Hall & Hcount).
    exists evs, w'. repeat split; try assumption. discriminate.
  - unfold Logger.debugLog. destruct (Logger.debug this) eqn:Hdebug.
    + destruct (log_outputs this Logger.LevelDebug event details w)
        as (evs & w' & Hrun & Hout & Hall & Hcount).
      rewrite Hdebug in Hcount.
      exists evs, w'. repeat split; try assumption. discriminate.
    + exists [], w. rewrite app_nil_r. repeat split. constructor.
  - unfold Logger.logUsage, Logger.info.
    set (summary := if Logger.success entry then _ else _).
    destruct (log_outputs this Logger.LevelInfo summary None w)
      as (evs & w1 & Hrun & Hout & Hall & Hcount).
    cbn [Logger.rendered] in Hrun. rewrite Hrun.
    destruct (Logger.usageFile this) as [file|] eqn:Hfile.
    + destruct (truthy file).
      * rewrite appendSilently_ok.
        exists (evs ++ [Logger.AppendFileSync file
                          (Logger.stringifyUsage pf entry ++ nl)])%list.
        eexists. split; [reflexivity|]. cbn [Logger.out].
        split; [now rewrite Hout, app_assoc|]. split; [|split; [|discriminate]].
        -- apply Forall_app. split; [exact Hall|]. constructor; [|constructor].
           split; [now right | now eexists].
        -- rewrite filter_app, length_app, Hcount. cbn. lia.
      * exists evs, w1. repeat split; try assumption. discriminate.
    + exists evs, w1. repeat split; try assumption. discriminate.
Qed.

Lemma performCalls_outputs (this : Logger.Fields) (cs : list LoggerCall) :
  forall w,
    exists evs w',
      performCalls pf this cs w = (Ok tt, w')
      /\ Logger.out w' = (Logger.out w ++ evs)%list
      /\ Forall (methodOutput this) evs
      /\ List.length (filter isStderr evs)
         = List.length (filter (printsLine (Logger.debug this)) cs).
Proof.
  induction cs as [|c cs IH]; intros w.
  - exists [], w. rewrite app_nil_r. repeat split. constructor.
  - cbn [performCalls].
    destruct (performCall_outputs this c w) as (evs1 & w1 & Hrun & Hout1 & Hall1 & Hc1 & _).
    rewrite Hrun.
    destruct (IH w1) as (evs2 & w2 & Hrest & Hout2 & Hall2 & Hc2).
    exists (evs1 ++ evs2)%list, w2. split; [exact Hrest|].
    split; [now rewrite Hout2, Hout1, app_assoc|].
    split; [now apply Forall_app|].
    rewrite filter_app, length_app, Hc1, Hc2. cbn [filter].
    destruct (printsLine (Logger.debug this) c); cbn [List.length]; lia.
Qed.

Lemma construct_outputs (w : Logger.World) :
  exists this evs w',
    Logger.construct pf w = (Ok this, w')
    /\ Logger.out w' = (Logger.out w ++ evs)%list
    /\ Forall (allowedOutput pf) evs
    /\ fieldsConfined pf this
    /\ Logger.debug this = debugOf pf
    /\ List.length (filter isStderr evs)
       = (if String.eqb (logDirOf pf) "none" then 0 else 1)%nat
    /\ (Logger.existsSync pf (logDirOf pf) = false ->
        Logger.mkdirSync pf (logDirOf pf) <> None ->
        Logger.logFile this = None /\ Logger.usageFile this = None).
Proof.
  unfold Logger.construct. fold (logDirOf pf). fold (debugOf pf).
  destruct (String.eqb (logDirOf pf) "none") eqn:Hnone.
  - exists (Logger.mkFields None None (debugOf pf)), [], w.
    rewrite app_nil_r. split; [reflexivity|]. split; [reflexivity|].
    split; [constructor|]. split; [intros path [H|H]; discriminate|].
    repeat split.
  - apply String.eqb_neq in Hnone.
    assert (allowedOutput pf (Logger.ExistsSync (logDirOf pf))) as Hlook
      by (split; [reflexivity | exact Hnone]).
    destruct (Logger.existsSync pf (logDirOf pf)) eqn:Hexists; cbn [negb].
    + set (this := Logger.mkFields _ _ _).
      destruct (log_outputs this Logger.LevelInfo "Logger initialized"
                  (Some ("{" ++ dquote ++ "logDir" ++ dquote ++ ":"
                         ++ Logger.stringify pf (logDirOf pf)
                         ++ "," ++ dquote ++ "logFile" ++ dquote ++ ":"
                         ++ Logger.stringify pf
                              (Logger.pathJoin pf (logDirOf pf) "mcp-gemini.log")
                         ++ "," ++ dquote ++ "usageFile" ++ dquote ++ ":"
                         ++ Logger.stringify pf
                              (Logger.pathJoin pf (logDirOf pf) "usage.jsonl") ++ "}"))
                  (Logger.emit (Logger.ExistsSync (logDirOf pf)) w))
        as (evs & w' & Hrun & Hout & Hall & Hcount).
      unfold Logger.info. rewrite Hrun.
      assert (fieldsConfined pf this) as Hfields.
      { intros path [H|H]; injection H as <-; (split; [exact Hnone|]);
          (split; [now left|]); [now left | now right]. }
      exists this, (Logger.ExistsSync (logDirOf pf) :: evs), w'.
      split; [reflexivity|]. split.
      { rewrite Hout. unfold Logger.emit. cbn [Logger.out].
        now rewrite <- app_assoc. }
      split.
      { constructor; [exact Hlook|].
        eapply Forall_impl; [|exact Hall]. intros o Ho.
        destruct o as [line|p|p|p d]; cbn in Ho |- *; try contradiction; [exact Ho|].
        destruct Ho as (Hp & Hd). destruct (Hfields p Hp) as (H1 & H2 & H3). auto. }
      split; [exact Hfields|]. split; [reflexivity|].
      split; [cbn [filter isStderr]; exact Hcount | intros; discriminate].
    + destruct (Logger.mkdirSync pf (logDirOf pf)) as [e|] eqn:Hmk.
      * exists (Logger.mkFields None None (debugOf pf)),
          [Logger.ExistsSync (logDirOf pf); Logger.MkdirSync (logDirOf pf);
           Logger.Stderr ("[mcp-gemini] Failed to initialize log files: "
                          ++ message e)],
          (Logger.consoleError
             ("[mcp-gemini] Failed to initialize log files: " ++ message e)
             (Logger.emit (Logger.MkdirSync (logDirOf pf))
                (Logger.emit (Logger.ExistsSync (logDirOf pf)) w))).
        split; [reflexivity|]. split.
        { unfold Logger.consoleError, Logger.emit. cbn [Logger.out].
          now rewrite <- !app_assoc. }
        split.
        { constructor; [exact Hlook|]. constructor; [now repeat split|].
          constructor; [|constructor]. reflexivity. }
        split; [intros path [H|H]; discriminate|].
        repeat split.
      * set (this := Logger.mkFields _ _ _).
        destruct (log_outputs this Logger.LevelInfo "Logger initialized"
                    (Some ("{" ++ dquote ++ "logDir" ++ dquote ++ ":"
                           ++ Logger.stringify pf (logDirOf pf)
                           ++ "," ++ dquote ++ "logFile" ++ dquote ++ ":"
                           ++ Logger.stringify pf
                                (Logger.pathJoin pf (logDirOf pf) "mcp-gemini.log")
                           ++ "," ++ dquote ++ "usageFile" ++ dquote ++ ":"
                           ++ Logger.stringify pf
                                (Logger.pathJoin pf (logDirOf pf) "usage.jsonl") ++ "}"))
                    (Logger.emit (Logger.MkdirSync (logDirOf pf))
                       (Logger.emit (Logger.ExistsSync (logDirOf pf)) w)))
          as (evs & w' & Hrun & Hout & Hall & Hcount).
        unfold Logger.info. rewrite Hrun.
        assert (fieldsConfined pf this) as Hfields.
        { intros path [H|H]; injection H as <-; (split; [exact Hnone|]);
            (split; [now right|]); [now left | now right]. }
        exists this,
          (Logger.ExistsSync (logDirOf pf) :: Logger.MkdirSync (logDirOf pf) :: evs), w'.
        split; [reflexivity|]. split.
        { rewrite Hout. unfold Logger.emit. cbn [Logger.out].
          now rewrite <- !app_assoc. }
        split.
        { constructor; [exact Hlook|]. constructor; [now repeat split|].
          eapply Forall_impl; [|exact Hall]. intros o Ho.
          destruct o as [line|p|p|p d]; cbn in Ho |- *; try contradiction; [exact Ho|].
          destruct Ho as (Hp & Hd). destruct (Hfields p Hp) as (H1 & H2 & H3). auto. }
        split; [exact Hfields|]. split; [reflexivity|].
        split; [cbn [filter isStderr]; exact Hcount|].
        intros _ Hfail. now destruct Hfail.
Qed.

(** A session returns, and what it puts out is allowed by the
    configuration. *)
Lemma loggerSession_outputs (cs : list LoggerCall) (w : Logger.World) :
  exists evs w',
    loggerSession pf cs w = (Ok tt, w')
    /\ Logger.out w' = (Logger.out w ++ evs)%list
    /\ Forall (allowedOutput pf) evs
    /\ List.length (filter isStderr evs)
       = ((if String.eqb (logDirOf pf) "none" then 0 else 1)
          + List.length (filter (printsLine (debugOf pf)) cs))%nat
    /\ (Logger.existsSync pf (logDirOf pf) = false ->
        Logger.mkdirSync pf (logDirOf pf) <> None ->
        forall path data, ~ In (Logger.AppendFileSync path data) evs).
Proof.
  unfold loggerSession.
  destruct (construct_outputs w)
    as (this & evs0 & w0 & Hrun & Hout0 & Hall0 & Hfields & Hdebug & Hcount0 & Hnofile).
  rewrite Hrun.
  destruct (performCalls_outputs this cs w0) as (evs & w' & Hcalls & Hout & Hall & Hcount).
  exists (evs0 ++ evs)%list, w'. split; [exact Hcalls|].
  split; [now rewrite Hout, Hout0, app_assoc|].
  assert (Forall (allowedOutput pf) evs) as Hallowed.
  { eapply Forall_impl; [|exact Hall]. intros o Ho.
    destruct o as [line|p|p|p d]; cbn in Ho |- *; try contradiction; [exact Ho|].
    destruct Ho as (Hp & Hd). destruct (Hfields p Hp) as (H1 & H2 & H3). auto. }
  split; [now apply Forall_app|]. split.
  - rewrite filter_app, length_app, Hcount0, Hcount, Hdebug. reflexivity.
  - intros Hmissing Hfail path data Hin.
    assert (Forall (allowedOutput pf) (evs0 ++ evs)) as Hboth by now apply Forall_app.
    rewrite Forall_forall in Hboth. specialize (Hboth _ Hin).
    cbn in Hboth. destruct Hboth as (_ & [Hthere | Hmade] & _); congruence.
Qed.

End LoggerFacts.

(** Where the logger writes, and when it throws.  Whatever the
    configuration and the file system do, a session of the logger (its
    construction followed by any calls of [info], [warn], [error],
    [debugLog] and [logUsage] whose details, if any, [JSON.stringify]
    renders as a text) never throws, and everything it puts out is a line
    on the standard error stream tagged [[mcp-gemini]], a lookup or the
    creation of the configured directory (the latter only when it is
    missing), or a line, ended by a line feed, appended to
    [mcp-gemini.log] or [usage.jsonl] in that directory.  With
    [MCP_LOG_DIR=none] the file system is not touched at all; when the
    directory is missing and cannot be created nothing is ever appended.
    A call of [log] (which [info], [warn] and [error] are, at their
    level) throws exactly when [JSON.stringify] throws on its details:
    the exception is that of [JSON.stringify], the clock has been read,
    and nothing is printed or appended; with any other details the call
    returns, whether or not the append succeeds.  [debugLog] with
    debugging off returns without looking at its details. *)
Theorem logger_outputs_confined
    (pf : Logger.Platform) (cs : list LoggerCall) (w : Logger.World) :
  (exists evs w',
      loggerSession pf cs w = (Ok tt, w')
      /\ Logger.out w' = (Logger.out w ++ evs)%list
      /\ Forall (allowedOutput pf) evs
      /\ (logDirOf pf = "none" -> Forall (fun o => isStderr o = true) evs)
      /\ (Logger.existsSync pf (logDirOf pf) = false ->
          Logger.mkdirSync pf (logDirOf pf) <> None ->
          forall path data, ~ In (Logger.AppendFileSync path data) evs))
  /\ (forall this level event e w0,
        Logger.log pf this level event (Logger.DetailsValue (Throw e)) w0
        = (Throw e,
           Logger.mkWorld (Logger.out w0) (S (Logger.dates w0)) (Logger.appends w0)))
  /\ (forall this level event details w0,
        (forall e, details <> Logger.DetailsValue (Throw e)) ->
        exists evs w1,
          Logger.log pf this level event details w0 = (Ok tt, w1)
          /\ Logger.out w1 = (Logger.out w0 ++ evs)%list
          /\ Forall (methodOutput this) evs)
  /\ (forall this event details w0,
        Logger.debug this = false ->
        Logger.debugLog pf this event details w0 = (Ok tt, w0)).
Proof.
  split; [|split; [|split]].
  - destruct (loggerSession_outputs pf cs w) as (evs & w' & Hrun & Hout & Hall & _ & Hno).
    exists evs, w'. split; [exact Hrun|]. split; [exact Hout|]. split; [exact Hall|].
    split; [|exact Hno].
    intros Hnone. eapply Forall_impl; [|exact Hall].
    intros o Ho. destruct o as [line|p|p|p d]; cbn in Ho |- *;
      [reflexivity | | |]; exfalso; tauto.
  - reflexivity.
  - intros this level event details w0 Hreturns.
    destruct (log_returns pf this level event details w0 Hreturns)
      as (evs & w1 & Hrun & Hout & Hall & _).
    exists evs, w1. auto.
  - intros this event details w0 Hoff. unfold Logger.debugLog. now rewrite Hoff.
Qed.

Example logger_details_that_cannot_be_rendered :
  let pf := samplePlatform None None in
  let this := Logger.mkFields (Some "logs/mcp-gemini.log") (Some "logs/usage.jsonl")
                true in
  let cyclic :=
    Logger.DetailsValue
      (Throw (newError "Converting circular structure to JSON")) in
  Logger.error pf this "Image generation failed" cyclic (Logger.mkWorld [] 0 0)
  = (Throw (newError "Converting circular structure to JSON"), Logger.mkWorld [] 1 0)
  /\ Logger.info pf this "Starting" (Logger.DetailsValue (Ok None))
       (Logger.mkWorld [] 0 0)
     = (Ok tt,
        Logger.mkWorld
          [Logger.Stderr "[mcp-gemini] [T0] [INFO] Starting ";
           Logger.AppendFileSync "logs/mcp-gemini.log" ("[T0] [INFO] Starting " ++ nl)]
          1 1).
Proof. split; reflexivity. Qed.

(** How much the logger prints.  A session prints one line when it is
    constructed (unless [MCP_LOG_DIR=none]) and then exactly one line for
    every call of [info], [warn], [error] and [logUsage]; a call of
    [debugLog] prints one line when debugging is on, and when it is off
    ([MCP_DEBUG=false]) it does nothing at all: no line, no file access, no
    reading of the clock. *)
Theorem logger_prints_one_line_per_call
    (pf : Logger.Platform) (cs : list LoggerCall) (w : Logger.World) :
  (exists evs,
      Logger.out (snd (loggerSession pf cs w)) = (Logger.out w ++ evs)%list
      /\ List.length (filter isStderr evs)
         = ((if String.eqb (logDirOf pf) "none" then 0 else 1)
            + List.length (filter (printsLine (debugOf pf)) cs))%nat)
  /\ (forall this event details w0,
        Logger.debug this = false ->
        performCall pf this (CallDebugLog event details) w0 = (Ok tt, w0))
  /\ (forall this c w0,
        printsLine (Logger.debug this) c = true ->
        exists line before after,
          Logger.out (snd (performCall pf this c w0))
          = (Logger.out w0 ++ before ++ Logger.Stderr line :: after)%list
          /\ startsWith line "[mcp-gemini] " = true
          /\ Forall (fun o => isStderr o = false) (before ++ after)).
Proof.
  split; [|split].
  - destruct (loggerSession_outputs pf cs w) as (evs & w' & Hrun & Hout & _ & Hcount & _).
    exists evs. rewrite Hrun. split; [exact Hout | exact Hcount].
  - intros this event details w0 Hoff. cbn [performCall]. unfold Logger.debugLog.
    now rewrite Hoff.
  - intros this c w0 Hprints.
    destruct (performCall_outputs pf this c w0) as (evs & w' & Hrun & Hout & Hall & Hcount & _).
    rewrite Hrun, Hprints in *. cbn [snd]. rewrite Hout. clear Hrun Hout.
    induction evs as [|o evs IH]; [discriminate|].
    inversion Hall as [|? ? Ho Hrest]; subst.
    destruct o as [line|p|p|p d]; cbn in Ho; try contradiction.
    + exists line, [], evs. split; [reflexivity|]. split; [exact Ho|].
      cbn [filter isStderr List.length] in Hcount.
      assert (filter isStderr evs = []) as Hnone
        by (destruct (filter isStderr evs); [reflexivity | discriminate]).
      cbn [app]. clear -Hnone. induction evs as [|o evs IH]; [constructor|].
      cbn [filter] in Hnone. destruct (isStderr o) eqn:Ho; [discriminate|].
      constructor; [exact Ho | now apply IH].
    + cbn [filter isStderr] in Hcount.
      destruct (IH Hrest Hcount) as (line & before & after & Heq & Hline & Hothers).
      exists line, (Logger.AppendFileSync p d :: before), after.
      split; [|split; [exact Hline|]].
      * apply app_inv_head in Heq. rewrite Heq. reflexivity.
      * cbn [app]. constructor; [reflexivity | exact Hothers].
Qed.

Example logger_session_without_files :
  loggerSession (samplePlatform (Some "false") (Some "none"))
    [CallInfo "Starting MCP server" None;
     CallDebugLog "Research poll" (Some "{}");
     CallError "Deep research failed" None]
    (Logger.mkWorld [] 0 0)
  = (Ok tt,
     Logger.mkWorld
       [Logger.Stderr "[mcp-gemini] [T0] [INFO] Starting MCP server";
        Logger.Stderr "[mcp-gemini] [T1] [ERROR] Deep research failed"]
       2 0).
Proof. reflexivity. Qed.

Example logger_session_with_failing_appends :
  loggerSession (samplePlatform None None)
    [CallDebugLog "Research poll" None]
    (Logger.mkWorld [] 0 0)
  = (Ok tt,
     Logger.mkWorld
       [Logger.ExistsSync "logs"; Logger.MkdirSync "logs";
        Logger.Stderr
          ("[mcp-gemini] [T0] [INFO] Logger initialized {"
           ++ dquote ++ "logDir" ++ dquote ++ ":" ++ dquote ++ "logs" ++ dquote ++ ","
           ++ dquote ++ "logFile" ++ dquote ++ ":"
           ++ dquote ++ "logs/mcp-gemini.log" ++ dquote ++ ","
           ++ dquote ++ "usageFile" ++ dquote ++ ":"
           ++ dquote ++ "logs/usage.jsonl" ++ dquote ++ "}");
        Logger.AppendFileSync "logs/mcp-gemini.log"
          ("[T0] [INFO] Logger initialized {"
           ++ dquote ++ "logDir" ++ dquote ++ ":" ++ dquote ++ "logs" ++ dquote ++ ","
           ++ dquote ++ "logFile" ++ dquote ++ ":"
           ++ dquote ++ "logs/mcp-gemini.log" ++ dquote ++ ","
           ++ dquote ++ "usageFile" ++ dquote ++ ":"
           ++ dquote ++ "logs/usage.jsonl" ++ dquote ++ "}" ++ nl);
        Logger.Stderr "[mcp-gemini] [T1] [DEBUG] Research poll";
        Logger.AppendFileSync "logs/mcp-gemini.log" ("[T1] [DEBUG] Research poll" ++ nl)]
       2 2).
Proof. reflexivity. Qed.


(* ===================================================================== *)
(** * Retryable errors *)
(* ===================================================================== *)

Lemma toLowerCase_ascii (s : string) :
  isAscii s = true -> toLowerCase s = foldAsciiLetters s.
Proof.
  induction s as [|a s1 IH]; [reflexivity|].
  cbn [isAscii]. intros H. apply andb_true_iff in H. destruct H as [Ha Hs1].
  specialize (IH Hs1). apply Nat.ltb_lt in Ha.
  assert (Nat.eqb (byte a) 196 = false) as H196 by (apply Nat.eqb_neq; lia).
  assert (Nat.eqb (byte a) 226 = false) as H226 by (apply Nat.eqb_neq; lia).
  cbn [foldAsciiLetters]. rewrite <- IH. cbn [toLowerCase].
  destruct s1 as [|b s2]; [reflexivity|].
  unfold isCapitalIDot. rewrite H196. cbn [andb].
  destruct s2 as [|c s3]; [reflexivity|].
  unfold isKelvinSign. rewrite H226. reflexivity.
Qed.

Lemma prefix_isAscii (p : string) :
  forall s, String.prefix p s = true -> isAscii s = true -> isAscii p = true.
Proof.
  induction p as [|a p IH]; intros s H Hs; [reflexivity|].
  destruct s as [|b s]; [discriminate|].
  cbn [String.prefix isAscii] in *.
  destruct (ascii_dec a b) as [->|]; [|discriminate].
  apply andb_true_iff in Hs. destruct Hs as [Hb Hs].
  rewrite Hb. cbn [andb]. now apply (IH s).
Qed.

Lemma includes_isAscii (s p : string) :
  includes s p = true -> isAscii s = true -> isAscii p = true.
Proof.
  induction s as [|c s IH]; cbn [includes].
  - destruct (String.prefix p EmptyString) eqn:Hp; [|discriminate].
    intros _. now apply prefix_isAscii.
  - destruct (String.prefix p (String c s)) eqn:Hp.
    + intros _. now apply prefix_isAscii.
    + intros H Hs. cbn [isAscii] in Hs. apply andb_true_iff in Hs.
      now apply IH.
Qed.

Lemma prefix_foldAsciiLetters (p : string) :
  forall s, String.prefix p s = true ->
            String.prefix (foldAsciiLetters p) (foldAsciiLetters s) = true.
Proof.
  induction p as [|a p IH]; intros s H; [now destruct s|].
  destruct s as [|b s]; [discriminate|].
  cbn [String.prefix foldAsciiLetters] in *.
  destruct (ascii_dec a b) as [->|]; [|discriminate].
  destruct (ascii_dec (lowerAscii b) (lowerAscii b)); [|congruence].
  now apply IH.
Qed.

Lemma includes_foldAsciiLetters (s p : string) :
  includes s p = true -> includes (foldAsciiLetters s) (foldAsciiLetters p) = true.
Proof.
  induction s as [|c s IH]; cbn [includes foldAsciiLetters].
  - destruct (String.prefix p EmptyString) eqn:Hp; [|discriminate].
    intros _. pose proof (prefix_foldAsciiLetters p EmptyString Hp) as Hl.
    cbn [foldAsciiLetters] in Hl. now rewrite Hl.
  - destruct (String.prefix p (String c s)) eqn:Hp.
    + intros _.
      pose proof (prefix_foldAsciiLetters p (String c s) Hp) as Hl.
      cbn [foldAsciiLetters] in Hl. now rewrite Hl.
    + intros H. rewrite (IH H).
      now destruct (String.prefix (foldAsciiLetters p)
                      (String (lowerAscii c) (foldAsciiLetters s))).
Qed.

Lemma includes_toLowerCase (s p : string) :
  isAscii s = true ->
  includes s p = true -> includes (toLowerCase s) (toLowerCase p) = true.
Proof.
  intros Hs H.
  rewrite (toLowerCase_ascii s Hs), (toLowerCase_ascii p (includes_isAscii s p H Hs)).
  now apply includes_foldAsciiLetters.
Qed.

(** Retryable errors are recognised without regard to the case of ASCII
    letters.  An error whose message holds ASCII characters only is
    retryable exactly when its message, in lower case, contains one of the
    patterns in lower case, and the lower case of such a message is the
    message with the letters A to Z folded.  So two such messages that
    differ only in letter case are retryable alike; no error is retryable
    for an empty list of patterns, and every error is when the list holds
    the empty pattern. *)
Theorem isRetryableError_ignores_case (error : Error) (patterns : list string) :
  isAscii (message error) = true ->
  isRetryableError error patterns
  = existsb
      (fun pattern => includes (toLowerCase (message error)) (toLowerCase pattern))
      patterns
  /\ toLowerCase (message error) = foldAsciiLetters (message error)
  /\ (forall other,
        isAscii (message other) = true ->
        foldAsciiLetters (message other) = foldAsciiLetters (message error) ->
        isRetryableError other patterns = isRetryableError error patterns)
  /\ isRetryableError error [] = false
  /\ (In EmptyString patterns -> isRetryableError error patterns = true).
Proof.
  intros Hascii.
  assert (forall e,
             isAscii (message e) = true ->
             isRetryableError e patterns
             = existsb
                 (fun pattern => includes (toLowerCase (message e)) (toLowerCase pattern))
                 patterns) as Hspec.
  { intros e He. unfold isRetryableError.
    induction patterns as [|p ps IH]; [reflexivity|].
    cbn [existsb]. rewrite IH. f_equal.
    destruct (includes (message e) p) eqn:Hp; [|reflexivity].
    now rewrite (includes_toLowerCase _ _ He Hp). }
  split; [now apply Hspec|]. split; [now apply toLowerCase_ascii|]. split; [|split].
  - intros other Hother Hsame.
    rewrite (Hspec other Hother), (Hspec error Hascii).
    now rewrite (toLowerCase_ascii _ Hother), (toLowerCase_ascii _ Hascii), Hsame.
  - reflexivity.
  - intros Hin. unfold isRetryableError. apply existsb_exists.
    exists EmptyString. split; [exact Hin|].
    now destruct (message error).
Qed.

Lemma isRetryableError_ignores_case_witness :
  isRetryableError (newError "RATE_LIMIT reached") (retryableErrors DEFAULT_OPTIONS)
  = isRetryableError (newError "Rate_Limit reached") (retryableErrors DEFAULT_OPTIONS)
  /\ isRetryableError (newError "Rate_Limit reached") (retryableErrors DEFAULT_OPTIONS)
     = true.
Proof.
  split; [|reflexivity].
  exact (proj1 (proj2 (proj2
           (isRetryableError_ignores_case (newError "Rate_Limit reached")
              (retryableErrors DEFAULT_OPTIONS) eq_refl)))
           (newError "RATE_LIMIT reached") eq_refl eq_refl).
Defined.

(** The Kelvin sign (U+212A) has the lower case [k]: a message that
    spells a pattern with it is retryable. *)
Example isRetryableError_kelvin_sign :
  let kelvin := String (ascii_of_nat 226) (String (ascii_of_nat 132)
                  (String (ascii_of_nat 170) EmptyString)) in
  toLowerCase ("NETWOR" ++ kelvin ++ " down") = "network down"
  /\ isRetryableError (newError ("NETWOR" ++ kelvin ++ " down")) ["network"] = true
  /\ isRetryableError (newError "NETWOR down") ["network"] = false.
Proof. repeat split. Qed.

Example isRetryableError_letter_case :
  isRetryableError (newError "Rate_Limit reached") (retryableErrors DEFAULT_OPTIONS) = true
  /\ isRetryableError (newError "socket hang up: econnreset")
       (retryableErrors DEFAULT_OPTIONS) = true
  /\ isRetryableError (newError "got status: 400 Bad Request")
       (retryableErrors DEFAULT_OPTIONS) = false.
Proof. repeat split. Qed.

(* ===================================================================== *)
(** * Failures at the tool boundary *)
(* ===================================================================== *)


(** The dispatcher's own rejection of an unknown model, and the failure of
    the provider when the model is the empty string, which that check lets
    through: neither text names a category. *)
Example model_rejections_carry_no_category :
  let env :=
    Sample.env (Ok Sample.okResponse) Sample.tenSeconds (fun _ => Sample.inProgress) in
  Server.resultText
    (fst (Server.handleGenerateText env
            (Server.mkTextArguments "hello" (Some "gemini-2") None None None None None)
            initialState))
  = "Error: Unknown text model " ++ dquote ++ "gemini-2" ++ dquote
    ++ ". Supported models: gemini-3-pro, gemini-3-flash"
  /\ Server.handleGenerateText env
       (Server.mkTextArguments "hello" (Some EmptyString) None None None None None)
       initialState
     = (Server.errorResult
          "Error: Cannot read properties of undefined (reading 'includes')",
        initialState)
  /\ beginsWithCategory "Cannot read properties of undefined (reading 'includes')"
     = false.
Proof. repeat split. Qed.
